(** * ArrayMethod: descriptor resolution, loop selection and masked loops

    A shallow embedding of [numpy/core/src/multiarray/array_method.c].

    C pointers are modelled as [option]s ([None] is [NULL]); object
    identity is an address carried by the object.  Arrays are lists and
    every read goes through [load], so that reading through [NULL] or past
    the end of an array is the explicit outcome [Undefined] rather than a
    silently chosen value.  A C function that reports failure by an error
    return with the Python error indicator set is modelled by [Raise].
    Reference counts are not modelled, and memory is taken to be there for
    every request the allocator can serve.  The code is read for a platform
    on which [int] has 32 bits and pointers and [size_t] have 64. *)

From Stdlib Require Import ZArith String List Bool Lia.
From stdpp Require Import base list.
Import ListNotations.

Local Open Scope string_scope.
Local Open Scope Z_scope.

(** ** Outcomes of a C call *)

Inductive PyExc : Type :=
| PyExc_TypeError
| PyExc_ValueError
| PyExc_RuntimeError
| PyExc_Propagated. (* whatever a collaborator left in the error indicator *)

Inductive outcome (A : Type) : Type :=
| Ok (a : A)
| Raise (exc : PyExc) (msg : string)
| Undefined.

Arguments Ok {A} a.
Arguments Raise {A} exc msg.
Arguments Undefined {A}.

Definition bind {A B : Type} (m : outcome A) (k : A -> outcome B) : outcome B :=
  match m with
  | Ok a => k a
  | Raise exc msg => Raise exc msg
  | Undefined => Undefined
  end.

Notation "x <- e ;; k" := (bind e (fun x => k))
  (at level 100, e at next level, right associativity).

(** [p->field] and [*p]: reading through [NULL] is undefined. *)
Definition deref {A : Type} (p : option A) : outcome A :=
  match p with
  | Some a => Ok a
  | None => Undefined
  end.

(** [a[i]]: reading outside the array is undefined. *)
Definition load {A : Type} (a : list A) (i : Z) : outcome A :=
  if i <? 0 then Undefined
  else match a !! Z.to_nat i with
       | Some x => Ok x
       | None => Undefined
       end.

(** [a[i] = x]. *)
Definition store {A : Type} (a : list A) (i : Z) (x : A) : outcome (list A) :=
  if (0 <=? i) && (i <? Z.of_nat (length a)) then Ok (<[Z.to_nat i := x]> a)
  else Undefined.

(** A callee that hands back [NULL] has set the error indicator. *)
Definition new_reference {A : Type} (r : option A) (callee : string) : outcome A :=
  match r with
  | Some a => Ok a
  | None => Raise PyExc_Propagated callee
  end.

(** ** C integers *)

Definition INT_MIN : Z := - 2 ^ 31.

Definition INT_MAX : Z := 2 ^ 31 - 1.

(** The value is one an [int] holds. *)
Definition is_int (z : Z) : bool := (INT_MIN <=? z) && (z <=? INT_MAX).

(** [a + b] on two [int]s as the compiled code adds them: modulo
    [2 ^ 32], in two's complement (the C standard itself leaves a signed
    sum that overflows undefined).  The fields of the model are in [Z]; a
    record with a field that is no [int] stands for no C object, and the
    sum of such fields for no value. *)
Definition int_add (a b : Z) : outcome Z :=
  if is_int a && is_int b then Ok ((a + b - INT_MIN) mod 2 ^ 32 + INT_MIN)
  else Undefined.

(** [sizeof (PyArray_DTypeMeta * ) * nargs]: the [int] is converted to
    [size_t] and multiplied by the size of a pointer, modulo [2 ^ 64]. *)
Definition sizeof_pointers (nargs : Z) : Z :=
  (8 * (nargs mod 2 ^ 64)) mod 2 ^ 64.

(** The largest request [PyMem_Malloc], the allocator of the Python
    runtime, serves: [PY_SSIZE_T_MAX] bytes.  It answers a larger one with
    [NULL]. *)
Definition PY_SSIZE_T_MAX : Z := 2 ^ 63 - 1.

Definition PyMem_Malloc_fails (size : Z) : bool := size >? PY_SSIZE_T_MAX.

(** ** Constants of the headers

    The headers that declare them ([ndarraytypes.h], [array_method.h]) are
    not among the sources at hand. *)

(** Modelled from the spec: the levels of the enum [NPY_CASTING], which
    the spec orders no-casting < equivalent < safe < same-kind < unsafe;
    the numbers follow that order. *)
Definition NPY_NO_CASTING : Z := 0.

(** Modelled from the spec: the level "equivalent". *)
Definition NPY_EQUIV_CASTING : Z := 1.

(** Modelled from the spec: the level "safe". *)
Definition NPY_SAFE_CASTING : Z := 2.

(** Modelled from the spec: the level "same-kind". *)
Definition NPY_SAME_KIND_CASTING : Z := 3.

(** Modelled from the spec: the level "unsafe". *)
Definition NPY_UNSAFE_CASTING : Z := 4.

(** Modelled from the spec: the flag "conversion is a no-op view", a bit
    of its own above the levels. *)
Definition _NPY_CAST_IS_VIEW : Z := Z.shiftl 1 16.

(** Modelled from the spec: the fixed maximum of [nin + nout]. *)
Definition NPY_MAXARGS : Z := 32.

(** Modelled from the spec: the capability flags of a method.  Two flags
    propagate to callers, a third says that the method supports unaligned
    buffers; each is a bit of its own. *)
Definition NPY_METH_REQUIRES_PYAPI : Z := Z.shiftl 1 1.

(** Modelled from the spec: the second flag that propagates to callers. *)
Definition NPY_METH_NO_FLOATINGPOINT_ERRORS : Z := Z.shiftl 1 2.

(** Modelled from the spec: the flag "supports unaligned buffers". *)
Definition NPY_METH_SUPPORTS_UNALIGNED : Z := Z.shiftl 1 3.

(** Modelled from the spec: the flags that propagate to callers. *)
Definition NPY_METH_RUNTIME_FLAGS : Z :=
  Z.lor NPY_METH_REQUIRES_PYAPI NPY_METH_NO_FLOATINGPOINT_ERRORS.

(** Modelled from the spec: the identifiers of the six named function
    slots, pairwise distinct and distinct from the terminator 0. *)
Definition NPY_METH_resolve_descriptors : Z := 1.

(** Modelled from the spec: the slot of the selector. *)
Definition NPY_METH_get_loop : Z := 2.

(** Modelled from the spec: the slot of the strided loop. *)
Definition NPY_METH_strided_loop : Z := 3.

(** Modelled from the spec: the slot of the contiguous loop. *)
Definition NPY_METH_contiguous_loop : Z := 4.

(** Modelled from the spec: the slot of the unaligned strided loop. *)
Definition NPY_METH_unaligned_strided_loop : Z := 5.

(** Modelled from the spec: the slot of the unaligned contiguous loop. *)
Definition NPY_METH_unaligned_contiguous_loop : Z := 6.

(** ** Data model *)

(** A type instance.  [ob_type] is the address of its class. *)
Record PyArray_Descr : Type := {
  descr_addr : Z;
  ob_type : Z;
  native_byteorder : bool;
  elsize : Z
}.

(** The object a [PyArray_DTypeMeta *] points to.  [is_DTypeMeta] is what
    [PyObject_TypeCheck (., &PyArrayDTypeMeta_Type)] finds in its header;
    [default_descr] is the result of calling the class's slot of that name
    ([None]: the call failed). *)
Record PyArray_DTypeMeta : Type := {
  dt_addr : Z;
  is_DTypeMeta : bool;
  abstract : bool;
  parametric : bool;
  default_descr : option PyArray_Descr
}.

(** Code addresses.  The two built-in functions whose address the file
    compares against, and everything else. *)
Inductive funptr : Type :=
| default_resolve_descriptors_ptr
| npy_default_get_strided_loop_ptr
| extern_fn (addr : Z).

Definition funptr_eqb (f g : funptr) : bool :=
  match f, g with
  | default_resolve_descriptors_ptr, default_resolve_descriptors_ptr => true
  | npy_default_get_strided_loop_ptr, npy_default_get_strided_loop_ptr => true
  | extern_fn a, extern_fn b => a =? b
  | _, _ => false
  end.

(** [p == &f] for a possibly null function pointer. *)
Definition is_fn (p : option funptr) (f : funptr) : bool :=
  match p with
  | Some g => funptr_eqb g f
  | None => false
  end.

Definition is_null {A : Type} (p : option A) : bool :=
  match p with
  | Some _ => false
  | None => true
  end.

Record PyArrayMethodObject : Type := {
  name : option string;
  nin : Z;
  nout : Z;
  casting : Z;
  flags : Z;
  resolve_descriptors : option funptr;
  get_strided_loop : option funptr;
  strided_loop : option funptr;
  contiguous_loop : option funptr;
  unaligned_strided_loop : option funptr;
  unaligned_contiguous_loop : option funptr
}.

Record PyBoundArrayMethodObject : Type := {
  dtypes : list (option PyArray_DTypeMeta);
  method : PyArrayMethodObject
}.

Record PyArrayMethod_Context : Type := {
  caller : option Z;
  ctx_method : PyArrayMethodObject;
  descriptors : list (option PyArray_Descr)
}.

(** [NPY_DTYPE (descr)]: the class of an instance, read from its header. *)
Definition NPY_DTYPE (descr : option PyArray_Descr) : outcome Z :=
  d <- deref descr ;; Ok (ob_type d).

(** ** The default descriptor resolver *)

Section Resolver.

(** Collaborators: allocation of a byte-swapped copy of an instance and
    the common class of two classes.  [None] as a result is their failure.
    The resolver hands the second class to [PyArray_CommonDType] as it finds
    it in the array, [NULL] or not. *)
Variable PyArray_DescrNewByteorder : PyArray_Descr -> option PyArray_Descr.
Variable PyArray_CommonDType :
  PyArray_DTypeMeta -> option PyArray_DTypeMeta -> option PyArray_DTypeMeta.

(** Modelled from the spec: [ensure_dtype_nbo] is defined in another
    file of the repository.  The spec has "canonicalize it (normalize to
    native byte order) -- this is always a no-cast, identity-preserving
    step" and "canonical means native byte order": an instance already in
    native byte order is returned itself, any other is replaced by a new
    instance in native order. *)
Definition ensure_dtype_nbo (type : PyArray_Descr) : option PyArray_Descr :=
  if native_byteorder type then Some type
  else PyArray_DescrNewByteorder type.

(** The two branches shared by both loops of the resolver: canonicalize
    the given instance when it is of class [dtype], otherwise take the
    default instance of [dtype]. *)
Definition resolve_slot (dtype : PyArray_DTypeMeta)
    (given : option PyArray_Descr) : outcome PyArray_Descr :=
  tp <- NPY_DTYPE given ;;
  if tp =? dt_addr dtype then
    d <- deref given ;;
    new_reference (ensure_dtype_nbo d) "ensure_dtype_nbo"
  else
    new_reference (default_descr dtype) "default_descr".

(** [for (int i = 0; i < nin + nout; i++)], lines 64-80.  The output
    array is written at increasing [i], so the slots written so far are
    the list [output_descrs]. *)
Fixpoint resolve_defined (dtypes : list (option PyArray_DTypeMeta))
    (input_descrs : list (option PyArray_Descr)) (i : Z) (count : nat)
    (output_descrs : list (option PyArray_Descr)) (all_defined : bool)
    : outcome (list (option PyArray_Descr) * bool) :=
  match count with
  | O => Ok (output_descrs, all_defined)
  | S count' =>
      dtype <- load dtypes i ;;
      match dtype with
      | None =>
          resolve_defined dtypes input_descrs (i + 1) count'
            (output_descrs ++ [None]) false
      | Some dtype =>
          given <- load input_descrs i ;;
          out <- resolve_slot dtype given ;;
          resolve_defined dtypes input_descrs (i + 1) count'
            (output_descrs ++ [Some out]) all_defined
      end
  end.

(** [for (int i = 1; i < nin; i++)], lines 95-100.  [dtypes[i]] is
    passed on without a look at it. *)
Fixpoint common_of_inputs (dtypes : list (option PyArray_DTypeMeta))
    (i : Z) (count : nat) (common_dtype : PyArray_DTypeMeta)
    : outcome PyArray_DTypeMeta :=
  match count with
  | O => Ok common_dtype
  | S count' =>
      dtype <- load dtypes i ;;
      common <- new_reference (PyArray_CommonDType common_dtype dtype)
                  "PyArray_CommonDType" ;;
      common_of_inputs dtypes (i + 1) count' common
  end.

(** [for (int i = nin; i < nin + nout; i++)], lines 101-114. *)
Fixpoint resolve_undefined (common_dtype : PyArray_DTypeMeta)
    (input_descrs : list (option PyArray_Descr)) (i : Z) (count : nat)
    (output_descrs : list (option PyArray_Descr))
    : outcome (list (option PyArray_Descr)) :=
  match count with
  | O => Ok output_descrs
  | S count' =>
      cur <- load output_descrs i ;;
      match cur with
      | Some _ =>
          resolve_undefined common_dtype input_descrs (i + 1) count'
            output_descrs
      | None =>
          given <- load input_descrs i ;;
          out <- resolve_slot common_dtype given ;;
          output_descrs' <- store output_descrs i (Some out) ;;
          resolve_undefined common_dtype input_descrs (i + 1) count'
            output_descrs'
      end
  end.

(** The result is the casting level together with the output array; the
    return of [-1] at [fail] is a [Raise]. *)
Definition default_resolve_descriptors (method : PyArrayMethodObject)
    (dtypes : list (option PyArray_DTypeMeta))
    (input_descrs : list (option PyArray_Descr))
    : outcome (Z * list (option PyArray_Descr)) :=
  let nin := nin method in
  let nout := nout method in
  r <- resolve_defined dtypes input_descrs 0 (Z.to_nat (nin + nout)) [] true ;;
  let '(output_descrs, all_defined) := r in
  if all_defined then Ok (casting method, output_descrs)
  else
    first <- (if nin =? 0 then Ok None else load dtypes 0) ;;
    match first with
    | None =>
        Raise PyExc_RuntimeError
          "Invalid use of default resolver without inputs or with input or output DType incorrectly missing."
    | Some dtype0 =>
        common_dtype <- common_of_inputs dtypes 1 (Z.to_nat (nin - 1)) dtype0 ;;
        output_descrs' <-
          resolve_undefined common_dtype input_descrs nin
            (Z.to_nat (nin + nout - nin)) output_descrs ;;
        Ok (casting method, output_descrs')
    end.

End Resolver.

(** ** The default loop selector *)

(** [is_contiguous]: [1] when every stride is the element size. *)
Fixpoint is_contiguous_from (strides : list Z)
    (descriptors : list (option PyArray_Descr)) (i : Z) (count : nat)
    : outcome Z :=
  match count with
  | O => Ok 1
  | S count' =>
      stride <- load strides i ;;
      p <- load descriptors i ;;
      d <- deref p ;;
      if negb (stride =? elsize d) then Ok 0
      else is_contiguous_from strides descriptors (i + 1) count'
  end.

Definition is_contiguous (strides : list Z)
    (descriptors : list (option PyArray_Descr)) (nargs : Z) : outcome Z :=
  is_contiguous_from strides descriptors 0 (Z.to_nat nargs).

(** What [npy_default_get_strided_loop] writes through its three output
    pointers, and its return value. *)
Record get_loop_result : Type := {
  ret : Z;
  out_loop : option funptr;
  out_transferdata : option Z;
  out_flags : Z
}.

Definition npy_default_get_strided_loop (context : PyArrayMethod_Context)
    (aligned : Z) (move_references : Z) (strides : list Z)
    : outcome get_loop_result :=
  let descrs := descriptors context in
  let meth := ctx_method context in
  let flags := Z.land (flags meth) NPY_METH_RUNTIME_FLAGS in
  let nargs := nin meth + nout meth in
  let done loop :=
    Ok {| ret := 0; out_loop := loop; out_transferdata := None;
          out_flags := flags |} in
  if negb (aligned =? 0) then
    if is_null (contiguous_loop meth) then done (strided_loop meth)
    else
      c <- is_contiguous strides descrs nargs ;;
      if c =? 0 then done (strided_loop meth)
      else done (contiguous_loop meth)
  else
    if is_null (unaligned_contiguous_loop meth) then
      done (unaligned_strided_loop meth)
    else
      c <- is_contiguous strides descrs nargs ;;
      if c =? 0 then done (unaligned_strided_loop meth)
      else done (unaligned_contiguous_loop meth).

(** ** Specification and validation *)

Record PyType_Slot : Type := {
  slot : Z;
  pfunc : option funptr
}.

(** [spec_slots] is the array up to and including its terminator, the
    entry whose [slot] is [0]. *)
Record PyArrayMethod_Spec : Type := {
  spec_name : option string;
  spec_nin : Z;
  spec_nout : Z;
  spec_casting : Z;
  spec_flags : Z;
  spec_dtypes : list (option PyArray_DTypeMeta);
  spec_slots : list PyType_Slot
}.

(** The [switch] of [validate_spec] on the casting level without its view
    bit. *)
Definition is_casting_level (c : Z) : bool :=
  (c =? NPY_NO_CASTING) || (c =? NPY_EQUIV_CASTING) || (c =? NPY_SAFE_CASTING)
  || (c =? NPY_SAME_KIND_CASTING) || (c =? NPY_UNSAFE_CASTING).

(** [PyErr_Format (exc, "... (method: %s)", ..., spec->name)]: the
    conversion [%s] reads the string it is given, so that with the name
    [NULL] the call is undefined; with a name it sets the error. *)
Definition PyErr_Format_name {A : Type} (spec : PyArrayMethod_Spec)
    (exc : PyExc) (msg : string) : outcome A :=
  if is_null (spec_name spec) then Undefined else Raise exc msg.

(** [for (int i = 0; i < nargs; i++)], lines 222-241.
    [PyObject_TypeCheck] reads the header of the object it is given and
    [->abstract] reads the object: both are [deref].  The format of the
    last error, at line 236, has three conversions, [%S], [%s] and [%s],
    and the call has two arguments for them: it reads an argument that
    was not passed, which is undefined. *)
Fixpoint validate_dtypes (spec : PyArrayMethod_Spec) (i : Z) (count : nat)
    : outcome Z :=
  match count with
  | O => Ok 0
  | S count' =>
      p <- load (spec_dtypes spec) i ;;
      if is_null p && (i <? spec_nin spec) then
        PyErr_Format_name spec PyExc_TypeError
          "ArrayMethod must have well defined input DTypes. (method: %s)"
      else
        checked <- deref p ;;
        if negb (is_DTypeMeta checked) then
          PyErr_Format_name spec PyExc_TypeError
            "ArrayMethod provided object %R is not a DType.(method: %s)"
        else
          dtype <- deref p ;;
          if abstract dtype && (i <? spec_nin spec) then Undefined
          else validate_dtypes spec (i + 1) count'
  end.

(** [int nargs = spec->nin + spec->nout] is a sum of [int]s: it wraps
    around when it exceeds [INT_MAX]. *)
Definition validate_spec (spec : PyArrayMethod_Spec) : outcome Z :=
  nargs <- int_add (spec_nin spec) (spec_nout spec) ;;
  if (spec_nin spec <? 0) || (spec_nout spec <? 0) || (nargs >? NPY_MAXARGS)
  then
    PyErr_Format_name spec PyExc_ValueError
      "ArrayMethod inputs and outputs must be greater zero andnot exceed %d. (method: %s)"
  else if negb (is_casting_level
                  (Z.land (spec_casting spec) (Z.lnot _NPY_CAST_IS_VIEW)))
          && negb (spec_casting spec =? -1)
  then
    PyErr_Format_name spec PyExc_TypeError
      "ArrayMethod has invalid casting `%d`. (method: %s)"
  else validate_dtypes spec 0 (Z.to_nat nargs).

(** ** Filling a method from the slots *)

Definition set_resolve_descriptors (m : PyArrayMethodObject)
    (p : option funptr) : PyArrayMethodObject :=
  {| name := name m; nin := nin m; nout := nout m; casting := casting m;
     flags := flags m; resolve_descriptors := p;
     get_strided_loop := get_strided_loop m; strided_loop := strided_loop m;
     contiguous_loop := contiguous_loop m;
     unaligned_strided_loop := unaligned_strided_loop m;
     unaligned_contiguous_loop := unaligned_contiguous_loop m |}.

Definition set_get_strided_loop (m : PyArrayMethodObject)
    (p : option funptr) : PyArrayMethodObject :=
  {| name := name m; nin := nin m; nout := nout m; casting := casting m;
     flags := flags m; resolve_descriptors := resolve_descriptors m;
     get_strided_loop := p; strided_loop := strided_loop m;
     contiguous_loop := contiguous_loop m;
     unaligned_strided_loop := unaligned_strided_loop m;
     unaligned_contiguous_loop := unaligned_contiguous_loop m |}.

Definition set_strided_loop (m : PyArrayMethodObject)
    (p : option funptr) : PyArrayMethodObject :=
  {| name := name m; nin := nin m; nout := nout m; casting := casting m;
     flags := flags m; resolve_descriptors := resolve_descriptors m;
     get_strided_loop := get_strided_loop m; strided_loop := p;
     contiguous_loop := contiguous_loop m;
     unaligned_strided_loop := unaligned_strided_loop m;
     unaligned_contiguous_loop := unaligned_contiguous_loop m |}.

Definition set_contiguous_loop (m : PyArrayMethodObject)
    (p : option funptr) : PyArrayMethodObject :=
  {| name := name m; nin := nin m; nout := nout m; casting := casting m;
     flags := flags m; resolve_descriptors := resolve_descriptors m;
     get_strided_loop := get_strided_loop m; strided_loop := strided_loop m;
     contiguous_loop := p;
     unaligned_strided_loop := unaligned_strided_loop m;
     unaligned_contiguous_loop := unaligned_contiguous_loop m |}.

Definition set_unaligned_strided_loop (m : PyArrayMethodObject)
    (p : option funptr) : PyArrayMethodObject :=
  {| name := name m; nin := nin m; nout := nout m; casting := casting m;
     flags := flags m; resolve_descriptors := resolve_descriptors m;
     get_strided_loop := get_strided_loop m; strided_loop := strided_loop m;
     contiguous_loop := contiguous_loop m;
     unaligned_strided_loop := p;
     unaligned_contiguous_loop := unaligned_contiguous_loop m |}.

Definition set_unaligned_contiguous_loop (m : PyArrayMethodObject)
    (p : option funptr) : PyArrayMethodObject :=
  {| name := name m; nin := nin m; nout := nout m; casting := casting m;
     flags := flags m; resolve_descriptors := resolve_descriptors m;
     get_strided_loop := get_strided_loop m; strided_loop := strided_loop m;
     contiguous_loop := contiguous_loop m;
     unaligned_strided_loop := unaligned_strided_loop m;
     unaligned_contiguous_loop := p |}.

Definition set_name (m : PyArrayMethodObject) (n : option string)
    : PyArrayMethodObject :=
  {| name := n; nin := nin m; nout := nout m; casting := casting m;
     flags := flags m; resolve_descriptors := resolve_descriptors m;
     get_strided_loop := get_strided_loop m; strided_loop := strided_loop m;
     contiguous_loop := contiguous_loop m;
     unaligned_strided_loop := unaligned_strided_loop m;
     unaligned_contiguous_loop := unaligned_contiguous_loop m |}.

Definition invalid_slot {A : Type} : outcome A :=
  Raise PyExc_RuntimeError "invalid slot number %d to ArrayMethod: %s".

(** [for (PyType_Slot *slot = &spec->slots[0]; slot->slot != 0; slot++)],
    lines 272-303.  An array without terminator is read past its end. *)
Fixpoint fill_slots (slots : list PyType_Slot) (private : Z)
    (meth : PyArrayMethodObject) : outcome PyArrayMethodObject :=
  match slots with
  | [] => Undefined
  | s :: rest =>
      if slot s =? 0 then Ok meth
      else if slot s =? NPY_METH_resolve_descriptors then
        fill_slots rest private (set_resolve_descriptors meth (pfunc s))
      else if slot s =? NPY_METH_get_loop then
        if negb (private =? 0) then
          fill_slots rest private (set_get_strided_loop meth (pfunc s))
        else invalid_slot
      else if slot s =? NPY_METH_strided_loop then
        fill_slots rest private (set_strided_loop meth (pfunc s))
      else if slot s =? NPY_METH_contiguous_loop then
        fill_slots rest private (set_contiguous_loop meth (pfunc s))
      else if slot s =? NPY_METH_unaligned_strided_loop then
        fill_slots rest private (set_unaligned_strided_loop meth (pfunc s))
      else if slot s =? NPY_METH_unaligned_contiguous_loop then
        fill_slots rest private (set_unaligned_contiguous_loop meth (pfunc s))
      else invalid_slot
  end.

(** [for (int i = 0; i < meth->nin + meth->nout; i++)], lines 314-338.
    The format of the second error, at line 324, has two conversions [%s]
    and the call has one argument for them: it reads an argument that was
    not passed, which is undefined. *)
Fixpoint check_default_resolver (dtypes : list (option PyArray_DTypeMeta))
    (meth : PyArrayMethodObject) (i : Z) (count : nat) : outcome Z :=
  match count with
  | O => Ok 0
  | S count' =>
      p <- load dtypes i ;;
      if is_null p && (i <? nin meth) then
        Raise PyExc_TypeError
          "All input DTypes must be specified when using the default `resolve_descriptors` function. (method: %s)"
      else if is_null p && (nin meth =? 0) then Undefined
      else
        is_parametric <-
          (if i >=? nin meth then dtype <- deref p ;; Ok (parametric dtype)
           else Ok false) ;;
        if is_parametric then
          Raise PyExc_TypeError
            "must provide a `resolve_descriptors` function if any output DType is parametric. (method: %s)"
        else check_default_resolver dtypes meth (i + 1) count'
  end.

(** Lines 345-370: the checks made when the built-in selector stays. *)
Definition check_loops (meth : PyArrayMethodObject)
    : outcome PyArrayMethodObject :=
  if is_null (strided_loop meth) then
    Raise PyExc_TypeError
      "Must provide a strided inner loop function. (method: %s)"
  else
    let meth :=
      if is_null (contiguous_loop meth)
      then set_contiguous_loop meth (strided_loop meth)
      else meth in
    if negb (is_null (unaligned_contiguous_loop meth))
       && is_null (unaligned_strided_loop meth) then
      Raise PyExc_TypeError
        "Must provide unaligned strided inner loop when providing a contiguous version. (method: %s)"
    else if negb (Bool.eqb (is_null (unaligned_strided_loop meth))
                    (Z.land (flags meth) NPY_METH_SUPPORTS_UNALIGNED =? 0)) then
      Raise PyExc_TypeError
        "Must provide unaligned strided inner loop when providing a contiguous version. (method: %s)"
    else Ok meth.

Definition with_method (res : PyBoundArrayMethodObject)
    (meth : PyArrayMethodObject) : PyBoundArrayMethodObject :=
  {| dtypes := dtypes res; method := meth |}.

(** [Ok res'] is the return of [0] with [res] filled in. *)
Definition fill_arraymethod_from_slots (res : PyBoundArrayMethodObject)
    (spec : PyArrayMethod_Spec) (private : Z)
    : outcome PyBoundArrayMethodObject :=
  let meth := method res in
  let meth := set_get_strided_loop meth (Some npy_default_get_strided_loop_ptr) in
  let meth := set_resolve_descriptors meth (Some default_resolve_descriptors_ptr) in
  meth <- fill_slots (spec_slots spec) private meth ;;
  _ <- (if is_fn (resolve_descriptors meth) default_resolve_descriptors_ptr then
          if spec_casting spec =? -1 then
            Raise PyExc_TypeError
              "Cannot set casting to -1 (invalid) when not providing the default `resolve_descriptors` function. (method: %s)"
          else
            check_default_resolver (dtypes res) meth 0
              (Z.to_nat (nin meth + nout meth))
        else Ok 0) ;;
  if negb (is_fn (get_strided_loop meth) npy_default_get_strided_loop_ptr) then
    Ok (with_method res meth)
  else
    meth <- check_loops meth ;;
    Ok (with_method res meth).

(** The new method object: [memset] to zero, then the four fields copied
    from the specification, lines 424-430. *)
Definition new_method (spec : PyArrayMethod_Spec) : PyArrayMethodObject :=
  {| name := None; nin := spec_nin spec; nout := spec_nout spec;
     casting := spec_casting spec; flags := spec_flags spec;
     resolve_descriptors := None; get_strided_loop := None;
     strided_loop := None; contiguous_loop := None;
     unaligned_strided_loop := None; unaligned_contiguous_loop := None |}.

(** [spec->name = ...]: the specification with another name. *)
Definition set_spec_name (spec : PyArrayMethod_Spec) (n : option string)
    : PyArrayMethod_Spec :=
  {| spec_name := n; spec_nin := spec_nin spec; spec_nout := spec_nout spec;
     spec_casting := spec_casting spec; spec_flags := spec_flags spec;
     spec_dtypes := spec_dtypes spec; spec_slots := spec_slots spec |}.

(** [Raise] is the return of [NULL].  The name is written into the
    specification before it is validated.  The array of classes is
    allocated with [PyMem_Malloc (sizeof (PyArray_DTypeMeta * ) * nargs)],
    line 407, which gives [NULL] when [nargs], a sum that wrapped around,
    is negative.  The constructor then drops [res] with [Py_DECREF], at a
    point where [res->method] is still [NULL], and
    [boundarraymethod_dealloc] begins by reading [meth->method->nin], line
    491: a read through [NULL]. *)
Definition PyArrayMethod_FromSpec_int (spec : PyArrayMethod_Spec)
    (private : Z) : outcome PyBoundArrayMethodObject :=
  nargs <- int_add (spec_nin spec) (spec_nout spec) ;;
  let spec_name :=
    match spec_name spec with
    | None => "<unknown>"
    | Some n => n
    end in
  let spec := set_spec_name spec (Some spec_name) in
  _ <- validate_spec spec ;;
  if PyMem_Malloc_fails (sizeof_pointers nargs) then Undefined
  else
    let res_dtypes := take (Z.to_nat nargs) (spec_dtypes spec) in
    res <- fill_arraymethod_from_slots
             {| dtypes := res_dtypes; method := new_method spec |} spec
             private ;;
    Ok (with_method res (set_name (method res) (Some spec_name))).

(** The method as the slots of a specification leave it, before the
    checks of [fill_arraymethod_from_slots]. *)
Definition slots_as_supplied (spec : PyArrayMethod_Spec) (private : Z)
    : outcome PyArrayMethodObject :=
  fill_slots (spec_slots spec) private
    (set_resolve_descriptors
       (set_get_strided_loop (new_method spec)
          (Some npy_default_get_strided_loop_ptr))
       (Some default_resolve_descriptors_ptr)).

(** The invariant of a method that uses the built-in selector. *)
Definition loops_consistent (meth : PyArrayMethodObject) : Prop :=
  strided_loop meth <> None
  /\ contiguous_loop meth <> None
  /\ (unaligned_contiguous_loop meth <> None ->
      unaligned_strided_loop meth <> None)
  /\ (unaligned_strided_loop meth <> None <->
      Z.land (flags meth) NPY_METH_SUPPORTS_UNALIGNED <> 0).

(** What the invariant asks of the loops a specification supplies. *)
Definition loops_acceptable (meth : PyArrayMethodObject) : Prop :=
  strided_loop meth <> None
  /\ (unaligned_contiguous_loop meth <> None ->
      unaligned_strided_loop meth <> None)
  /\ (unaligned_strided_loop meth <> None <->
      Z.land (flags meth) NPY_METH_SUPPORTS_UNALIGNED <> 0).

(** The arrays handed to a selector hold a stride and a resolved instance
    for every argument of the method. *)
Definition resolved_call (context : PyArrayMethod_Context) (strides : list Z)
    : Prop :=
  let nargs :=
    Z.to_nat (nin (ctx_method context) + nout (ctx_method context)) in
  (nargs <= length strides)%nat
  /\ exists ds : list PyArray_Descr,
      descriptors context = map Some ds /\ (nargs <= length ds)%nat.

(** ** Python objects handed to the entry points *)

Record PyArrayObject : Type := {
  arr_descr : PyArray_Descr;
  arr_ndim : Z;
  arr_size : Z;
  arr_writeable : bool;
  arr_aligned : bool;
  arr_bytes : Z;
  arr_strides : list Z
}.

(** An item of an argument tuple: [None], an instance, an object that is
    exactly an array, anything else. *)
Inductive PyObject : Type :=
| Py_None
| PyDescrObject (d : PyArray_Descr)
| PyArrayExact (a : PyArrayObject)
| PyOtherObject (addr : Z).

(** The single argument of an entry point: exactly a tuple, or not. *)
Inductive PyArgument : Type :=
| PyTupleExact (items : list PyObject)
| PyNotTuple (o : PyObject).

Definition PyTuple_GetItem (items : list PyObject) (i : Z) : outcome PyObject :=
  if i <? 0 then Raise PyExc_Propagated "PyTuple_GetItem"
  else new_reference (items !! Z.to_nat i) "PyTuple_GetItem".

(** [Py_TYPE (obj) != (PyTypeObject * )self->dtypes[i]] for an instance. *)
Definition exact_instance (d : PyArray_Descr)
    (bound : option PyArray_DTypeMeta) : bool :=
  match bound with
  | Some dtype => ob_type d =? dt_addr dtype
  | None => false
  end.

(** Modelled from the spec: [PyArray_MinCastSafety] is defined in another
    file of the repository.  "combining two levels yields the least safe
    (numerically largest) of the two, preserving the view flag only if
    both sides have it"; a failure on either side stays a failure. *)
Definition PyArray_MinCastSafety (casting1 casting2 : Z) : Z :=
  if (casting1 <? 0) || (casting2 <? 0) then -1
  else
    let view := Z.land (Z.land casting1 casting2) _NPY_CAST_IS_VIEW in
    let casting1 := Z.land casting1 (Z.lnot _NPY_CAST_IS_VIEW) in
    let casting2 := Z.land casting2 (Z.lnot _NPY_CAST_IS_VIEW) in
    if casting1 >? casting2 then Z.lor casting1 view
    else Z.lor casting2 view.

(** Modelled from the spec: [PyArray_FailUnlessWriteable] is defined in
    another file of the repository; "each output writable": a buffer that
    is not writable is an error. *)
Definition PyArray_FailUnlessWriteable (arr : PyArrayObject) (what : string)
    : outcome Z :=
  if arr_writeable arr then Ok 0
  else Raise PyExc_ValueError (what ++ " is read-only").

(** [for (...) if (self->dtypes[i]->parametric) { parametric = 1; break; }],
    lines 587-592. *)
Fixpoint any_parametric (dtypes : list (option PyArray_DTypeMeta)) (i : Z)
    (count : nat) : outcome bool :=
  match count with
  | O => Ok false
  | S count' =>
      p <- load dtypes i ;;
      dtype <- deref p ;;
      if parametric dtype then Ok true
      else any_parametric dtypes (i + 1) count'
  end.

(** No class bound to one of the first [nargs] slots is parametric. *)
Definition no_parametric_class (dtypes : list (option PyArray_DTypeMeta))
    (nargs : Z) : Prop :=
  forall (j : Z) (c : PyArray_DTypeMeta),
    0 <= j < nargs -> load dtypes j = Ok (Some c) -> parametric c = false.

(** The loop of lines 587-592 reads the classes up to the first parametric
    one, and all of them when none is parametric: each slot holds a class,
    or a slot before it holds a parametric one. *)
Definition classes_readable (dtypes : list (option PyArray_DTypeMeta))
    (nargs : Z) : Prop :=
  forall j : Z, 0 <= j < nargs ->
    (exists c, load dtypes j = Ok (Some c))
    \/ (exists (k : Z) (c : PyArray_DTypeMeta),
          0 <= k < j /\ load dtypes k = Ok (Some c) /\ parametric c = true).

(** The first [count] cells of an array, read one by one from [i]. *)
Fixpoint read_array {A : Type} (a : list A) (i : Z) (count : nat)
    : outcome (list A) :=
  match count with
  | O => Ok []
  | S count' =>
      x <- load a i ;;
      rest <- read_array a (i + 1) count' ;;
      Ok (x :: rest)
  end.

Definition resolver_fn : Type :=
  PyArrayMethodObject -> list (option PyArray_DTypeMeta) ->
  list (option PyArray_Descr) -> outcome (Z * list (option PyArray_Descr)).

Definition get_loop_fn : Type :=
  PyArrayMethod_Context -> Z -> Z -> list Z -> outcome get_loop_result.

(** ** The entry points of a bound method *)

Section EntryPoints.

Variable PyArray_DescrNewByteorder : PyArray_Descr -> option PyArray_Descr.
Variable PyArray_CommonDType :
  PyArray_DTypeMeta -> option PyArray_DTypeMeta -> option PyArray_DTypeMeta.

(** The code behind the addresses that are not this file's own: the
    resolvers, selectors and inner loops supplied with a specification.
    An inner loop acts on the memory, [world]. *)
Variable extern_resolve_descriptors : Z -> resolver_fn.
Variable extern_get_strided_loop : Z -> get_loop_fn.
Variable world : Type.
Variable extern_strided_loop :
  Z -> PyArrayMethod_Context -> list Z -> Z -> list Z -> option Z ->
  world -> outcome (Z * world).

(** [meth->resolve_descriptors (...)]: a call through the pointer.  A
    call through [NULL] or through the address of a function of another
    type is undefined. *)
Definition call_resolve_descriptors (p : option funptr) : resolver_fn :=
  match p with
  | Some default_resolve_descriptors_ptr =>
      default_resolve_descriptors PyArray_DescrNewByteorder PyArray_CommonDType
  | Some (extern_fn addr) => extern_resolve_descriptors addr
  | _ => fun _ _ _ => Undefined
  end.

Definition call_get_strided_loop (p : option funptr) : get_loop_fn :=
  match p with
  | Some npy_default_get_strided_loop_ptr => npy_default_get_strided_loop
  | Some (extern_fn addr) => extern_get_strided_loop addr
  | _ => fun _ _ _ _ => Undefined
  end.

Definition call_strided_loop (p : option funptr)
    (context : PyArrayMethod_Context) (args : list Z) (length : Z)
    (strides : list Z) (auxdata : option Z) (w : world)
    : outcome (Z * world) :=
  match p with
  | Some (extern_fn addr) =>
      extern_strided_loop addr context args length strides auxdata w
  | _ => Undefined
  end.

(** [for (int i = 0; i < nin + nout; i++)], lines 532-559. *)
Fixpoint given_descrs_of_tuple (self : PyBoundArrayMethodObject)
    (items : list PyObject) (i : Z) (count : nat)
    (given_descrs : list (option PyArray_Descr))
    : outcome (list (option PyArray_Descr)) :=
  match count with
  | O => Ok given_descrs
  | S count' =>
      tmp <- PyTuple_GetItem items i ;;
      match tmp with
      | Py_None =>
          if i <? nin (method self) then
            Raise PyExc_TypeError
              "only output dtypes may be omitted (set to None)."
          else
            given_descrs_of_tuple self items (i + 1) count'
              (given_descrs ++ [None])
      | PyDescrObject d =>
          bound <- load (dtypes self) i ;;
          if negb (exact_instance d bound) then
            Raise PyExc_TypeError
              "input dtype %S was not an exact instance of the bound DType class %S."
          else
            given_descrs_of_tuple self items (i + 1) count'
              (given_descrs ++ [Some d])
      | _ =>
          Raise PyExc_TypeError
            "dtype tuple can only contain dtype instances or None."
      end
  end.

(** [PyErr_Format (exc, "... for method %s)", ..., self->method->name)]:
    undefined with the name [NULL], as the conversion [%s] reads the
    string. *)
Definition PyErr_Format_method {A : Type} (meth : PyArrayMethodObject)
    (exc : PyExc) (msg : string) : outcome A :=
  if is_null (name meth) then Undefined else Raise exc msg.

(** Lines 593-621, the debugging checks on the level a resolver gave. *)
Definition check_casting (meth : PyArrayMethodObject) (returned : Z)
    (is_parametric : bool) : outcome Z :=
  if negb (casting meth =? -1) then
    let cast := Z.land returned (Z.lnot _NPY_CAST_IS_VIEW) in
    if negb (casting meth =? PyArray_MinCastSafety cast (casting meth)) then
      PyErr_Format_method meth PyExc_RuntimeError
        "resolve_descriptors cast level did not match stored one. (set level is %d, got %d for method %s)"
    else if negb is_parametric && negb (cast =? casting meth)
            && negb (casting meth =? NPY_EQUIV_CASTING) then
      PyErr_Format_method meth PyExc_RuntimeError
        "resolve_descriptors cast level changed even though the cast is non-parametric where the only possible change should be from equivalent to no casting. (set level is %d, got %d for method %s)"
    else Ok 0
  else Ok 0.

(** The value returned is the pair built by [Py_BuildValue]: the level
    and either [None] or the tuple of instances.  [Raise] is the return
    of [NULL]. *)
Definition boundarraymethod__resolve_descripors
    (self : PyBoundArrayMethodObject) (descr_tuple : PyArgument)
    : outcome (Z * option (list (option PyArray_Descr))) :=
  let nin := nin (method self) in
  let nout := nout (method self) in
  match descr_tuple with
  | PyTupleExact items =>
      if negb (Z.of_nat (length items) =? nin + nout) then
        Raise PyExc_TypeError
          "_resolve_descriptors() takes exactly one tuple with as many elements as the method takes arguments (%d+%d)."
      else
        given_descrs <-
          given_descrs_of_tuple self items 0 (Z.to_nat (nin + nout)) [] ;;
        r <- call_resolve_descriptors (resolve_descriptors (method self))
               (method self) (dtypes self) given_descrs ;;
        let '(returned, loop_descrs) := r in
        if returned <? 0 then Ok (returned, None)
        else
          result_tuple <- read_array loop_descrs 0 (Z.to_nat (nin + nout)) ;;
          is_parametric <-
            any_parametric (dtypes self) 0 (Z.to_nat (nin + nout)) ;;
          _ <- check_casting (method self) returned is_parametric ;;
          Ok (returned, Some result_tuple)
  | PyNotTuple _ =>
      Raise PyExc_TypeError
        "_resolve_descriptors() takes exactly one tuple with as many elements as the method takes arguments (%d+%d)."
  end.

(** What the first loop of [boundarraymethod__simple_strided_call]
    gathers in its local arrays and variables. *)
Record strided_call_args : Type := {
  call_descrs : list (option PyArray_Descr);
  call_args : list Z;
  call_strides : list Z;
  call_length : Z;
  call_aligned : Z
}.

(** [for (int i = 0; i < nin + nout; i++)], lines 653-697. *)
Fixpoint arrays_of_tuple (self : PyBoundArrayMethodObject)
    (items : list PyObject) (i : Z) (count : nat) (acc : strided_call_args)
    : outcome strided_call_args :=
  match count with
  | O => Ok acc
  | S count' =>
      tmp <- PyTuple_GetItem items i ;;
      match tmp with
      | PyArrayExact arr =>
          let descr := arr_descr arr in
          bound <- load (dtypes self) i ;;
          if negb (exact_instance descr bound) then
            Raise PyExc_TypeError
              "input dtype %S was not an exact instance of the bound DType class %S."
          else if negb (arr_ndim arr =? 1) then
            Raise PyExc_ValueError "All arrays must be one dimensional."
          else if negb (i =? 0) && negb (arr_size arr =? call_length acc) then
            Raise PyExc_ValueError "All arrays must have the same length."
          else
            let length := if i =? 0 then arr_size arr else call_length acc in
            _ <- (if i >=? nout (method self) then
                    PyArray_FailUnlessWriteable arr
                      "_simple_strided_call() output"
                  else Ok 0) ;;
            stride <- load (arr_strides arr) 0 ;;
            arrays_of_tuple self items (i + 1) count'
              {| call_descrs := call_descrs acc ++ [Some descr];
                 call_args := call_args acc ++ [arr_bytes arr];
                 call_strides := call_strides acc ++ [stride];
                 call_length := length;
                 call_aligned :=
                   Z.land (call_aligned acc)
                     (if arr_aligned arr then 1 else 0) |}
      | _ => Raise PyExc_TypeError "All inputs must be NumPy arrays."
      end
  end.

(** [dtypes_were_adapted |= descrs[i] != out_descrs[i]], lines 716-721:
    a comparison of addresses. *)
Fixpoint dtypes_were_adapted (descrs out_descrs : list (option PyArray_Descr))
    (i : Z) (count : nat) (adapted : bool) : outcome bool :=
  match count with
  | O => Ok adapted
  | S count' =>
      p <- load descrs i ;;
      d <- deref p ;;
      q <- load out_descrs i ;;
      out <- deref q ;;
      dtypes_were_adapted descrs out_descrs (i + 1) count'
        (adapted || negb (descr_addr d =? descr_addr out))
  end.

(** [Ok w] is the return of [None], with the memory as the inner loop
    left it; [Raise] is the return of [NULL]. *)
Definition boundarraymethod__simple_strided_call
    (self : PyBoundArrayMethodObject) (arr_tuple : PyArgument) (w : world)
    : outcome world :=
  let nin := nin (method self) in
  let nout := nout (method self) in
  match arr_tuple with
  | PyTupleExact items =>
      if negb (Z.of_nat (length items) =? nin + nout) then
        Raise PyExc_TypeError
          "_simple_strided_call() takes exactly one tuple with as many arrays as the method takes arguments (%d+%d)."
      else
        a <- arrays_of_tuple self items 0 (Z.to_nat (nin + nout))
               {| call_descrs := []; call_args := []; call_strides := [];
                  call_length := -1; call_aligned := 1 |} ;;
        if (call_aligned a =? 0)
           && (Z.land (flags (method self)) NPY_METH_SUPPORTS_UNALIGNED =? 0)
        then
          Raise PyExc_ValueError "method does not support unaligned input."
        else
          match call_resolve_descriptors (resolve_descriptors (method self))
                  (method self) (dtypes self) (call_descrs a) with
          | Undefined => Undefined
          | Raise _ _ =>
              Raise PyExc_TypeError
                "cannot perform method call with the given dtypes."
          | Ok (returned, out_descrs) =>
              if returned <? 0 then
                Raise PyExc_TypeError
                  "cannot perform method call with the given dtypes."
              else
                adapted <-
                  dtypes_were_adapted (call_descrs a) out_descrs 0
                    (Z.to_nat (nin + nout)) false ;;
                if adapted then
                  Raise PyExc_TypeError
                    "_simple_strided_call(): requires dtypes to not require a cast (must match exactly with `_resolve_descriptors()`)."
                else
                  let context :=
                    {| caller := None; ctx_method := method self;
                       descriptors := call_descrs a |} in
                  g <- call_get_strided_loop (get_strided_loop (method self))
                         context (call_aligned a) 0 (call_strides a) ;;
                  if ret g <? 0 then
                    Raise PyExc_Propagated "get_strided_loop"
                  else
                    r <- call_strided_loop (out_loop g) context (call_args a)
                           (call_length a) (call_strides a)
                           (out_transferdata g) w ;;
                    let '(res, w') := r in
                    if res <? 0 then Raise PyExc_Propagated "strided_loop"
                    else Ok w'
          end
  | PyNotTuple _ =>
      Raise PyExc_TypeError
        "_simple_strided_call() takes exactly one tuple with as many arrays as the method takes arguments (%d+%d)."
  end.

End EntryPoints.

(** ** The masked loop adapter *)

Record _masked_stridedloop_data : Type := {
  unmasked_stridedloop : option funptr;
  unmasked_auxdata : option Z;
  nargs : Z
}.

Section MaskedLoop.

Variable world : Type.
(** The byte the memory holds at an address. *)
Variable read_char : world -> Z -> Z.
Variable extern_strided_loop :
  Z -> PyArrayMethod_Context -> list Z -> Z -> list Z -> option Z ->
  world -> outcome (Z * world).

(** The [while] loops of [npy_memchr]: step over the bytes that are
    [needle] ([invert] set) or that are not ([invert] clear), at most
    [size] of them. *)
Fixpoint npy_memchr_scan (w : world) (p : Z) (needle stride : Z) (invert : Z)
    (count : nat) (subloopsize : Z) : Z * Z :=
  match count with
  | O => (p, subloopsize)
  | S count' =>
      let found := read_char w p =? needle in
      if (if invert =? 0 then negb found else found) then
        npy_memchr_scan w (p + stride) needle stride invert count'
          (subloopsize + 1)
      else (p, subloopsize)
  end.

(** Modelled from the spec: [npy_memchr] is defined in a header of the
    repository.  "scan the mask to find the next run of false entries
    (skip ...), then scan for the following run of true entries": the
    result is the position after the run and the length of the run. *)
Definition npy_memchr (w : world) (haystack : Z) (needle stride size : Z)
    (invert : Z) : Z * Z :=
  npy_memchr_scan w haystack needle stride invert (Z.to_nat size) 0.

(** [for (int i = 0; i < nargs; i++) dataptrs[i] += subloopsize * strides[i]] *)
Fixpoint advance (dataptrs strides : list Z) (subloopsize : Z) (i : Z)
    (count : nat) : outcome (list Z) :=
  match count with
  | O => Ok dataptrs
  | S count' =>
      p <- load dataptrs i ;;
      s <- load strides i ;;
      dataptrs' <- store dataptrs i (p + subloopsize * s) ;;
      advance dataptrs' strides subloopsize (i + 1) count'
  end.

(** The variables that live across the iterations of the [do] loop. *)
Record masked_state : Type := {
  dataptrs : list Z;
  mask : Z;
  remaining : Z;
  memory : world
}.

(** Where one pass through the body of the [do] loop ends: at a
    [return], or at the test [N > 0]. *)
Inductive masked_step : Type :=
| Return (res : Z) (w : world)
| Again (st : masked_state).

(** The body of the [do] loop, lines 809-828. *)
Definition masked_body (context : PyArrayMethod_Context)
    (auxdata : _masked_stridedloop_data) (strides : list Z)
    (mask_stride : Z) (st : masked_state) : outcome masked_step :=
  let nargs := Z.to_nat (nargs auxdata) in
  let '(mask, subloopsize) :=
    npy_memchr (memory st) (mask st) 0 mask_stride (remaining st) 1 in
  dataptrs <- advance (dataptrs st) strides subloopsize 0 nargs ;;
  let N := remaining st - subloopsize in
  let '(mask, subloopsize) :=
    npy_memchr (memory st) mask 0 mask_stride N 0 in
  r <- call_strided_loop world extern_strided_loop
         (unmasked_stridedloop auxdata) context dataptrs subloopsize strides
         (unmasked_auxdata auxdata) (memory st) ;;
  let '(res, w) := r in
  if negb (res =? 0) then Ok (Return res w)
  else
    dataptrs <- advance dataptrs strides subloopsize 0 nargs ;;
    let N := N - subloopsize in
    Ok (Again {| dataptrs := dataptrs; mask := mask; remaining := N;
                 memory := w |}).

(** [do { ... } while (N > 0); return 0;] with a bound on the number of
    passes; [None] when the bound is reached. *)
Fixpoint masked_do_while (fuel : nat) (context : PyArrayMethod_Context)
    (auxdata : _masked_stridedloop_data) (strides : list Z)
    (mask_stride : Z) (st : masked_state) : option (outcome (Z * world)) :=
  match fuel with
  | O => None
  | S fuel' =>
      match masked_body context auxdata strides mask_stride st with
      | Ok (Return res w) => Some (Ok (res, w))
      | Ok (Again st') =>
          if remaining st' >? 0 then
            masked_do_while fuel' context auxdata strides mask_stride st'
          else Some (Ok (0, memory st'))
      | Raise exc msg => Some (Raise exc msg)
      | Undefined => Some Undefined
      end
  end.

(** Every pass with [N > 0] consumes at least one element, so the loop
    makes at most [N] passes after the first. *)
Definition generic_masked_strided_loop (context : PyArrayMethod_Context)
    (data : list Z) (dimensions : list Z) (strides : list Z)
    (auxdata : _masked_stridedloop_data) (w : world)
    : option (outcome (Z * world)) :=
  let nargs := nargs auxdata in
  match
    (dataptrs <- read_array data 0 (Z.to_nat nargs) ;;
     mask <- load data nargs ;;
     mask_stride <- load strides nargs ;;
     N <- load dimensions 0 ;;
     Ok (dataptrs, mask, mask_stride, N))
  with
  | Ok (dataptrs, mask, mask_stride, N) =>
      masked_do_while (S (Z.to_nat N)) context auxdata strides mask_stride
        {| dataptrs := dataptrs; mask := mask; remaining := N; memory := w |}
  | Raise exc msg => Some (Raise exc msg)
  | Undefined => Some Undefined
  end.

End MaskedLoop.

(** ** Concrete classes, instances and methods

    Used to run the definitions above on explicit inputs. *)

Definition Int64_descr : PyArray_Descr :=
  {| descr_addr := 2000; ob_type := 1000; native_byteorder := true;
     elsize := 8 |}.

Definition Int64DType : PyArray_DTypeMeta :=
  {| dt_addr := 1000; is_DTypeMeta := true; abstract := false;
     parametric := false; default_descr := Some Int64_descr |}.

Definition Float32_descr : PyArray_Descr :=
  {| descr_addr := 2100; ob_type := 1100; native_byteorder := true;
     elsize := 4 |}.

Definition Float32DType : PyArray_DTypeMeta :=
  {| dt_addr := 1100; is_DTypeMeta := true; abstract := false;
     parametric := false; default_descr := Some Float32_descr |}.

(** A byte-swapped copy is a new object, in native order. *)
Definition swapped_copy (d : PyArray_Descr) : option PyArray_Descr :=
  Some {| descr_addr := descr_addr d + 1; ob_type := ob_type d;
          native_byteorder := true; elsize := elsize d |}.

(** A common class that only exists for a class with itself. *)
Definition same_class_only (a : PyArray_DTypeMeta)
    (b : option PyArray_DTypeMeta) : option PyArray_DTypeMeta :=
  match b with
  | Some b => if dt_addr a =? dt_addr b then Some a else None
  | None => None
  end.

Definition end_of_slots : PyType_Slot := {| slot := 0; pfunc := None |}.

(** Two inputs, one output, same-kind casting, the built-in resolver and
    selector, classes (Int64, Int64, NULL). *)
Definition binary_spec : PyArrayMethod_Spec :=
  {| spec_name := Some "binary"; spec_nin := 2; spec_nout := 1;
     spec_casting := NPY_SAME_KIND_CASTING; spec_flags := 0;
     spec_dtypes := [Some Int64DType; Some Int64DType; None];
     spec_slots :=
       [ {| slot := NPY_METH_strided_loop; pfunc := Some (extern_fn 1) |};
         end_of_slots ] |}.

(** The method [binary_spec] describes, as the constructor would fill it. *)
Definition binary_method : PyArrayMethodObject :=
  {| name := Some "binary"; nin := 2; nout := 1;
     casting := NPY_SAME_KIND_CASTING; flags := 0;
     resolve_descriptors := Some default_resolve_descriptors_ptr;
     get_strided_loop := Some npy_default_get_strided_loop_ptr;
     strided_loop := Some (extern_fn 1); contiguous_loop := Some (extern_fn 1);
     unaligned_strided_loop := None; unaligned_contiguous_loop := None |}.

(** One input of class Int64 and one output of class Float32. *)
Definition cast_method : PyArrayMethodObject :=
  {| name := Some "cast"; nin := 1; nout := 1;
     casting := NPY_SAFE_CASTING; flags := 0;
     resolve_descriptors := Some default_resolve_descriptors_ptr;
     get_strided_loop := Some npy_default_get_strided_loop_ptr;
     strided_loop := Some (extern_fn 1); contiguous_loop := Some (extern_fn 1);
     unaligned_strided_loop := None; unaligned_contiguous_loop := None |}.

(** One input, one output of class NULL. *)
Definition unary_spec : PyArrayMethod_Spec :=
  {| spec_name := Some "unary"; spec_nin := 1; spec_nout := 1;
     spec_casting := NPY_NO_CASTING; spec_flags := 0;
     spec_dtypes := [Some Int64DType; None];
     spec_slots :=
       [ {| slot := NPY_METH_strided_loop; pfunc := Some (extern_fn 1) |};
         end_of_slots ] |}.

(** A method with an unaligned strided loop and no unaligned contiguous
    one. *)
Definition unaligned_method : PyArrayMethodObject :=
  {| name := Some "unaligned"; nin := 1; nout := 1;
     casting := NPY_SAFE_CASTING; flags := NPY_METH_SUPPORTS_UNALIGNED;
     resolve_descriptors := Some default_resolve_descriptors_ptr;
     get_strided_loop := Some npy_default_get_strided_loop_ptr;
     strided_loop := Some (extern_fn 1); contiguous_loop := Some (extern_fn 2);
     unaligned_strided_loop := Some (extern_fn 3);
     unaligned_contiguous_loop := None |}.

Definition unaligned_context : PyArrayMethod_Context :=
  {| caller := None; ctx_method := unaligned_method;
     descriptors := [Some Int64_descr; Some Float32_descr] |}.

(** The specification of [cast_method], with every class given. *)
Definition cast_spec : PyArrayMethod_Spec :=
  {| spec_name := Some "cast"; spec_nin := 1; spec_nout := 1;
     spec_casting := NPY_SAFE_CASTING; spec_flags := 0;
     spec_dtypes := [Some Int64DType; Some Float32DType];
     spec_slots :=
       [ {| slot := NPY_METH_strided_loop; pfunc := Some (extern_fn 1) |};
         end_of_slots ] |}.


Definition cast_context : PyArrayMethod_Context :=
  {| caller := None; ctx_method := cast_method;
     descriptors := [Some Int64_descr; Some Float32_descr] |}.

Definition set_flags (m : PyArrayMethodObject) (f : Z) : PyArrayMethodObject :=
  {| name := name m; nin := nin m; nout := nout m; casting := casting m;
     flags := f; resolve_descriptors := resolve_descriptors m;
     get_strided_loop := get_strided_loop m; strided_loop := strided_loop m;
     contiguous_loop := contiguous_loop m;
     unaligned_strided_loop := unaligned_strided_loop m;
     unaligned_contiguous_loop := unaligned_contiguous_loop m |}.

Definition with_flags (context : PyArrayMethod_Context) (f : Z)
    : PyArrayMethod_Context :=
  {| caller := caller context;
     ctx_method := set_flags (ctx_method context) f;
     descriptors := descriptors context |}.

(** The loop and the auxiliary data a selector hands back, and its return
    value: everything but the flags. *)
Definition selection (r : outcome get_loop_result)
    : outcome (Z * option funptr * option Z) :=
  g <- r ;; Ok (ret g, out_loop g, out_transferdata g).

(** An instance supplied for a slot: of the class bound to the slot, and
    canonical. *)
Definition supplied_canonical (dtype : option PyArray_DTypeMeta)
    (descr : option PyArray_Descr) : Prop :=
  exists c d,
    dtype = Some c /\ descr = Some d /\ ob_type d = dt_addr c
    /\ native_byteorder d = true.

(** Code behind the external addresses: no resolver or selector of its
    own, and an inner loop that does nothing and succeeds. *)
Definition no_extern_resolver : Z -> resolver_fn := fun _ _ _ _ => Undefined.
Definition no_extern_selector : Z -> get_loop_fn := fun _ _ _ _ _ => Undefined.
Definition idle_loop (addr : Z) (context : PyArrayMethod_Context)
    (args : list Z) (length : Z) (strides : list Z) (auxdata : option Z)
    (w : unit) : outcome (Z * unit) :=
  Ok (0, w).

(** A one-dimensional aligned array of four Int64 elements. *)
Definition int64_array (bytes : Z) (writeable : bool) : PyArrayObject :=
  {| arr_descr := Int64_descr; arr_ndim := 1; arr_size := 4;
     arr_writeable := writeable; arr_aligned := true; arr_bytes := bytes;
     arr_strides := [8] |}.

Definition int64_method (nin nout : Z) : PyBoundArrayMethodObject :=
  {| dtypes := [Some Int64DType; Some Int64DType; Some Int64DType];
     method :=
       {| name := Some "int64"; nin := nin; nout := nout;
          casting := NPY_NO_CASTING; flags := 0;
          resolve_descriptors := Some default_resolve_descriptors_ptr;
          get_strided_loop := Some npy_default_get_strided_loop_ptr;
          strided_loop := Some (extern_fn 1);
          contiguous_loop := Some (extern_fn 1);
          unaligned_strided_loop := None;
          unaligned_contiguous_loop := None |} |}.

Definition simple_strided_call (self : PyBoundArrayMethodObject)
    (arr_tuple : PyArgument) : outcome unit :=
  boundarraymethod__simple_strided_call swapped_copy same_class_only
    no_extern_resolver no_extern_selector unit idle_loop self arr_tuple tt.

(** The internal consistency fault of the resolve-only entry point: a
    [RuntimeError]. *)
Definition consistency_fault {A : Type} (r : outcome A) : Prop :=
  exists msg, r = Raise PyExc_RuntimeError msg.

(** [cast_method] bound to (Int64, Float32). *)
Definition bound_cast : PyBoundArrayMethodObject :=
  {| dtypes := [Some Int64DType; Some Float32DType]; method := cast_method |}.

(** A resolver of its own that hands the given instances back and claims
    unsafe casting, and [cast_method] using it. *)
Definition overreaching_resolver (addr : Z) : resolver_fn :=
  fun _ _ given => Ok (NPY_UNSAFE_CASTING, given).

Definition bound_overreaching : PyBoundArrayMethodObject :=
  {| dtypes := [Some Int64DType; Some Float32DType];
     method := set_resolve_descriptors cast_method (Some (extern_fn 7)) |}.

(** A parametric class and its default instance. *)
Definition String_descr : PyArray_Descr :=
  {| descr_addr := 2200; ob_type := 1200; native_byteorder := true;
     elsize := 16 |}.

Definition StringDType : PyArray_DTypeMeta :=
  {| dt_addr := 1200; is_DTypeMeta := true; abstract := false;
     parametric := true; default_descr := Some String_descr |}.

(** A resolver of its own that hands the given instances back and claims
    no casting, and [cast_method] using it, bound to (Int64, Float32) and
    to (Int64, String). *)
Definition cautious_resolver (addr : Z) : resolver_fn :=
  fun _ _ given => Ok (NPY_NO_CASTING, given).

Definition bound_cautious : PyBoundArrayMethodObject :=
  {| dtypes := [Some Int64DType; Some Float32DType];
     method := set_resolve_descriptors cast_method (Some (extern_fn 8)) |}.

Definition bound_parametric : PyBoundArrayMethodObject :=
  {| dtypes := [Some Int64DType; Some StringDType];
     method := set_resolve_descriptors cast_method (Some (extern_fn 8)) |}.

(** ** An inner loop that only counts

    The memory it runs in keeps the bytes as they are and records, for each
    call, the data pointers and the number of elements it was given. *)

Record counting_world : Type := {
  bytes_at : Z -> Z;
  visits : list (list Z * Z)
}.

Definition counting_loop (addr : Z) (context : PyArrayMethod_Context)
    (args : list Z) (length : Z) (strides : list Z) (auxdata : option Z)
    (w : counting_world) : outcome (Z * counting_world) :=
  Ok (0, {| bytes_at := bytes_at w; visits := visits w ++ [(args, length)] |}).

(** The number of elements counted. *)
Definition counted (w : counting_world) : Z :=
  fold_right Z.add 0 (map snd (visits w)).

(** The masked loop around the counting loop, started with nothing
    counted. *)
Definition masked_count (context : PyArrayMethod_Context) (mem : Z -> Z)
    (data dimensions strides : list Z) (auxdata : _masked_stridedloop_data)
    : option (outcome (Z * counting_world)) :=
  generic_masked_strided_loop counting_world bytes_at counting_loop context
    data dimensions strides auxdata {| bytes_at := mem; visits := [] |}.

(** The mask entry of element [i] is true. *)
Definition unmasked (mem : Z -> Z) (mask mask_stride : Z) (i : Z) : bool :=
  negb (mem (mask + i * mask_stride) =? 0).

(** The indices below [N] whose mask entry is true, in increasing order. *)
Definition unmasked_indices (mem : Z -> Z) (mask mask_stride N : Z) : list Z :=
  List.filter (unmasked mem mask mask_stride) (seqZ 0 N).

(** The data pointers of the first [n] arguments at element [start]. *)
Definition pointers_at (data strides : list Z) (n : nat) (start : Z) : list Z :=
  zip_with (fun d s => d + start * s) (take n data) (take n strides).

(** The call of the inner loop on the [len] elements from [start] on. *)
Definition visit_of_run (data strides : list Z) (n : nat) (run : Z * Z)
    : list Z * Z :=
  (pointers_at data strides n (fst run), snd run).

(** The elements of a run. *)
Definition elements_of_run (run : Z * Z) : list Z := seqZ (fst run) (snd run).

(** Five mask bytes true, true, false, false, true at address 1000. *)
Definition five_mask (p : Z) : Z :=
  if (p =? 1000) || (p =? 1001) || (p =? 1004) then 1 else 0.

Definition one_argument : _masked_stridedloop_data :=
  {| unmasked_stridedloop := Some (extern_fn 1); unmasked_auxdata := None;
     nargs := 1 |}.

(** The state of the [do] loop around the counting loop when [k] elements
    are behind it and [rem] are left. *)
Definition state_at (mem : Z -> Z) (data strides : list Z) (n : nat)
    (mask0 mask_stride : Z) (k rem : Z) (visited : list (list Z * Z))
    : masked_state counting_world :=
  {| dataptrs := pointers_at data strides n k;
     mask := mask0 + k * mask_stride;
     remaining := rem;
     memory := {| bytes_at := mem; visits := visited |} |}.

(** A specification with a selector of its own (a private slot), a strided
    loop and an unaligned contiguous loop, but no unaligned strided loop. *)
Definition custom_selector_spec : PyArrayMethod_Spec :=
  {| spec_name := Some "custom"; spec_nin := 1; spec_nout := 1;
     spec_casting := NPY_SAFE_CASTING; spec_flags := 0;
     spec_dtypes := [Some Int64DType; Some Float32DType];
     spec_slots :=
       [ {| slot := NPY_METH_get_loop; pfunc := Some (extern_fn 9) |};
         {| slot := NPY_METH_strided_loop; pfunc := Some (extern_fn 1) |};
         {| slot := NPY_METH_unaligned_contiguous_loop;
            pfunc := Some (extern_fn 4) |};
         end_of_slots ] |}.

(** ** What validation and construction ask of a specification *)

(** Both arities are non-negative and their sum is within the maximum. *)
Definition arity_ok (spec : PyArrayMethod_Spec) : Prop :=
  0 <= spec_nin spec /\ 0 <= spec_nout spec
  /\ spec_nin spec + spec_nout spec <= NPY_MAXARGS.

(** The casting level is one of the five levels, with or without the view
    flag, or it is -1. *)
Definition casting_ok (spec : PyArrayMethod_Spec) : Prop :=
  is_casting_level (Z.land (spec_casting spec) (Z.lnot _NPY_CAST_IS_VIEW))
  = true
  \/ spec_casting spec = -1.

(** Every class slot holds a genuine class, and no input class is
    abstract. *)
Definition classes_ok (spec : PyArrayMethod_Spec) : Prop :=
  forall j, 0 <= j < spec_nin spec + spec_nout spec ->
    exists dtype,
      load (spec_dtypes spec) j = Ok (Some dtype)
      /\ is_DTypeMeta dtype = true
      /\ (j < spec_nin spec -> abstract dtype = false).

(** A slot the [switch] of [fill_arraymethod_from_slots] accepts: one of
    the five slots open to everybody, or the selector slot in a private
    call. *)
Definition accepted_slot (private : Z) (s : PyType_Slot) : bool :=
  (slot s =? NPY_METH_resolve_descriptors)
  || ((slot s =? NPY_METH_get_loop) && negb (private =? 0))
  || (slot s =? NPY_METH_strided_loop)
  || (slot s =? NPY_METH_contiguous_loop)
  || (slot s =? NPY_METH_unaligned_strided_loop)
  || (slot s =? NPY_METH_unaligned_contiguous_loop).

(** The pointer the slots leave in the field of slot [id]: that of the
    last entry for [id] before the terminator, or [start] when there is
    none. *)
Fixpoint last_slot (id : Z) (slots : list PyType_Slot) (start : option funptr)
    : option funptr :=
  match slots with
  | [] => start
  | s :: rest =>
      if slot s =? 0 then start
      else last_slot id rest (if slot s =? id then pfunc s else start)
  end.

(** A specification that gives the strided loop twice. *)
Definition twice_spec : PyArrayMethod_Spec :=
  {| spec_name := None; spec_nin := 1; spec_nout := 1;
     spec_casting := NPY_SAFE_CASTING; spec_flags := 0;
     spec_dtypes := [Some Int64DType; Some Float32DType];
     spec_slots :=
       [ {| slot := NPY_METH_strided_loop; pfunc := Some (extern_fn 1) |};
         {| slot := NPY_METH_strided_loop; pfunc := Some (extern_fn 2) |};
         end_of_slots ] |}.

(** A specification with a slot of an unknown number. *)
Definition unknown_slot_spec : PyArrayMethod_Spec :=
  {| spec_name := None; spec_nin := 1; spec_nout := 1;
     spec_casting := NPY_SAFE_CASTING; spec_flags := 0;
     spec_dtypes := [Some Int64DType; Some Float32DType];
     spec_slots :=
       [ {| slot := NPY_METH_strided_loop; pfunc := Some (extern_fn 1) |};
         {| slot := 77; pfunc := Some (extern_fn 2) |};
         end_of_slots ] |}.

(** A specification with more arguments than the maximum and no class
    array at all. *)
Definition too_wide_spec : PyArrayMethod_Spec :=
  {| spec_name := Some "wide"; spec_nin := 30; spec_nout := 3;
     spec_casting := NPY_SAFE_CASTING; spec_flags := 0;
     spec_dtypes := []; spec_slots := [ end_of_slots ] |}.

(** A specification whose arities add up to more than [INT_MAX], and no
    class array at all. *)
Definition overflowing_spec : PyArrayMethod_Spec :=
  {| spec_name := Some "overflowing"; spec_nin := INT_MAX; spec_nout := 1;
     spec_casting := NPY_SAFE_CASTING; spec_flags := 0;
     spec_dtypes := []; spec_slots := [ end_of_slots ] |}.

(** ** Slots of a resolution *)

(** The class of slot [j] is given. *)
Definition class_given (dtypes : list (option PyArray_DTypeMeta)) (j : Z)
    : Prop :=
  exists dtype, load dtypes j = Ok (Some dtype).

(** Slot [j] either has no class, or has a class and is given a canonical
    instance of it. *)
Definition null_or_canonical (dtypes : list (option PyArray_DTypeMeta))
    (descrs : list (option PyArray_Descr)) (j : Z) : Prop :=
  load dtypes j = Ok None
  \/ exists c d,
      load dtypes j = Ok (Some c) /\ load descrs j = Ok (Some d)
      /\ ob_type d = dt_addr c /\ native_byteorder d = true.

(** No inputs, two outputs, the built-in resolver. *)
Definition no_input_method : PyArrayMethodObject :=
  {| name := None; nin := 0; nout := 2;
     casting := NPY_SAFE_CASTING; flags := 0;
     resolve_descriptors := Some default_resolve_descriptors_ptr;
     get_strided_loop := Some npy_default_get_strided_loop_ptr;
     strided_loop := Some (extern_fn 1); contiguous_loop := Some (extern_fn 1);
     unaligned_strided_loop := None; unaligned_contiguous_loop := None |}.

(** ** Contiguity *)

(** Every one of the first [n] strides is the element size of the instance
    of its argument. *)
Definition all_contiguous (strides : list Z) (ds : list PyArray_Descr)
    (n : nat) : Prop :=
  forall (i : nat) (s : Z) (d : PyArray_Descr),
    (i < n)%nat -> strides !! i = Some s -> ds !! i = Some d -> s = elsize d.

(** ** Arguments of the resolve-only entry point *)

(** An item the entry point accepts at position [k]: [None] at an output
    position, or an instance whose class is exactly the class bound at
    [k]. *)
Definition accepted_item (self : PyBoundArrayMethodObject) (k : nat)
    (item : PyObject) : Prop :=
  match item with
  | Py_None => nin (method self) <= Z.of_nat k
  | PyDescrObject d =>
      exists bound,
        dtypes self !! k = Some bound /\ exact_instance d bound = true
  | _ => False
  end.

(** An argument the entry point accepts: exactly a tuple, of [nin + nout]
    accepted items. *)
Definition accepted_tuple (self : PyBoundArrayMethodObject)
    (arg : PyArgument) : Prop :=
  exists items,
    arg = PyTupleExact items
    /\ Z.of_nat (length items) = nin (method self) + nout (method self)
    /\ forall k item, items !! k = Some item -> accepted_item self k item.

(** What the resolver is given for an item. *)
Definition descr_of_item (item : PyObject) : option PyArray_Descr :=
  match item with
  | PyDescrObject d => Some d
  | _ => None
  end.

(** A resolver of its own that reports an impossible resolution without
    raising. *)
Definition refusing_resolver (addr : Z) : resolver_fn :=
  fun _ _ _ => Ok (-1, []).

(** ** Arguments of the direct strided call *)

(** The stride of a one-dimensional array. *)
Definition stride_of (arr : PyArrayObject) : Z :=
  match arr_strides arr with
  | s :: _ => s
  | [] => 0
  end.

(** An array the first loop of the direct strided call lets through at
    position [k], when the arrays before it have [len] elements: its
    instance is exactly of the class bound at [k], it has one dimension and
    [len] elements, and it is writable if [k >= nout]. *)
Definition accepted_array (self : PyBoundArrayMethodObject) (len : Z)
    (k : nat) (arr : PyArrayObject) : Prop :=
  (exists bound,
      dtypes self !! k = Some bound
      /\ exact_instance (arr_descr arr) bound = true)
  /\ arr_ndim arr = 1
  /\ arr_size arr = len
  /\ (nout (method self) <= Z.of_nat k -> arr_writeable arr = true)
  /\ arr_strides arr <> [].

(** What the first loop gathers from the arrays: instances, data
    pointers, strides, the length of the first array (-1 when there is no
    array) and whether all are aligned. *)
Definition gathered (arrs : list PyArrayObject) : strided_call_args :=
  {| call_descrs := map (fun arr => Some (arr_descr arr)) arrs;
     call_args := map arr_bytes arrs;
     call_strides := map stride_of arrs;
     call_length := match arrs with
                    | [] => -1
                    | arr :: _ => arr_size arr
                    end;
     call_aligned := if forallb arr_aligned arrs then 1 else 0 |}.

(** The instances are the same objects, pairwise. *)
Definition same_objects (ds os : list PyArray_Descr) : bool :=
  forallb (fun p => descr_addr (fst p) =? descr_addr (snd p)) (zip ds os).

(** What the direct strided call does with the result of the inner
    loop. *)
Definition loop_result {world : Type} (r : outcome (Z * world))
    : outcome world :=
  r <- r ;;
  if fst r <? 0 then Raise PyExc_Propagated "strided_loop" else Ok (snd r).

(** An Int64 array that is not aligned. *)
Definition unaligned_int64_array : PyArrayObject :=
  {| arr_descr := Int64_descr; arr_ndim := 1; arr_size := 4;
     arr_writeable := true; arr_aligned := false; arr_bytes := 4097;
     arr_strides := [8] |}.

(** A resolver of its own that hands back copies of the given instances,
    at other addresses. *)
Definition copying_resolver (addr : Z) : resolver_fn :=
  fun _ _ given =>
    Ok (NPY_NO_CASTING,
        map (fun p => match p with
                      | Some d => swapped_copy d
                      | None => None
                      end) given).

Definition int64_copying : PyBoundArrayMethodObject :=
  {| dtypes := [Some Int64DType; Some Int64DType; Some Int64DType];
     method := set_resolve_descriptors (method (int64_method 2 1))
                 (Some (extern_fn 5)) |}.

(** Every array has the element size of its instance as stride. *)
Definition contiguous_arrays (arrs : list PyArrayObject) : bool :=
  forallb (fun arr => stride_of arr =? elsize (arr_descr arr)) arrs.

(** The loop of a method for a call that is aligned or not, on buffers
    that are contiguous or not. *)
Definition loop_for (meth : PyArrayMethodObject) (aligned contiguous : bool)
    : option funptr :=
  match aligned, contiguous with
  | true, true =>
      if is_null (contiguous_loop meth) then strided_loop meth
      else contiguous_loop meth
  | true, false => strided_loop meth
  | false, true =>
      if is_null (unaligned_contiguous_loop meth)
      then unaligned_strided_loop meth
      else unaligned_contiguous_loop meth
  | false, false => unaligned_strided_loop meth
  end.

(** The context the direct strided call builds for the arrays. *)
Definition context_of (self : PyBoundArrayMethodObject)
    (arrs : list PyArrayObject) : PyArrayMethod_Context :=
  {| caller := None; ctx_method := method self;
     descriptors := map (fun arr => Some (arr_descr arr)) arrs |}.

(** ** Masks and inner loops for the masked loop *)

(** Mask bytes false, false, then true from address 1002 on. *)
Definition tail_mask (p : Z) : Z := if p <? 1002 then 0 else 1.

(** An inner loop that records its call and fails with -1. *)
Definition failing_loop (addr : Z) (context : PyArrayMethod_Context)
    (args : list Z) (length : Z) (strides : list Z) (auxdata : option Z)
    (w : counting_world) : outcome (Z * counting_world) :=
  Ok (-1, {| bytes_at := bytes_at w; visits := visits w ++ [(args, length)] |}).

(** [Ok b] is the return of [PyBool_FromLong] of the masked flags: the
    Python boolean [b]. *)
Definition boundarraymethod__supports_unaligned
    (self : PyBoundArrayMethodObject) : bool :=
  negb (Z.land (flags (method self)) NPY_METH_SUPPORTS_UNALIGNED =? 0).

(** A one-dimensional aligned writable array of four Float32 elements. *)
Definition float32_array (bytes : Z) : PyArrayObject :=
  {| arr_descr := Float32_descr; arr_ndim := 1; arr_size := 4;
     arr_writeable := true; arr_aligned := true; arr_bytes := bytes;
     arr_strides := [4] |}.

(** ** The selector of masked loops *)

(** What [PyArrayMethod_GetMaskedStridedLoop] writes when it returns 0:
    [*out_loop] is then always [generic_masked_strided_loop], so there is
    the auxiliary data, through [out_transferdata], and the flags. *)
Record masked_loop_result : Type := {
  masked_transferdata : _masked_stridedloop_data;
  masked_flags : Z
}.

(** [Ok] is the return of [0], [Raise] the return of [-1]; [allocated] is
    whether [PyMem_Malloc] gave memory.  The selector of the method is
    called with [move_references] 0 and writes the loop and its auxiliary
    data into the fields of the new data. *)
Definition PyArrayMethod_GetMaskedStridedLoop
    (extern_get_strided_loop : Z -> get_loop_fn) (allocated : bool)
    (context : PyArrayMethod_Context) (aligned : Z) (fixed_strides : list Z)
    : outcome masked_loop_result :=
  let nargs := nin (ctx_method context) + nout (ctx_method context) in
  if negb allocated then Raise PyExc_Propagated "PyErr_NoMemory"
  else
    g <- call_get_strided_loop extern_get_strided_loop
           (get_strided_loop (ctx_method context)) context aligned 0
           fixed_strides ;;
    if ret g <? 0 then Raise PyExc_Propagated "get_strided_loop"
    else
      Ok {| masked_transferdata :=
              {| unmasked_stridedloop := out_loop g;
                 unmasked_auxdata := out_transferdata g;
                 nargs := nargs |};
            masked_flags := out_flags g |}.

(** A mask that is true everywhere. *)
Definition true_mask (p : Z) : Z := 1.

(** The length the direct strided call asks of every array: the length of
    the first item of the tuple. *)
Definition first_length (items : list PyObject) : Z :=
  match items with
  | PyArrayExact arr :: _ => arr_size arr
  | _ => 0
  end.

(** * Properties *)

Local Close Scope string_scope.

(** Case analysis on every test of a conditional in the goal. *)
Ltac case_ifs :=
  repeat match goal with
         | |- context [if ?b then _ else _] => destruct b
         end.

Lemma bind_Ok_inv {A B : Type} (m : outcome A) (k : A -> outcome B) (b : B) :
  bind m k = Ok b -> exists a, m = Ok a /\ k a = Ok b.
Proof. destruct m as [a| |]; simpl; intros H; try discriminate; eauto. Qed.

(** ** Sums of ints *)

Lemma is_int_true (a : Z) : is_int a = true <-> INT_MIN <= a <= INT_MAX.
Proof.
  unfold is_int. rewrite andb_true_iff, !Z.leb_le. tauto.
Qed.

Lemma int_add_Ok (a b n : Z) :
  int_add a b = Ok n ->
  (INT_MIN <= a <= INT_MAX) /\ (INT_MIN <= b <= INT_MAX)
  /\ (INT_MIN <= n <= INT_MAX)
  /\ (n = a + b \/ n = a + b - 2 ^ 32 \/ n = a + b + 2 ^ 32).
Proof.
  unfold int_add.
  destruct (is_int a) eqn:Ha; [|discriminate].
  destruct (is_int b) eqn:Hb; [|discriminate].
  apply is_int_true in Ha, Hb. cbn [andb]. intros [= <-].
  pose proof (Z.div_mod (a + b - INT_MIN) (2 ^ 32) ltac:(lia)) as Hdiv.
  pose proof (Z.mod_pos_bound (a + b - INT_MIN) (2 ^ 32) ltac:(lia)) as Hmod.
  unfold INT_MIN, INT_MAX in *.
  change (2 ^ 32) with 4294967296 in *. change (2 ^ 31) with 2147483648 in *.
  lia.
Qed.

(** A sum of two ints that are not negative did not wrap around if it is
    not negative. *)
Lemma int_add_exact (a b n : Z) :
  int_add a b = Ok n -> 0 <= a -> 0 <= b -> 0 <= n -> n = a + b.
Proof.
  intros H Ha Hb Hn. apply int_add_Ok in H.
  unfold INT_MIN, INT_MAX in H.
  change (2 ^ 32) with 4294967296 in *. change (2 ^ 31) with 2147483648 in *.
  lia.
Qed.

Lemma int_add_small (a b : Z) :
  0 <= a -> 0 <= b -> a + b <= INT_MAX -> int_add a b = Ok (a + b).
Proof.
  intros Ha Hb Hab. unfold int_add.
  assert (Hia : is_int a = true)
    by (apply is_int_true; unfold INT_MIN, INT_MAX in *;
        change (2 ^ 31) with 2147483648 in *; lia).
  assert (Hib : is_int b = true)
    by (apply is_int_true; unfold INT_MIN, INT_MAX in *;
        change (2 ^ 31) with 2147483648 in *; lia).
  rewrite Hia, Hib. cbn [andb].
  unfold INT_MIN, INT_MAX in *.
  change (2 ^ 31) with 2147483648 in *. change (2 ^ 32) with 4294967296.
  rewrite Z.mod_small by lia. f_equal. lia.
Qed.

(** The allocation of the class array fails for a negative number of
    classes. *)
Lemma PyMem_Malloc_fails_iff (n : Z) :
  INT_MIN <= n <= INT_MAX ->
  (PyMem_Malloc_fails (sizeof_pointers n) = false <-> 0 <= n).
Proof.
  intros Hn. unfold PyMem_Malloc_fails, sizeof_pointers, PY_SSIZE_T_MAX.
  unfold INT_MIN, INT_MAX in Hn.
  change (2 ^ 31) with 2147483648 in *.
  change (2 ^ 64) with 18446744073709551616.
  change (2 ^ 63) with 9223372036854775808.
  rewrite Z.gtb_ltb, Z.ltb_ge.
  destruct (Z.le_gt_cases 0 n) as [Hpos|Hneg].
  - rewrite (Z.mod_small n) by lia. rewrite Z.mod_small by lia.
    split; intros; lia.
  - replace (n mod 18446744073709551616) with (n + 18446744073709551616).
    2:{ apply (Z.mod_unique_pos _ _ (-1)); lia. }
    replace ((8 * (n + 18446744073709551616)) mod 18446744073709551616)
      with (8 * n + 18446744073709551616).
    2:{ apply (Z.mod_unique_pos _ _ 7); lia. }
    split; intros; lia.
Qed.

(** ** Reading arrays *)

Lemma load_Ok {A : Type} (a : list A) (i : Z) (x : A) :
  0 <= i -> a !! Z.to_nat i = Some x -> load a i = Ok x.
Proof.
  intros Hi Hx. unfold load.
  destruct (Z.ltb_spec i 0); [lia|]. now rewrite Hx.
Qed.

(** ** The default loop selector *)

(** C7: a method with an unaligned strided loop and no unaligned contiguous
    loop, asked without the alignment assertion for contiguous strides, gets
    its unaligned strided loop and the selector succeeds. *)
Theorem default_selector_unaligned_fallback
    (context : PyArrayMethod_Context) (move_references : Z) (strides : list Z)
    (loop : funptr) :
  unaligned_strided_loop (ctx_method context) = Some loop ->
  unaligned_contiguous_loop (ctx_method context) = None ->
  is_contiguous strides (descriptors context)
    (nin (ctx_method context) + nout (ctx_method context)) = Ok 1 ->
  npy_default_get_strided_loop context 0 move_references strides
  = Ok {| ret := 0; out_loop := Some loop; out_transferdata := None;
          out_flags := Z.land (flags (ctx_method context))
                         NPY_METH_RUNTIME_FLAGS |}.
Proof.
  intros Hstrided Hcontig _.
  unfold npy_default_get_strided_loop. simpl.
  now rewrite Hcontig, Hstrided.
Qed.

Lemma default_selector_unaligned_fallback_witness :
  npy_default_get_strided_loop unaligned_context 0 0 [8; 4]
  = Ok {| ret := 0; out_loop := Some (extern_fn 3); out_transferdata := None;
          out_flags := 0 |}.
Proof.
  apply (default_selector_unaligned_fallback unaligned_context 0 [8; 4]
           (extern_fn 3)); reflexivity.
Defined.

(** ** Construction and the invariant of the built-in selector *)

Lemma is_null_Some {A : Type} (p : option A) : is_null p = false <-> p <> None.
Proof. destruct p; simpl; split; congruence. Qed.

Lemma check_loops_Ok (meth meth' : PyArrayMethodObject) :
  check_loops meth = Ok meth' ->
  loops_acceptable meth
  /\ meth' = (if is_null (contiguous_loop meth)
             then set_contiguous_loop meth (strided_loop meth) else meth).
Proof.
  unfold check_loops, loops_acceptable.
  destruct (is_null (strided_loop meth)) eqn:Hs; [discriminate|].
  apply is_null_Some in Hs.
  set (m1 := if is_null (contiguous_loop meth) then _ else meth).
  assert (Hu : unaligned_strided_loop m1 = unaligned_strided_loop meth)
    by (subst m1; destruct (is_null (contiguous_loop meth)); reflexivity).
  assert (Hc : unaligned_contiguous_loop m1 = unaligned_contiguous_loop meth)
    by (subst m1; destruct (is_null (contiguous_loop meth)); reflexivity).
  assert (Hf : flags m1 = flags meth)
    by (subst m1; destruct (is_null (contiguous_loop meth)); reflexivity).
  rewrite Hu, Hc, Hf.
  destruct (unaligned_contiguous_loop meth) as [uc|],
           (unaligned_strided_loop meth) as [us|]; simpl;
    destruct (Z.eqb_spec (Z.land (flags meth) NPY_METH_SUPPORTS_UNALIGNED) 0);
    simpl; intros [= <-]; repeat split; try congruence; try tauto.
Qed.

Lemma check_loops_consistent (meth meth' : PyArrayMethodObject) :
  check_loops meth = Ok meth' -> loops_consistent meth'.
Proof.
  intros H. destruct (check_loops_Ok _ _ H) as [(Hs & Hc & Hu) ->].
  unfold loops_consistent.
  destruct (contiguous_loop meth) eqn:E; simpl; rewrite ?E;
    repeat split; auto; try congruence; try apply Hu.
Qed.


(** The name of the specification plays no part in filling the method. *)
Lemma fill_arraymethod_from_named (spec : PyArrayMethod_Spec)
    (n : option string) (ds : list (option PyArray_DTypeMeta)) (private : Z) :
  fill_arraymethod_from_slots
    {| dtypes := ds; method := new_method (set_spec_name spec n) |}
    (set_spec_name spec n) private
  = fill_arraymethod_from_slots {| dtypes := ds; method := new_method spec |}
      spec private.
Proof. reflexivity. Qed.

(** What a successful construction went through. *)
Lemma FromSpec_Ok_inv (spec : PyArrayMethod_Spec) (private : Z)
    (self : PyBoundArrayMethodObject) :
  PyArrayMethod_FromSpec_int spec private = Ok self ->
  exists meth0 meth1,
    slots_as_supplied spec private = Ok meth0
    /\ method self = set_name meth1 (name (method self))
    /\ (if is_fn (get_strided_loop meth0) npy_default_get_strided_loop_ptr
        then check_loops meth0 = Ok meth1 else meth1 = meth0).
Proof.
  unfold PyArrayMethod_FromSpec_int. intros H.
  apply bind_Ok_inv in H as (nargs & _ & H).
  apply bind_Ok_inv in H as (v & _ & H).
  destruct (PyMem_Malloc_fails (sizeof_pointers nargs)); [discriminate H|].
  apply bind_Ok_inv in H as (res & Hfill & [= <-]).
  unfold fill_arraymethod_from_slots in Hfill.
  apply bind_Ok_inv in Hfill as (meth0 & Hslots & Hfill).
  apply bind_Ok_inv in Hfill as (c & _ & Hfill).
  exists meth0.
  destruct (is_fn (get_strided_loop meth0) npy_default_get_strided_loop_ptr);
    simpl in Hfill.
  - apply bind_Ok_inv in Hfill as (meth1 & Hloops & [= <-]).
    exists meth1. split; [exact Hslots|]. simpl. auto.
  - injection Hfill as <-. exists meth0. split; [exact Hslots|]. simpl. auto.
Qed.

Lemma is_fn_true (p : option funptr) (f : funptr) :
  is_fn p f = true <-> p = Some f.
Proof.
  destruct p as [g|]; simpl; [|split; discriminate].
  destruct g, f; simpl; split; try congruence; try discriminate.
  - intros ->%Z.eqb_eq. reflexivity.
  - intros [= ->]. apply Z.eqb_refl.
Qed.



(** The slots only ever set the six function pointers. *)
Lemma fill_slots_arity (slots : list PyType_Slot) (private : Z)
    (meth meth' : PyArrayMethodObject) :
  fill_slots slots private meth = Ok meth' ->
  nin meth' = nin meth /\ nout meth' = nout meth /\ flags meth' = flags meth
  /\ casting meth' = casting meth.
Proof.
  revert meth. induction slots as [|s rest IH]; intros meth; simpl;
    [discriminate|].
  unfold invalid_slot.
  case_ifs;
    try discriminate;
    try (intros [= <-]; now auto);
    intros H; apply IH in H; exact H.
Qed.

(** The tests a specification has passed when validation gets to its
    classes. *)
Lemma validate_spec_Ok_inv (spec : PyArrayMethod_Spec) (v : Z) :
  validate_spec spec = Ok v ->
  exists nargs,
    int_add (spec_nin spec) (spec_nout spec) = Ok nargs
    /\ 0 <= spec_nin spec /\ 0 <= spec_nout spec /\ nargs <= NPY_MAXARGS
    /\ (is_casting_level
          (Z.land (spec_casting spec) (Z.lnot _NPY_CAST_IS_VIEW)) = true
        \/ spec_casting spec = -1)
    /\ validate_dtypes spec 0 (Z.to_nat nargs) = Ok v.
Proof.
  unfold validate_spec, PyErr_Format_name. intros H.
  apply bind_Ok_inv in H as (nargs & Hadd & H).
  exists nargs. split; [exact Hadd|].
  destruct (Z.ltb_spec (spec_nin spec) 0);
    [destruct (is_null (spec_name spec)); discriminate H|].
  destruct (Z.ltb_spec (spec_nout spec) 0);
    [destruct (is_null (spec_name spec)); discriminate H|].
  cbn [orb] in H. rewrite Z.gtb_ltb in H.
  destruct (Z.ltb_spec NPY_MAXARGS nargs);
    [destruct (is_null (spec_name spec)); discriminate H|].
  destruct (is_casting_level _) eqn:Hlevel; cbn [negb andb] in H.
  - auto 10.
  - destruct (Z.eqb_spec (spec_casting spec) (-1)); cbn [negb] in H;
      [auto 10 | destruct (is_null (spec_name spec)); discriminate H].
Qed.


(** A method that leaves the constructor with the built-in selector went
    through [check_loops]. *)
Lemma FromSpec_builtin_selector (spec : PyArrayMethod_Spec) (private : Z)
    (self : PyBoundArrayMethodObject) :
  PyArrayMethod_FromSpec_int spec private = Ok self ->
  get_strided_loop (method self) = Some npy_default_get_strided_loop_ptr ->
  exists meth0 meth1,
    slots_as_supplied spec private = Ok meth0
    /\ check_loops meth0 = Ok meth1
    /\ method self = set_name meth1 (name (method self)).
Proof.
  intros Hself Hsel.
  destruct (FromSpec_Ok_inv _ _ _ Hself) as (meth0 & meth1 & Hslots & Hm & Hc).
  exists meth0, meth1. repeat split; auto.
  destruct (is_fn (get_strided_loop meth0) npy_default_get_strided_loop_ptr)
    eqn:E; [exact Hc|].
  subst meth1. rewrite Hm in Hsel. simpl in Hsel.
  apply is_fn_true in Hsel. congruence.
Qed.



(** ** Totality of the default selector *)

Lemma is_contiguous_from_defined (strides : list Z) (ds : list PyArray_Descr)
    (count : nat) (i : Z) :
  0 <= i ->
  (Z.to_nat i + count <= length strides)%nat ->
  (Z.to_nat i + count <= length ds)%nat ->
  exists c, is_contiguous_from strides (map Some ds) i count = Ok c.
Proof.
  revert i. induction count as [|count IH]; intros i Hi Hs Hd; simpl; [eauto|].
  destruct (lookup_lt_is_Some_2 strides (Z.to_nat i)) as [s Es]; [lia|].
  destruct (lookup_lt_is_Some_2 ds (Z.to_nat i)) as [d Ed]; [lia|].
  rewrite (load_Ok _ _ _ Hi Es). simpl.
  rewrite (load_Ok (map Some ds) i (Some d) Hi); simpl.
  - destruct (s =? elsize d); simpl; [|eauto]. apply IH; lia.
  - change (map Some ds) with (Some <$> ds).
    now rewrite list_lookup_fmap, Ed.
Qed.

(** C10, as the code has it: the default selector never fails.  Given a
    stride and a resolved instance for every argument it returns 0 with
    null auxiliary data, whatever the method, the alignment assertion and
    the strides; what it selects does not depend on the flags of the
    method; and called without the alignment assertion on a method that has
    neither an unaligned strided nor an unaligned contiguous loop, as is
    every method built with the built-in selector that has no unaligned
    strided loop, it succeeds and hands back a null loop. *)
Theorem default_selector_total :
  (forall (context : PyArrayMethod_Context) (aligned move_references : Z)
          (strides : list Z),
      resolved_call context strides ->
      exists loop,
        npy_default_get_strided_loop context aligned move_references strides
        = Ok {| ret := 0; out_loop := loop; out_transferdata := None;
                out_flags := Z.land (flags (ctx_method context))
                               NPY_METH_RUNTIME_FLAGS |})
  /\ (forall (context : PyArrayMethod_Context) (aligned move_references : Z)
             (strides : list Z) (f : Z),
         selection (npy_default_get_strided_loop (with_flags context f)
                      aligned move_references strides)
         = selection (npy_default_get_strided_loop context
                        aligned move_references strides))
  /\ (forall (context : PyArrayMethod_Context) (move_references : Z)
             (strides : list Z),
         unaligned_strided_loop (ctx_method context) = None ->
         unaligned_contiguous_loop (ctx_method context) = None ->
         npy_default_get_strided_loop context 0 move_references strides
         = Ok {| ret := 0; out_loop := None; out_transferdata := None;
                 out_flags := Z.land (flags (ctx_method context))
                                NPY_METH_RUNTIME_FLAGS |})
  /\ (forall (spec : PyArrayMethod_Spec) (private : Z)
             (self : PyBoundArrayMethodObject),
         PyArrayMethod_FromSpec_int spec private = Ok self ->
         get_strided_loop (method self) = Some npy_default_get_strided_loop_ptr ->
         unaligned_strided_loop (method self) = None ->
         unaligned_contiguous_loop (method self) = None).
Proof.
  repeat split.
  - intros context aligned mv strides (Hs & ds & Hd & Hl).
    unfold npy_default_get_strided_loop, is_contiguous. rewrite Hd.
    destruct (is_contiguous_from_defined strides ds
                (Z.to_nat (nin (ctx_method context) + nout (ctx_method context)))
                0 ltac:(lia) ltac:(simpl; lia) ltac:(simpl; lia)) as [c ->].
    simpl.
    destruct (aligned =? 0), (contiguous_loop (ctx_method context)),
      (unaligned_contiguous_loop (ctx_method context)), (c =? 0);
      simpl; eauto.
  - intros context aligned mv strides f.
    unfold npy_default_get_strided_loop, with_flags. simpl.
    destruct (aligned =? 0), (contiguous_loop (ctx_method context)),
      (unaligned_contiguous_loop (ctx_method context));
      simpl; try reflexivity;
      destruct (is_contiguous strides _ _) as [c| |]; simpl; try reflexivity;
      destruct (c =? 0); reflexivity.
  - intros context mv strides Hnone Hnc.
    unfold npy_default_get_strided_loop. rewrite Hnc, Hnone. reflexivity.
  - intros spec private self Hself Hsel Hnone.
    destruct (FromSpec_builtin_selector _ _ _ Hself Hsel)
      as (meth0 & meth1 & _ & Hc & Hm).
    destruct (check_loops_consistent _ _ Hc) as (_ & _ & Huc & _).
    rewrite Hm in Hnone |- *. simpl in *.
    destruct (unaligned_contiguous_loop meth1); [|reflexivity].
    destruct Huc; congruence.
Qed.

Lemma default_selector_total_witness :
  (exists loop,
      npy_default_get_strided_loop cast_context 1 0 [8; 4]
      = Ok {| ret := 0; out_loop := loop; out_transferdata := None;
              out_flags := 0 |})
  /\ npy_default_get_strided_loop cast_context 0 0 [8; 4]
     = Ok {| ret := 0; out_loop := None; out_transferdata := None;
             out_flags := 0 |}
  /\ (exists self,
         PyArrayMethod_FromSpec_int cast_spec 0 = Ok self
         /\ unaligned_contiguous_loop (method self) = None).
Proof.
  destruct default_selector_total as (Htotal & _ & Hnull & Hbuilt).
  split; [|split].
  - apply (Htotal cast_context 1 0 [8; 4]).
    split; [simpl; lia|].
    exists [Int64_descr; Float32_descr]. split; [reflexivity | simpl; lia].
  - apply (Hnull cast_context 0 [8; 4]); reflexivity.
  - eexists. split; [reflexivity|].
    apply (Hbuilt cast_spec 0 _ eq_refl eq_refl eq_refl).
Defined.

(** C10 as stated fails on a method that has an unaligned contiguous loop
    and no unaligned strided one, which the constructor builds when the
    specification brings a selector of its own: for contiguous strides the
    default selector hands back the unaligned contiguous loop, not null. *)
Lemma default_selector_null_loop_counterexample :
  exists self,
    PyArrayMethod_FromSpec_int custom_selector_spec 1 = Ok self
    /\ unaligned_strided_loop (method self) = None
    /\ npy_default_get_strided_loop
         {| caller := None; ctx_method := method self;
            descriptors := [Some Int64_descr; Some Float32_descr] |}
         0 0 [8; 4]
       = Ok {| ret := 0; out_loop := Some (extern_fn 4);
               out_transferdata := None; out_flags := 0 |}.
Proof. eexists. repeat split; reflexivity. Qed.

(** ** The default resolver *)

Lemma resolve_slot_canonical
    (NewByteorder : PyArray_Descr -> option PyArray_Descr)
    (dtype : PyArray_DTypeMeta) (d : PyArray_Descr) :
  ob_type d = dt_addr dtype -> native_byteorder d = true ->
  resolve_slot NewByteorder dtype (Some d) = Ok d.
Proof.
  intros Htype Hnbo. unfold resolve_slot, ensure_dtype_nbo. simpl.
  now rewrite Htype, Z.eqb_refl, Hnbo.
Qed.

Lemma resolve_slot_other_class
    (NewByteorder : PyArray_Descr -> option PyArray_Descr)
    (dtype : PyArray_DTypeMeta) (d dflt : PyArray_Descr) :
  ob_type d <> dt_addr dtype -> default_descr dtype = Some dflt ->
  resolve_slot NewByteorder dtype (Some d) = Ok dflt.
Proof.
  intros Htype Hdflt. unfold resolve_slot. simpl.
  destruct (Z.eqb_spec (ob_type d) (dt_addr dtype)); [contradiction|].
  now rewrite Hdflt.
Qed.

Lemma resolve_defined_identity
    (NewByteorder : PyArray_Descr -> option PyArray_Descr)
    (dtypes : list (option PyArray_DTypeMeta))
    (descrs : list (option PyArray_Descr)) :
  Forall2 supplied_canonical dtypes descrs ->
  forall (count : nat) (i : Z) (out : list (option PyArray_Descr)) (b : bool),
    0 <= i ->
    (Z.to_nat i + count <= length dtypes)%nat ->
    resolve_defined NewByteorder dtypes descrs i count out b
    = Ok (out ++ take count (drop (Z.to_nat i) descrs), b).
Proof.
  intros Hall. induction count as [|count IH]; intros i out b Hi Hlen; simpl.
  - now rewrite app_nil_r.
  - destruct (lookup_lt_is_Some_2 dtypes (Z.to_nat i)) as [p Hp]; [lia|].
    destruct (Forall2_lookup_l _ _ _ _ _ Hall Hp)
      as (q & Hq & c & d & -> & -> & Htype & Hnbo).
    rewrite (load_Ok _ _ _ Hi Hp). simpl.
    rewrite (load_Ok _ _ _ Hi Hq). simpl.
    rewrite (resolve_slot_canonical _ _ _ Htype Hnbo). simpl.
    rewrite IH by lia.
    rewrite (drop_S _ _ _ Hq).
    replace (Z.to_nat (i + 1)) with (S (Z.to_nat i)) by lia.
    simpl. now rewrite <- app_assoc.
Qed.

(** C8: with the default resolver, when every slot has a class and is given
    a canonical instance of that class, resolution hands back those very
    instances and the casting level the method declares. *)
Theorem default_resolver_identity
    (NewByteorder : PyArray_Descr -> option PyArray_Descr)
    (CommonDType :
       PyArray_DTypeMeta -> option PyArray_DTypeMeta ->
       option PyArray_DTypeMeta)
    (meth : PyArrayMethodObject)
    (dtypes : list (option PyArray_DTypeMeta))
    (descrs : list (option PyArray_Descr)) :
  length dtypes = Z.to_nat (nin meth + nout meth) ->
  Forall2 supplied_canonical dtypes descrs ->
  default_resolve_descriptors NewByteorder CommonDType meth dtypes descrs
  = Ok (casting meth, descrs).
Proof.
  intros Hlen Hall. unfold default_resolve_descriptors.
  rewrite (resolve_defined_identity NewByteorder dtypes descrs Hall)
    by (simpl; lia).
  simpl. rewrite <- Hlen, (Forall2_length _ _ _ Hall), firstn_all.
  reflexivity.
Qed.

Lemma default_resolver_identity_witness :
  default_resolve_descriptors swapped_copy same_class_only cast_method
    [Some Int64DType; Some Float32DType] [Some Int64_descr; Some Float32_descr]
  = Ok (NPY_SAFE_CASTING, [Some Int64_descr; Some Float32_descr]).
Proof.
  apply (default_resolver_identity swapped_copy same_class_only cast_method).
  - reflexivity.
  - repeat constructor.
    + exists Int64DType, Int64_descr. repeat split; reflexivity.
    + exists Float32DType, Float32_descr. repeat split; reflexivity.
Defined.

(** C2: the default resolver reads the class of the instance given for a
    slot before anything else, also when that instance is absent; for an
    output given as a null placeholder with a declared class this is a read
    through a null pointer, not the default instance of the class. *)
Theorem default_resolver_reads_absent_instance :
  (forall (NewByteorder : PyArray_Descr -> option PyArray_Descr)
          (dtype : PyArray_DTypeMeta),
      resolve_slot NewByteorder dtype None = Undefined)
  /\ default_resolve_descriptors swapped_copy same_class_only cast_method
       [Some Int64DType; Some Float32DType] [Some Int64_descr; None]
     = Undefined.
Proof. split; reflexivity. Qed.

(** Whenever the default resolver succeeds, the level it returns is the
    one the method declares. *)
Lemma default_resolver_level
    (NewByteorder : PyArray_Descr -> option PyArray_Descr)
    (CommonDType :
       PyArray_DTypeMeta -> option PyArray_DTypeMeta ->
       option PyArray_DTypeMeta)
    (meth : PyArrayMethodObject)
    (dtypes : list (option PyArray_DTypeMeta))
    (descrs out : list (option PyArray_Descr)) (level : Z) :
  default_resolve_descriptors NewByteorder CommonDType meth dtypes descrs
  = Ok (level, out) ->
  level = casting meth.
Proof.
  unfold default_resolve_descriptors. intros H.
  apply bind_Ok_inv in H as ([outs all_defined] & _ & H).
  destruct all_defined; [congruence|].
  apply bind_Ok_inv in H as (first & _ & H).
  destruct first as [dtype0|]; [|discriminate].
  apply bind_Ok_inv in H as (common & _ & H).
  apply bind_Ok_inv in H as (outs' & _ & H).
  congruence.
Qed.

(** C1, as the code has it: a method with two inputs and one output,
    declared casting same-kind, and classes (A, A, null), where the common
    class of A with itself is A.  Resolved with the canonical instance of A
    for both inputs and an instance supplied for the output, the default
    resolver returns the declared level, same-kind, and as output instance
    the supplied one when it is a canonical instance of A, or the default
    instance of A when it is of another class. *)
Theorem binary_null_output_resolution
    (NewByteorder : PyArray_Descr -> option PyArray_Descr)
    (CommonDType :
       PyArray_DTypeMeta -> option PyArray_DTypeMeta ->
       option PyArray_DTypeMeta)
    (meth : PyArrayMethodObject) (A : PyArray_DTypeMeta)
    (a o out : PyArray_Descr) :
  nin meth = 2 -> nout meth = 1 -> casting meth = NPY_SAME_KIND_CASTING ->
  ob_type a = dt_addr A -> native_byteorder a = true ->
  CommonDType A (Some A) = Some A ->
  (ob_type o = dt_addr A /\ native_byteorder o = true /\ out = o)
  \/ (ob_type o <> dt_addr A /\ default_descr A = Some out) ->
  default_resolve_descriptors NewByteorder CommonDType meth
    [Some A; Some A; None] [Some a; Some a; Some o]
  = Ok (NPY_SAME_KIND_CASTING, [Some a; Some a; Some out]).
Proof.
  intros Hnin Hnout Hcast Htype Hnbo Hcommon Hout.
  assert (Hslot : resolve_slot NewByteorder A (Some o) = Ok out).
  { destruct Hout as [(Ho & Hn & ->) | (Ho & Hd)].
    - now apply resolve_slot_canonical.
    - now apply resolve_slot_other_class. }
  pose proof (resolve_slot_canonical NewByteorder _ _ Htype Hnbo) as Hin.
  unfold default_resolve_descriptors. rewrite Hnin, Hnout, Hcast.
  cbv - [resolve_slot]. rewrite Hin.
  cbv - [resolve_slot]. rewrite Hcommon, Hslot. reflexivity.
Qed.

Lemma binary_null_output_resolution_witness :
  default_resolve_descriptors swapped_copy same_class_only binary_method
    [Some Int64DType; Some Int64DType; None]
    [Some Int64_descr; Some Int64_descr; Some Int64_descr]
  = Ok (NPY_SAME_KIND_CASTING,
        [Some Int64_descr; Some Int64_descr; Some Int64_descr]).
Proof.
  apply (binary_null_output_resolution swapped_copy same_class_only
           binary_method Int64DType Int64_descr Int64_descr Int64_descr);
    try reflexivity.
  left. repeat split; reflexivity.
Defined.

(** C1 as stated fails on [binary_spec]: the constructor reads through the
    null output class and yields no method, and whatever is given for the
    output, the resolver of such a method never yields no-casting. *)
Lemma binary_scenario_counterexample :
  ~ (exists self, PyArrayMethod_FromSpec_int binary_spec 0 = Ok self)
  /\ ~ (exists given_out descrs,
           default_resolve_descriptors swapped_copy same_class_only
             binary_method [Some Int64DType; Some Int64DType; None]
             [Some Int64_descr; Some Int64_descr; given_out]
           = Ok (NPY_NO_CASTING, descrs)).
Proof.
  split.
  - intros [self H]. vm_compute in H. discriminate H.
  - intros (given_out & descrs & H).
    apply default_resolver_level in H. discriminate H.
Qed.

(** ** Validation of a specification *)

(** What a specification that passes validation looks like: every class
    slot, input or output, holds a genuine class, and no input class is
    abstract. *)
Lemma validate_dtypes_Ok (spec : PyArrayMethod_Spec) (count : nat) (i v : Z) :
  validate_dtypes spec i count = Ok v ->
  forall j, i <= j < i + Z.of_nat count ->
    exists dtype,
      load (spec_dtypes spec) j = Ok (Some dtype)
      /\ is_DTypeMeta dtype = true
      /\ (j < spec_nin spec -> abstract dtype = false).
Proof.
  revert i. induction count as [|count IH]; intros i H j Hj; [lia|].
  simpl in H. apply bind_Ok_inv in H as (p & Hp & H).
  unfold PyErr_Format_name in H.
  destruct p as [dtype|].
  - simpl in H.
    destruct (is_DTypeMeta dtype) eqn:Hd; simpl in H;
      [|destruct (is_null (spec_name spec)); discriminate].
    destruct (abstract dtype && (i <? spec_nin spec)) eqn:Ha; [discriminate|].
    destruct (Z.eq_dec j i) as [->|Hne].
    + exists dtype. repeat split; auto. intros Hlt.
      apply andb_false_iff in Ha as [Ha|Ha]; [exact Ha|].
      apply Z.ltb_ge in Ha. lia.
    + apply (IH (i + 1)); [exact H | lia].
  - simpl in H.
    destruct (i <? spec_nin spec), (is_null (spec_name spec)); discriminate.
Qed.


Lemma validate_spec_Ok (spec : PyArrayMethod_Spec) (v : Z) :
  validate_spec spec = Ok v /\ spec_nin spec + spec_nout spec <= INT_MAX ->
  forall j, 0 <= j < spec_nin spec + spec_nout spec ->
    exists dtype,
      load (spec_dtypes spec) j = Ok (Some dtype)
      /\ is_DTypeMeta dtype = true
      /\ (j < spec_nin spec -> abstract dtype = false).
Proof.
  intros [H Hsum] j Hj.
  apply validate_spec_Ok_inv in H
    as (nargs & Hadd & Hin & Hout & _ & _ & Hdtypes).
  rewrite (int_add_small _ _ Hin Hout Hsum) in Hadd. injection Hadd as <-.
  apply (validate_dtypes_Ok spec _ 0 v Hdtypes). lia.
Qed.

(** C4: validation does not let a null output class through.  On a
    specification with one input class and a null output class it reads
    the header of the null output, instead of returning 0. *)
Theorem validate_spec_null_output :
  validate_spec unary_spec = Undefined
  /\ validate_spec binary_spec = Undefined.
Proof. split; reflexivity. Qed.

(** ** The direct strided call *)

(** C3: the writability check of the direct strided call is made for the
    slots [i >= nout], not for the output slots [i >= nin].  With one input
    and two outputs a read-only first output goes through; with two inputs
    and one output a read-only second input is refused. *)
Theorem simple_strided_call_writeable_check :
  simple_strided_call (int64_method 1 2)
    (PyTupleExact [PyArrayExact (int64_array 4096 true);
                   PyArrayExact (int64_array 8192 false);
                   PyArrayExact (int64_array 12288 true)])
  = Ok tt
  /\ simple_strided_call (int64_method 2 1)
       (PyTupleExact [PyArrayExact (int64_array 4096 true);
                      PyArrayExact (int64_array 8192 false);
                      PyArrayExact (int64_array 12288 true)])
     = Raise PyExc_ValueError "_simple_strided_call() output is read-only".
Proof. split; reflexivity. Qed.

(** ** The resolve-only entry point *)

Lemma check_casting_Ok (meth : PyArrayMethodObject) (returned : Z)
    (is_parametric : bool) :
  casting meth <> -1 ->
  name meth <> None ->
  let cast := Z.land returned (Z.lnot _NPY_CAST_IS_VIEW) in
  (consistency_fault (check_casting meth returned is_parametric) <->
   PyArray_MinCastSafety cast (casting meth) <> casting meth
   \/ (is_parametric = false /\ cast <> casting meth
       /\ casting meth <> NPY_EQUIV_CASTING))
  /\ (~ consistency_fault (check_casting meth returned is_parametric) ->
      check_casting meth returned is_parametric = Ok 0).
Proof.
  intros Hdecl Hname cast.
  unfold check_casting, consistency_fault, PyErr_Format_method. fold cast.
  destruct (name meth) as [n|]; [|contradiction]. cbn [is_null].
  destruct (Z.eqb_spec (casting meth) (-1)) as [|_]; [contradiction|].
  simpl.
  destruct (Z.eqb_spec (casting meth)
              (PyArray_MinCastSafety cast (casting meth))) as [Hm|Hm]; simpl.
  - destruct is_parametric; simpl.
    + split; [|reflexivity]. split.
      * intros [msg H]. discriminate H.
      * intros [H|(H & _)]; [congruence | discriminate].
    + destruct (Z.eqb_spec cast (casting meth)) as [Hc|Hc]; simpl.
      * split; [|reflexivity]. split.
        -- intros [msg H]. discriminate H.
        -- intros [H|(_ & H & _)]; congruence.
      * destruct (Z.eqb_spec (casting meth) NPY_EQUIV_CASTING) as [He|He];
          simpl.
        -- split; [|reflexivity]. split.
           ++ intros [msg H]. discriminate H.
           ++ intros [H|(_ & _ & H)]; congruence.
        -- split.
           ++ split; [auto | eauto].
           ++ intros H. destruct H. eauto.
  - split.
    + split; [intros _; left; congruence | eauto].
    + intros H. destruct H. eauto.
Qed.

(** What the loop of lines 587-592 finds: it completes when the classes it
    reads are there, and it leaves [parametric] at 0 exactly when none of
    the classes is parametric. *)
Lemma any_parametric_scan (dtypes : list (option PyArray_DTypeMeta))
    (count : nat) :
  forall i : Z,
    (forall j, i <= j < i + Z.of_nat count ->
       (exists c, load dtypes j = Ok (Some c))
       \/ (exists k c,
             i <= k < j /\ load dtypes k = Ok (Some c)
             /\ parametric c = true)) ->
    exists b,
      any_parametric dtypes i count = Ok b
      /\ (b = false <->
          forall j c, i <= j < i + Z.of_nat count ->
            load dtypes j = Ok (Some c) -> parametric c = false).
Proof.
  induction count as [|count IH]; intros i Hread.
  - exists false. split; [reflexivity|]. split; [|reflexivity].
    intros _ j c Hj. lia.
  - destruct (Hread i ltac:(lia)) as [(c & Hc) | (k & c & Hk & _)]; [|lia].
    cbn [any_parametric]. rewrite Hc. cbn [bind deref].
    destruct (parametric c) eqn:Hp.
    + exists true. split; [reflexivity|]. split; [discriminate|].
      intros H. rewrite (H i c ltac:(lia) Hc) in Hp. discriminate Hp.
    + destruct (IH (i + 1)) as (b & Hb & Hiff).
      { intros j Hj.
        destruct (Hread j ltac:(lia)) as [Hj'|(k & c' & Hk & Hc' & Hp')];
          [left; exact Hj'|].
        right. exists k, c'. split; [|auto].
        destruct (Z.eq_dec k i) as [->|Hne]; [|lia].
        rewrite Hc in Hc'. injection Hc' as <-. congruence. }
      exists b. split; [exact Hb|]. rewrite Hiff. split.
      * intros H j c' Hj Hc'.
        destruct (Z.eq_dec j i) as [->|Hne].
        -- rewrite Hc in Hc'. injection Hc' as <-. exact Hp.
        -- apply (H j c'); [lia | exact Hc'].
      * intros H j c' Hj Hc'. apply (H j c'); [lia | exact Hc'].
Qed.

(** C9: when the resolver of a method with a declared level has returned a
    level, the resolve-only entry point raises the consistency fault exactly
    when merging the returned level, view flag stripped, with the declared
    one does not give the declared one, or when no bound class is
    parametric, the stripped level is not the declared one, and the
    declared one is not equivalent; otherwise it returns the level and the
    instances.  A declared equivalent level that comes back as no-casting
    is no fault. *)
Theorem resolve_only_consistency_check
    (NewByteorder : PyArray_Descr -> option PyArray_Descr)
    (CommonDType :
       PyArray_DTypeMeta -> option PyArray_DTypeMeta ->
       option PyArray_DTypeMeta)
    (extern_resolver : Z -> resolver_fn)
    (self : PyBoundArrayMethodObject) (items : list PyObject)
    (given loop_descrs result_tuple : list (option PyArray_Descr))
    (returned : Z) :
  let meth := method self in
  let nargs := nin meth + nout meth in
  let cast := Z.land returned (Z.lnot _NPY_CAST_IS_VIEW) in
  let r :=
    boundarraymethod__resolve_descripors NewByteorder CommonDType
      extern_resolver self (PyTupleExact items) in
  Z.of_nat (length items) = nargs ->
  given_descrs_of_tuple self items 0 (Z.to_nat nargs) [] = Ok given ->
  call_resolve_descriptors NewByteorder CommonDType extern_resolver
    (resolve_descriptors meth) meth (dtypes self) given
  = Ok (returned, loop_descrs) ->
  0 <= returned ->
  read_array loop_descrs 0 (Z.to_nat nargs) = Ok result_tuple ->
  classes_readable (dtypes self) nargs ->
  casting meth <> -1 ->
  name meth <> None ->
  (consistency_fault r <->
   PyArray_MinCastSafety cast (casting meth) <> casting meth
   \/ (no_parametric_class (dtypes self) nargs /\ cast <> casting meth
       /\ casting meth <> NPY_EQUIV_CASTING))
  /\ (~ consistency_fault r -> r = Ok (returned, Some result_tuple))
  /\ (casting meth = NPY_EQUIV_CASTING -> cast = NPY_NO_CASTING ->
      r = Ok (returned, Some result_tuple)).
Proof.
  intros meth nargs cast r Hlen Hgiven Hres Hret Hread Hclasses Hdecl Hname.
  destruct (any_parametric_scan (dtypes self) (Z.to_nat nargs) 0)
    as (is_parametric & Hpar & Hnone).
  { intros j Hj. apply Hclasses. lia. }
  assert (Hnone' : is_parametric = false
                   <-> no_parametric_class (dtypes self) nargs).
  { rewrite Hnone. unfold no_parametric_class.
    split; intros H j c Hj; apply H; lia. }
  destruct (check_casting_Ok meth returned is_parametric Hdecl Hname)
    as [Hiff Hok].
  fold cast in Hiff. rewrite Hnone' in Hiff.
  assert (Hr : r = (_ <- check_casting meth returned is_parametric ;;
                    Ok (returned, Some result_tuple))).
  { subst r. unfold boundarraymethod__resolve_descripors.
    fold meth. fold nargs. rewrite Hlen, Z.eqb_refl. simpl.
    rewrite Hgiven. simpl. rewrite Hres. simpl.
    destruct (Z.ltb_spec returned 0); [lia|].
    rewrite Hread. simpl. rewrite Hpar. reflexivity. }
  assert (Hfault : consistency_fault r <->
                   consistency_fault (check_casting meth returned is_parametric)).
  { rewrite Hr. unfold consistency_fault.
    destruct (check_casting meth returned is_parametric); simpl.
    - split; intros [msg H]; discriminate H.
    - split; intros [msg' [= -> ->]]; eauto.
    - split; intros [msg H]; discriminate H. }
  repeat split.
  - intros H. apply Hiff, Hfault, H.
  - intros H. apply Hfault, Hiff, H.
  - intros H. rewrite Hr, Hok; [reflexivity|]. now rewrite <- Hfault.
  - intros He Hc. rewrite Hr, Hok; [reflexivity|].
    rewrite Hiff, Hc, He. intros [H|(_ & _ & H)]; now apply H.
Qed.

Lemma resolve_only_consistency_check_witness :
  ~ consistency_fault
      (boundarraymethod__resolve_descripors swapped_copy same_class_only
         no_extern_resolver bound_cast
         (PyTupleExact [PyDescrObject Int64_descr; PyDescrObject Float32_descr]))
  /\ consistency_fault
       (boundarraymethod__resolve_descripors swapped_copy same_class_only
          overreaching_resolver bound_overreaching
          (PyTupleExact [PyDescrObject Int64_descr; PyDescrObject Float32_descr]))
  /\ consistency_fault
       (boundarraymethod__resolve_descripors swapped_copy same_class_only
          cautious_resolver bound_cautious
          (PyTupleExact [PyDescrObject Int64_descr; PyDescrObject Float32_descr]))
  /\ ~ consistency_fault
         (boundarraymethod__resolve_descripors swapped_copy same_class_only
            cautious_resolver bound_parametric
            (PyTupleExact [PyDescrObject Int64_descr;
                           PyDescrObject String_descr])).
Proof.
  assert (Hall : forall self (c0 c1 : PyArray_DTypeMeta),
             dtypes self = [Some c0; Some c1] ->
             classes_readable (dtypes self) 2).
  { intros self c0 c1 -> j Hj. left.
    assert (Hcases : j = 0 \/ j = 1) by lia.
    destruct Hcases as [-> | ->]; eauto. }
  split; [|split; [|split]].
  - intros H.
    apply (resolve_only_consistency_check swapped_copy same_class_only
             no_extern_resolver bound_cast
             [PyDescrObject Int64_descr; PyDescrObject Float32_descr]
             [Some Int64_descr; Some Float32_descr]
             [Some Int64_descr; Some Float32_descr]
             [Some Int64_descr; Some Float32_descr]
             NPY_SAFE_CASTING) in H;
      try reflexivity; try discriminate;
      try exact (Hall bound_cast _ _ eq_refl).
    destruct H as [H|(_ & H & _)]; now apply H.
  - apply (resolve_only_consistency_check swapped_copy same_class_only
             overreaching_resolver bound_overreaching
             [PyDescrObject Int64_descr; PyDescrObject Float32_descr]
             [Some Int64_descr; Some Float32_descr]
             [Some Int64_descr; Some Float32_descr]
             [Some Int64_descr; Some Float32_descr]
             NPY_UNSAFE_CASTING);
      try reflexivity; try discriminate;
      try exact (Hall bound_overreaching _ _ eq_refl).
    left. discriminate.
  - apply (resolve_only_consistency_check swapped_copy same_class_only
             cautious_resolver bound_cautious
             [PyDescrObject Int64_descr; PyDescrObject Float32_descr]
             [Some Int64_descr; Some Float32_descr]
             [Some Int64_descr; Some Float32_descr]
             [Some Int64_descr; Some Float32_descr]
             NPY_NO_CASTING);
      try reflexivity; try discriminate;
      try exact (Hall bound_cautious _ _ eq_refl).
    right. split; [|split; discriminate].
    intros j c Hj Hc.
    assert (Hcases : j = 0 \/ j = 1) by (simpl in Hj; lia).
    destruct Hcases as [-> | ->]; injection Hc as <-; reflexivity.
  - intros H.
    apply (resolve_only_consistency_check swapped_copy same_class_only
             cautious_resolver bound_parametric
             [PyDescrObject Int64_descr; PyDescrObject String_descr]
             [Some Int64_descr; Some String_descr]
             [Some Int64_descr; Some String_descr]
             [Some Int64_descr; Some String_descr]
             NPY_NO_CASTING) in H;
      try reflexivity; try discriminate;
      try exact (Hall bound_parametric _ _ eq_refl).
    destruct H as [H|(H & _)]; [now apply H|].
    discriminate (H 1 StringDType ltac:(simpl; lia) eq_refl).
Defined.

(** ** The masked loop adapter *)

Lemma read_array_take {A : Type} (a : list A) (count : nat) (i : Z) :
  0 <= i -> (Z.to_nat i + count <= length a)%nat ->
  read_array a i count = Ok (take count (drop (Z.to_nat i) a)).
Proof.
  revert i. induction count as [|count IH]; intros i Hi Hlen; simpl.
  - reflexivity.
  - destruct (lookup_lt_is_Some_2 a (Z.to_nat i)) as [x Hx]; [lia|].
    rewrite (load_Ok _ _ _ Hi Hx). simpl. rewrite IH by lia. simpl.
    rewrite (drop_S _ _ _ Hx).
    replace (Z.to_nat (i + 1)) with (S (Z.to_nat i)) by lia. reflexivity.
Qed.

Lemma store_Ok {A : Type} (a : list A) (i : Z) (x : A) :
  0 <= i -> (Z.to_nat i < length a)%nat ->
  store a i x = Ok (<[Z.to_nat i := x]> a).
Proof.
  intros Hi Hlen. unfold store.
  destruct (Z.leb_spec 0 i); [|lia].
  destruct (Z.ltb_spec i (Z.of_nat (length a))); [reflexivity|lia].
Qed.

(** [advance] adds [subloopsize * strides[j]] to the cells it runs over and
    leaves the others. *)
Lemma advance_lookup (strides : list Z) (subloopsize : Z) (count : nat) :
  forall (i : Z) (dataptrs : list Z),
    0 <= i ->
    (Z.to_nat i + count <= length dataptrs)%nat ->
    (Z.to_nat i + count <= length strides)%nat ->
    exists r,
      advance dataptrs strides subloopsize i count = Ok r
      /\ length r = length dataptrs
      /\ forall j p s,
          dataptrs !! j = Some p -> strides !! j = Some s ->
          r !! j = Some (if decide (Z.to_nat i <= j < Z.to_nat i + count)%nat
                         then p + subloopsize * s else p).
Proof.
  induction count as [|count IH]; intros i dataptrs Hi Hd Hs; simpl.
  - exists dataptrs. repeat split; auto. intros j p s Hp _.
    destruct (decide _); [lia | exact Hp].
  - destruct (lookup_lt_is_Some_2 dataptrs (Z.to_nat i)) as [p Hp]; [lia|].
    destruct (lookup_lt_is_Some_2 strides (Z.to_nat i)) as [s Hst]; [lia|].
    rewrite (load_Ok _ _ _ Hi Hp), (load_Ok _ _ _ Hi Hst). simpl.
    rewrite store_Ok by (auto; lia). simpl.
    destruct (IH (i + 1) (<[Z.to_nat i := p + subloopsize * s]> dataptrs))
      as (r & Hr & Hlen & Hlook);
      [lia | rewrite length_insert; lia | lia |].
    exists r. split; [exact Hr|]. split; [now rewrite Hlen, length_insert|].
    intros j q t Hq Ht.
    destruct (decide (j = Z.to_nat i)) as [->|Hne].
    + rewrite (Hlook (Z.to_nat i) (p + subloopsize * s) t).
      * rewrite Hp in Hq. rewrite Hst in Ht. injection Hq as <-.
        injection Ht as <-.
        destruct (decide _); [lia|]. destruct (decide _); [reflexivity|lia].
      * apply list_lookup_insert_eq. lia.
      * exact Ht.
    + rewrite (Hlook j q t).
      * repeat destruct (decide _); try reflexivity; lia.
      * rewrite list_lookup_insert_ne by auto. exact Hq.
      * exact Ht.
Qed.

Section MaskedCount.

Variable mem : Z -> Z.
Variables data strides : list Z.
Variable n : nat.
Variables mask0 mask_stride : Z.
Hypothesis data_length : (n <= length data)%nat.
Hypothesis strides_length : (n <= length strides)%nat.

Lemma length_pointers_at (k : Z) : length (pointers_at data strides n k) = n.
Proof.
  unfold pointers_at. rewrite length_zip_with, !length_take. lia.
Qed.

Lemma lookup_pointers_at (k : Z) (j : nat) (d s : Z) :
  (j < n)%nat -> data !! j = Some d -> strides !! j = Some s ->
  pointers_at data strides n k !! j = Some (d + k * s).
Proof.
  intros Hj Hd Hs. unfold pointers_at.
  rewrite lookup_zip_with, !lookup_take_lt, Hd, Hs by lia. reflexivity.
Qed.

Lemma pointers_at_0 : pointers_at data strides n 0 = take n data.
Proof.
  apply list_eq. intros j.
  destruct (decide (j < n)%nat) as [Hj|Hj].
  - destruct (lookup_lt_is_Some_2 data j) as [d Hd]; [lia|].
    destruct (lookup_lt_is_Some_2 strides j) as [s Hs]; [lia|].
    rewrite (lookup_pointers_at 0 j d s), lookup_take_lt, Hd by auto.
    f_equal. lia.
  - rewrite lookup_take_ge by lia. apply lookup_ge_None_2.
    rewrite length_pointers_at. lia.
Qed.

Lemma advance_pointers_at (k subloopsize : Z) :
  advance (pointers_at data strides n k) strides subloopsize 0 n
  = Ok (pointers_at data strides n (k + subloopsize)).
Proof.
  destruct (advance_lookup strides subloopsize n 0
              (pointers_at data strides n k))
    as (r & -> & Hlen & Hlook);
    [lia | rewrite length_pointers_at; simpl; lia | simpl; lia |].
  f_equal. apply list_eq. intros j.
  rewrite length_pointers_at in Hlen.
  destruct (decide (j < n)%nat) as [Hj|Hj].
  - destruct (lookup_lt_is_Some_2 data j) as [d Hd]; [lia|].
    destruct (lookup_lt_is_Some_2 strides j) as [s Hs]; [lia|].
    rewrite (Hlook j (d + k * s) s), (lookup_pointers_at _ j d s); auto.
    + destruct (decide _); [f_equal; lia | simpl in *; lia].
    + now apply lookup_pointers_at.
  - rewrite !lookup_ge_None_2; auto; rewrite ?length_pointers_at; lia.
Qed.

(** What a scan of [npy_memchr] over a memory with bytes [mem] finds: the
    length [j] of the run of bytes that are zero ([invert] set) or nonzero
    ([invert] clear) at the start of the [count] bytes from [p] on. *)
Lemma npy_memchr_scan_run (visited : list (list Z * Z)) (invert : Z)
    (count : nat) :
  forall (k subloopsize : Z),
    exists j : nat,
      (j <= count)%nat
      /\ npy_memchr_scan counting_world bytes_at
           {| bytes_at := mem; visits := visited |}
           (mask0 + k * mask_stride) 0 mask_stride invert count subloopsize
         = (mask0 + (k + Z.of_nat j) * mask_stride, subloopsize + Z.of_nat j)
      /\ (forall i, k <= i < k + Z.of_nat j ->
            unmasked mem mask0 mask_stride i = (invert =? 0))
      /\ ((j < count)%nat ->
          unmasked mem mask0 mask_stride (k + Z.of_nat j)
          = negb (invert =? 0)).
Proof.
  induction count as [|count IH]; intros k subloopsize; simpl.
  - exists 0%nat. repeat split; try lia. f_equal; lia.
  - destruct (if invert =? 0
              then negb (mem (mask0 + k * mask_stride) =? 0)
              else mem (mask0 + k * mask_stride) =? 0) eqn:Htest.
    + destruct (IH (k + 1) (subloopsize + 1)) as (j & Hj & Hscan & Hrun & Hend).
      exists (S j). split; [lia|]. split; [|split].
      * replace (mask0 + k * mask_stride + mask_stride)
          with (mask0 + (k + 1) * mask_stride) by lia.
        rewrite Hscan. f_equal; lia.
      * intros i Hi. destruct (Z.eq_dec i k) as [->|Hne].
        -- unfold unmasked. destruct (invert =? 0); [exact Htest|].
           now rewrite Htest.
        -- apply Hrun. lia.
      * intros Hlt. replace (k + Z.of_nat (S j)) with (k + 1 + Z.of_nat j)
          by lia.
        apply Hend. lia.
    + exists 0%nat. split; [lia|]. split; [|split].
      * f_equal; lia.
      * intros i Hi. lia.
      * intros _. replace (k + Z.of_nat 0) with k by lia.
        unfold unmasked. destruct (invert =? 0); simpl.
        -- exact Htest.
        -- now rewrite Htest.
Qed.

Lemma filter_unmasked_none (k len : Z) :
  (forall i, k <= i < k + len -> unmasked mem mask0 mask_stride i = false) ->
  List.filter (unmasked mem mask0 mask_stride) (seqZ k len) = [].
Proof.
  intros H. rewrite <- (List.filter_false (seqZ k len)).
  apply List.filter_ext_in.
  intros i Hi. apply list_elem_of_In, elem_of_seqZ in Hi. auto.
Qed.

Lemma filter_unmasked_all (k len : Z) :
  (forall i, k <= i < k + len -> unmasked mem mask0 mask_stride i = true) ->
  List.filter (unmasked mem mask0 mask_stride) (seqZ k len) = seqZ k len.
Proof.
  intros H. apply forallb_filter_id, forallb_forall.
  intros i Hi. apply list_elem_of_In, elem_of_seqZ in Hi. auto.
Qed.

Lemma seqZ_split (k rem : Z) (s r : nat) :
  (s + r <= Z.to_nat rem)%nat ->
  seqZ k rem
  = seqZ k (Z.of_nat s) ++ seqZ (k + Z.of_nat s) (Z.of_nat r)
    ++ seqZ (k + Z.of_nat s + Z.of_nat r) (rem - Z.of_nat s - Z.of_nat r).
Proof.
  intros H. destruct (Z.le_gt_cases rem 0) as [Hrem|Hrem].
  - rewrite !seqZ_nil by lia. reflexivity.
  - rewrite <- !seqZ_app by lia. f_equal. lia.
Qed.

Variable context : PyArrayMethod_Context.
Variable auxdata : _masked_stridedloop_data.
Variable addr : Z.
Hypothesis auxdata_nargs : nargs auxdata = Z.of_nat n.
Hypothesis auxdata_loop : unmasked_stridedloop auxdata = Some (extern_fn addr).


(** One pass through the body: [s] masked elements are skipped, then the
    inner loop is called once on the [r] unmasked elements that follow. *)
Lemma masked_body_step (k rem : Z) (visited : list (list Z * Z)) :
  exists s r : nat,
    (s + r <= Z.to_nat rem)%nat
    /\ (0 < rem -> (1 <= s + r)%nat)
    /\ masked_body counting_world bytes_at counting_loop context auxdata
         strides mask_stride (state_at mem data strides n mask0 mask_stride k rem visited)
       = Ok (Again counting_world
               (state_at mem data strides n mask0 mask_stride (k + Z.of_nat s + Z.of_nat r)
                  (rem - Z.of_nat s - Z.of_nat r)
                  (visited ++ [visit_of_run data strides n
                                 (k + Z.of_nat s, Z.of_nat r)])))
    /\ (forall i, k <= i < k + Z.of_nat s ->
          unmasked mem mask0 mask_stride i = false)
    /\ (forall i, k + Z.of_nat s <= i < k + Z.of_nat s + Z.of_nat r ->
          unmasked mem mask0 mask_stride i = true).
Proof.
  destruct (npy_memchr_scan_run visited 1 (Z.to_nat rem) k 0)
    as (s & Hs & Hscan1 & Hskip & Hend1).
  destruct (npy_memchr_scan_run visited 0 (Z.to_nat (rem - Z.of_nat s))
              (k + Z.of_nat s) 0)
    as (r & Hr & Hscan2 & Hrun & Hend2).
  rewrite Z.add_0_l in Hscan1, Hscan2.
  exists s, r. split; [lia|]. split; [|split; [|split]].
  - intros Hrem. destruct s as [|s]; [|lia]. destruct r as [|r]; [|lia].
    exfalso.
    assert (H1 : unmasked mem mask0 mask_stride (k + Z.of_nat 0) = true)
      by (apply Hend1; lia).
    assert (H2 : unmasked mem mask0 mask_stride (k + Z.of_nat 0 + Z.of_nat 0)
                 = false)
      by (apply Hend2; lia).
    replace (k + Z.of_nat 0 + Z.of_nat 0) with (k + Z.of_nat 0) in H2 by lia.
    congruence.
  - unfold masked_body, npy_memchr, state_at. simpl.
    rewrite Hscan1. rewrite auxdata_nargs, Nat2Z.id.
    rewrite advance_pointers_at. simpl.
    rewrite Hscan2. rewrite auxdata_loop. simpl.
    rewrite advance_pointers_at. simpl.
    unfold visit_of_run. simpl. repeat f_equal; lia.
  - intros i Hi. now apply Hskip.
  - intros i Hi. now apply Hrun.
Qed.

(** The [do] loop from element [k] on calls the inner loop on runs whose
    elements, put end to end, are the unmasked elements from [k] on. *)
Lemma masked_do_while_runs (fuel : nat) :
  forall (k rem : Z) (visited : list (list Z * Z)),
    (Z.to_nat rem < fuel)%nat ->
    exists runs : list (Z * Z),
      masked_do_while counting_world bytes_at counting_loop fuel context
        auxdata strides mask_stride (state_at mem data strides n mask0 mask_stride k rem visited)
      = Some (Ok (0, {| bytes_at := mem;
                        visits := visited
                                  ++ map (visit_of_run data strides n) runs |}))
      /\ concat (map elements_of_run runs)
         = List.filter (unmasked mem mask0 mask_stride) (seqZ k rem)
      /\ Forall (fun run => 0 <= snd run) runs.
Proof.
  induction fuel as [|fuel IH]; intros k rem visited Hfuel; [lia|].
  destruct (masked_body_step k rem visited)
    as (s & r & Hle & Hprogress & Hbody & Hskip & Hrun).
  simpl. rewrite Hbody.
  assert (Hfilter :
    List.filter (unmasked mem mask0 mask_stride) (seqZ k rem)
    = seqZ (k + Z.of_nat s) (Z.of_nat r)
      ++ List.filter (unmasked mem mask0 mask_stride)
           (seqZ (k + Z.of_nat s + Z.of_nat r)
              (rem - Z.of_nat s - Z.of_nat r))).
  { rewrite (seqZ_split k rem s r Hle), !List.filter_app.
    rewrite filter_unmasked_none by exact Hskip.
    rewrite filter_unmasked_all by exact Hrun. reflexivity. }
  unfold state_at at 1. simpl.
  destruct (Z.gtb_spec (rem - Z.of_nat s - Z.of_nat r) 0) as [Hmore|Hdone].
  - destruct (IH (k + Z.of_nat s + Z.of_nat r)
                (rem - Z.of_nat s - Z.of_nat r)
                (visited ++ [visit_of_run data strides n
                               (k + Z.of_nat s, Z.of_nat r)]))
      as (runs & Hloop & Hruns & Hpos); [lia|].
    exists ((k + Z.of_nat s, Z.of_nat r) :: runs).
    fold (state_at mem data strides n mask0 mask_stride (k + Z.of_nat s + Z.of_nat r)
            (rem - Z.of_nat s - Z.of_nat r)
            (visited ++ [visit_of_run data strides n
                           (k + Z.of_nat s, Z.of_nat r)])).
    rewrite Hloop. split; [|split].
    + simpl. now rewrite <- app_assoc.
    + simpl. rewrite Hruns, Hfilter. reflexivity.
    + constructor; [simpl; lia | exact Hpos].
  - exists [(k + Z.of_nat s, Z.of_nat r)]. split; [|split].
    + reflexivity.
    + simpl. rewrite Hfilter, (seqZ_nil _ _ Hdone). reflexivity.
    + repeat constructor. simpl. lia.
Qed.

End MaskedCount.

Lemma counted_runs (data strides : list Z) (n : nat) (runs : list (Z * Z)) :
  Forall (fun run => 0 <= snd run) runs ->
  fold_right Z.add 0 (map snd (map (visit_of_run data strides n) runs))
  = Z.of_nat (length (concat (map elements_of_run runs))).
Proof.
  induction 1 as [|run runs Hrun _ IH]; simpl; [reflexivity|].
  rewrite IH, length_app, Nat2Z.inj_add.
  change (elements_of_run run) with (seqZ (fst run) (snd run)).
  rewrite length_seqZ. lia.
Qed.

(** C5: the masked loop around an inner loop that only counts.  For every
    mask and every length [N] it returns 0; the calls of the inner loop are
    calls on runs of elements, each at the data pointers of its first
    element, and these runs put end to end are exactly the elements whose
    mask entry is true, in increasing order; so the number of elements
    counted is the number of true mask entries.  On the five-element mask
    true, true, false, false, true the inner loop is called on 2 elements
    from element 0 and then on 1 element from element 4, and no other
    time. *)
Theorem masked_loop_counts_unmasked :
  (forall (context : PyArrayMethod_Context) (mem : Z -> Z)
          (data dimensions strides : list Z)
          (auxdata : _masked_stridedloop_data) (n : nat)
          (addr mask0 mask_stride N : Z),
      nargs auxdata = Z.of_nat n ->
      unmasked_stridedloop auxdata = Some (extern_fn addr) ->
      data !! n = Some mask0 ->
      strides !! n = Some mask_stride ->
      dimensions !! 0%nat = Some N ->
      exists (w' : counting_world) (runs : list (Z * Z)),
        masked_count context mem data dimensions strides auxdata
        = Some (Ok (0, w'))
        /\ bytes_at w' = mem
        /\ visits w' = map (visit_of_run data strides n) runs
        /\ concat (map elements_of_run runs)
           = unmasked_indices mem mask0 mask_stride N
        /\ counted w'
           = Z.of_nat (length (unmasked_indices mem mask0 mask_stride N)))
  /\ masked_count cast_context five_mask [0; 1000] [5] [8; 1] one_argument
     = Some (Ok (0, {| bytes_at := five_mask;
                       visits := [([0], 2); ([32], 1)] |}))
  /\ unmasked_indices five_mask 1000 1 5 = [0; 1; 4].
Proof.
  split; [|split; reflexivity].
  intros context mem data dimensions strides auxdata n addr mask0 mask_stride N
    Hnargs Hloop Hmask Hstride HN.
  pose proof (lookup_lt_Some _ _ _ Hmask) as Hdata.
  pose proof (lookup_lt_Some _ _ _ Hstride) as Hstrides.
  destruct (masked_do_while_runs mem data strides n mask0 mask_stride
              ltac:(lia) ltac:(lia) context auxdata addr Hnargs Hloop
              (S (Z.to_nat N)) 0 N [] ltac:(lia))
    as (runs & Hrun & Hruns & Hpos).
  rewrite app_nil_l in Hrun.
  exists {| bytes_at := mem;
            visits := map (visit_of_run data strides n) runs |}, runs.
  split; [|split; [|split; [|split]]]; try reflexivity.
  - unfold masked_count, generic_masked_strided_loop.
    rewrite Hnargs, Nat2Z.id.
    rewrite read_array_take by (simpl; lia). simpl.
    rewrite (load_Ok data (Z.of_nat n) mask0) by (rewrite ?Nat2Z.id; auto; lia).
    rewrite (load_Ok strides (Z.of_nat n) mask_stride)
      by (rewrite ?Nat2Z.id; auto; lia).
    rewrite (load_Ok dimensions 0 N) by (auto; lia).
    simpl. rewrite <- Hrun. unfold state_at.
    rewrite pointers_at_0 by lia.
    replace (mask0 + 0 * mask_stride) with mask0 by lia. reflexivity.
  - exact Hruns.
  - unfold counted. simpl. rewrite counted_runs by exact Hpos.
    now rewrite Hruns.
Qed.

Lemma masked_loop_counts_unmasked_witness :
  exists (w' : counting_world) (runs : list (Z * Z)),
    masked_count cast_context five_mask [0; 1000] [5] [8; 1] one_argument
    = Some (Ok (0, w'))
    /\ bytes_at w' = five_mask
    /\ visits w' = map (visit_of_run [0; 1000] [8; 1] 1) runs
    /\ concat (map elements_of_run runs) = unmasked_indices five_mask 1000 1 5
    /\ counted w' = Z.of_nat (length (unmasked_indices five_mask 1000 1 5)).
Proof.
  apply (proj1 masked_loop_counts_unmasked cast_context five_mask [0; 1000]
           [5] [8; 1] one_argument 1%nat 1 1000 1 5); reflexivity.
Defined.

(** * Further properties of the code *)

(** ** Validation *)

Lemma validate_dtypes_accepts (spec : PyArrayMethod_Spec) (count : nat) (i : Z) :
  (forall j, i <= j < i + Z.of_nat count ->
     exists dtype,
       load (spec_dtypes spec) j = Ok (Some dtype)
       /\ is_DTypeMeta dtype = true
       /\ (j < spec_nin spec -> abstract dtype = false)) ->
  validate_dtypes spec i count = Ok 0.
Proof.
  revert i. induction count as [|count IH]; intros i H; simpl; [reflexivity|].
  destruct (H i ltac:(lia)) as (dtype & -> & Hd & Ha). simpl.
  rewrite Hd. simpl.
  destruct (Z.ltb_spec i (spec_nin spec)) as [Hlt|Hge].
  - rewrite (Ha Hlt). simpl. apply IH. intros j Hj. apply H. lia.
  - rewrite andb_false_r. apply IH. intros j Hj. apply H. lia.
Qed.

Lemma PyErr_Format_name_Ok {A : Type} (spec : PyArrayMethod_Spec)
    (exc : PyExc) (msg : string) (a : A) :
  PyErr_Format_name spec exc msg <> Ok a.
Proof. unfold PyErr_Format_name. destruct (is_null _); discriminate. Qed.

Lemma PyErr_Format_name_Raise {A : Type} (spec : PyArrayMethod_Spec)
    (exc exc' : PyExc) (msg msg' : string) :
  @PyErr_Format_name A spec exc msg = Raise exc' msg' -> exc' = exc.
Proof.
  unfold PyErr_Format_name. destruct (is_null _); [discriminate|].
  now intros [= -> _].
Qed.

Lemma validate_dtypes_result (spec : PyArrayMethod_Spec) (count : nat)
    (i v : Z) :
  validate_dtypes spec i count = Ok v -> v = 0.
Proof.
  revert i. induction count as [|count IH]; intros i; simpl.
  - congruence.
  - intros H. apply bind_Ok_inv in H as (p & _ & H).
    destruct (is_null p && (i <? spec_nin spec));
      [now destruct (PyErr_Format_name_Ok _ _ _ _ H)|].
    apply bind_Ok_inv in H as (c & _ & H).
    destruct (negb (is_DTypeMeta c));
      [now destruct (PyErr_Format_name_Ok _ _ _ _ H)|].
    apply bind_Ok_inv in H as (d & _ & H).
    destruct (abstract d && (i <? spec_nin spec)); [discriminate|].
    exact (IH _ H).
Qed.

Lemma validate_spec_result (spec : PyArrayMethod_Spec) (v : Z) :
  validate_spec spec = Ok v -> v = 0.
Proof.
  intros H. apply validate_spec_Ok_inv in H as (nargs & _ & _ & _ & _ & _ & H).
  exact (validate_dtypes_result _ _ _ _ H).
Qed.

Lemma casting_test (spec : PyArrayMethod_Spec) :
  negb (is_casting_level
          (Z.land (spec_casting spec) (Z.lnot _NPY_CAST_IS_VIEW)))
  && negb (spec_casting spec =? -1) = false
  <-> casting_ok spec.
Proof.
  unfold casting_ok. rewrite andb_false_iff, !negb_false_iff, Z.eqb_eq.
  tauto.
Qed.

(** A specification that passed validation and whose arities did not wrap
    around. *)
Lemma validate_spec_Ok_arity (spec : PyArrayMethod_Spec) (v : Z) :
  validate_spec spec = Ok v /\ spec_nin spec + spec_nout spec <= INT_MAX ->
  arity_ok spec /\ casting_ok spec.
Proof.
  intros [H Hsum].
  apply validate_spec_Ok_inv in H
    as (nargs & Hadd & Hin & Hout & Hmax & Hcast & _).
  rewrite (int_add_small _ _ Hin Hout Hsum) in Hadd. injection Hadd as <-.
  unfold arity_ok, casting_ok. auto.
Qed.

(** The sum of two arities that are ints and not negative, as the machine
    computes it. *)
Lemma int_add_arities (a b : Z) :
  is_int a = true -> is_int b = true -> 0 <= a -> 0 <= b ->
  (a + b <= INT_MAX /\ int_add a b = Ok (a + b))
  \/ (INT_MAX < a + b /\ int_add a b = Ok (a + b - 2 ^ 32)
      /\ a + b - 2 ^ 32 < 0).
Proof.
  intros Ha Hb Ha0 Hb0.
  destruct (Z.le_gt_cases (a + b) INT_MAX) as [Hle|Hgt].
  - left. split; [exact Hle|]. now apply int_add_small.
  - right. split; [lia|].
    apply is_int_true in Ha, Hb.
    destruct (int_add a b) as [n| |] eqn:Hadd.
    + apply int_add_Ok in Hadd. unfold INT_MIN, INT_MAX in *.
      change (2 ^ 32) with 4294967296 in *.
      change (2 ^ 31) with 2147483648 in *.
      split; [f_equal; lia | lia].
    + unfold int_add in Hadd.
      destruct (is_int a && is_int b); discriminate Hadd.
    + unfold int_add in Hadd.
      rewrite (proj2 (is_int_true a) Ha), (proj2 (is_int_true b) Hb) in Hadd.
      discriminate Hadd.
Qed.

(** X1: [validate_spec] returns 0 exactly for the specifications whose
    arities are not negative, whose casting is one of the five levels (view
    flag or not) or -1, and whose arities either add up to at most the
    maximum, with every class slot holding a genuine class, not abstract
    for the inputs, or add up to more than [INT_MAX].  The sum is an [int]:
    above [INT_MAX] it wraps around to a negative number, which passes the
    test against the maximum and leaves no class to check.  There is no
    other successful return. *)
Theorem validate_spec_accepts_iff (spec : PyArrayMethod_Spec) :
  is_int (spec_nin spec) = true ->
  is_int (spec_nout spec) = true ->
  (validate_spec spec = Ok 0
   <-> 0 <= spec_nin spec /\ 0 <= spec_nout spec /\ casting_ok spec
       /\ ((spec_nin spec + spec_nout spec <= NPY_MAXARGS /\ classes_ok spec)
           \/ INT_MAX < spec_nin spec + spec_nout spec))
  /\ (forall v, validate_spec spec = Ok v -> v = 0).
Proof.
  intros Hnin Hnout. split; [split|].
  - intros H.
    destruct (validate_spec_Ok_inv spec 0 H)
      as (nargs & Hadd & Hin & Hout & Hmax & Hcast & Hdtypes).
    split; [exact Hin|]. split; [exact Hout|]. split; [exact Hcast|].
    destruct (int_add_arities _ _ Hnin Hnout Hin Hout)
      as [(Hle & Hsum) | (Hgt & _)]; [left | right; exact Hgt].
    rewrite Hsum in Hadd. injection Hadd as <-. split; [exact Hmax|].
    intros j Hj. apply (validate_dtypes_Ok spec _ 0 0 Hdtypes). lia.
  - intros (Hin & Hout & Hcast & Hsum). unfold validate_spec.
    apply casting_test in Hcast.
    destruct (Z.ltb_spec (spec_nin spec) 0); [lia|].
    destruct (Z.ltb_spec (spec_nout spec) 0); [lia|].
    destruct (int_add_arities _ _ Hnin Hnout Hin Hout)
      as [(Hle & ->) | (Hgt & -> & Hneg)]; cbn [bind orb].
    + destruct Hsum as [(Hmax & Hclasses) | Hover]; [|lia].
      rewrite Z.gtb_ltb.
      destruct (Z.ltb_spec NPY_MAXARGS (spec_nin spec + spec_nout spec));
        [lia|].
      rewrite Hcast. apply validate_dtypes_accepts.
      intros j Hj. apply Hclasses. lia.
    + rewrite Z.gtb_ltb.
      destruct (Z.ltb_spec NPY_MAXARGS
                  (spec_nin spec + spec_nout spec - 2 ^ 32));
        [unfold NPY_MAXARGS in *; lia|].
      rewrite Hcast.
      replace (Z.to_nat (spec_nin spec + spec_nout spec - 2 ^ 32))
        with 0%nat by lia.
      reflexivity.
  - intros v. apply validate_spec_result.
Qed.

Lemma validate_spec_accepts_iff_witness :
  validate_spec cast_spec = Ok 0 /\ validate_spec overflowing_spec = Ok 0.
Proof.
  split.
  - apply (proj2 (proj1 (validate_spec_accepts_iff cast_spec eq_refl
                           eq_refl))).
    split; [simpl; lia|]. split; [simpl; lia|].
    split; [left; reflexivity|]. left. split; [simpl; unfold NPY_MAXARGS; lia|].
    intros j Hj. simpl in Hj.
    assert (Hcases : j = 0 \/ j = 1) by lia.
    destruct Hcases as [-> | ->].
    + exists Int64DType. repeat split; reflexivity.
    + exists Float32DType. repeat split; try reflexivity; simpl; lia.
  - apply (proj2 (proj1 (validate_spec_accepts_iff overflowing_spec eq_refl
                           eq_refl))).
    split; [discriminate|]. split; [discriminate|].
    split; [left; reflexivity|]. right. reflexivity.
Defined.

Lemma load_never_raises {A : Type} (a : list A) (i : Z) (exc : PyExc)
    (msg : string) :
  load a i <> Raise exc msg.
Proof.
  unfold load. destruct (i <? 0); [discriminate|].
  destruct (a !! Z.to_nat i); discriminate.
Qed.

Lemma deref_never_raises {A : Type} (p : option A) (exc : PyExc)
    (msg : string) :
  deref p <> Raise exc msg.
Proof. destruct p; discriminate. Qed.

Lemma validate_dtypes_raises (spec : PyArrayMethod_Spec) (count : nat) (i : Z)
    (exc : PyExc) (msg : string) :
  validate_dtypes spec i count = Raise exc msg -> exc = PyExc_TypeError.
Proof.
  revert i. induction count as [|count IH]; intros i; simpl; [discriminate|].
  destruct (load (spec_dtypes spec) i) as [p| |] eqn:Hl; simpl;
    try discriminate; [|now destruct (load_never_raises _ _ _ _ Hl)].
  destruct (is_null p && (i <? spec_nin spec));
    [apply PyErr_Format_name_Raise|].
  destruct (deref p) as [d| |] eqn:Hd; simpl;
    try discriminate; [|now destruct (deref_never_raises _ _ _ Hd)].
  destruct (negb (is_DTypeMeta d)); [apply PyErr_Format_name_Raise|].
  destruct (abstract d && (i <? spec_nin spec)); [discriminate|].
  apply IH.
Qed.

(** X2: [validate_spec] checks the arities before it touches anything
    else.  On a specification with a name it raises [ValueError] exactly
    when an arity is negative or the sum of the arities exceeds the maximum
    without exceeding [INT_MAX], whatever the class array holds, and every
    other error it raises is a [TypeError]. *)
Theorem validate_spec_errors (spec : PyArrayMethod_Spec) :
  is_int (spec_nin spec) = true ->
  is_int (spec_nout spec) = true ->
  spec_name spec <> None ->
  ((spec_nin spec < 0 \/ spec_nout spec < 0
    \/ NPY_MAXARGS < spec_nin spec + spec_nout spec <= INT_MAX)
   <-> exists msg, validate_spec spec = Raise PyExc_ValueError msg)
  /\ (forall exc msg,
         validate_spec spec = Raise exc msg ->
         exc = PyExc_ValueError \/ exc = PyExc_TypeError).
Proof.
  intros Hnin Hnout Hname. unfold validate_spec, PyErr_Format_name.
  destruct (spec_name spec) as [n|]; [|contradiction]. cbn [is_null].
  assert (Hadd : exists nargs,
             int_add (spec_nin spec) (spec_nout spec) = Ok nargs
             /\ (0 <= spec_nin spec -> 0 <= spec_nout spec ->
                 (NPY_MAXARGS < nargs
                  <-> NPY_MAXARGS < spec_nin spec + spec_nout spec
                      <= INT_MAX))).
  { destruct (int_add (spec_nin spec) (spec_nout spec)) as [nargs| |] eqn:E.
    - exists nargs. split; [reflexivity|]. intros Hin Hout.
      destruct (int_add_arities _ _ Hnin Hnout Hin Hout)
        as [(Hle & Hsum) | (Hgt & Hsum & Hneg)];
        rewrite Hsum in E; injection E as <-; unfold NPY_MAXARGS in *; lia.
    - unfold int_add in E. rewrite Hnin, Hnout in E. discriminate E.
    - unfold int_add in E. rewrite Hnin, Hnout in E. discriminate E. }
  destruct Hadd as (nargs & -> & Hwide). cbn [bind].
  destruct (Z.ltb_spec (spec_nin spec) 0) as [Hin|Hin]; cbn [orb].
  { split; [split; eauto | intros exc msg [= <- _]; auto]. }
  destruct (Z.ltb_spec (spec_nout spec) 0) as [Hout|Hout]; cbn [orb].
  { split; [split; eauto | intros exc msg [= <- _]; auto]. }
  rewrite Z.gtb_ltb.
  destruct (Z.ltb_spec NPY_MAXARGS nargs) as [Hmax|Hmax].
  { split; [split; eauto | intros exc msg [= <- _]; auto].
    intros _. right. right. now apply Hwide. }
  split.
  - split.
    + intros [H|[H|H]]; [lia | lia |]. apply Hwide in H; auto. lia.
    + intros [msg H].
      destruct (_ && _); [discriminate|].
      apply validate_dtypes_raises in H. discriminate.
  - intros exc msg H. right.
    destruct (_ && _); [congruence|].
    now apply validate_dtypes_raises in H.
Qed.

Lemma validate_spec_errors_witness :
  exists msg, validate_spec too_wide_spec = Raise PyExc_ValueError msg.
Proof.
  apply (proj1 (proj1 (validate_spec_errors too_wide_spec eq_refl eq_refl
                         ltac:(discriminate)))).
  right. right. simpl. unfold NPY_MAXARGS, INT_MAX. lia.
Defined.

(** ** The slots of a specification *)

(** Case analysis on the number of a slot; the six numbers differ. *)
Ltac slot_cases s :=
  destruct (Z.eqb_spec (slot s) NPY_METH_resolve_descriptors),
           (Z.eqb_spec (slot s) NPY_METH_get_loop),
           (Z.eqb_spec (slot s) NPY_METH_strided_loop),
           (Z.eqb_spec (slot s) NPY_METH_contiguous_loop),
           (Z.eqb_spec (slot s) NPY_METH_unaligned_strided_loop),
           (Z.eqb_spec (slot s) NPY_METH_unaligned_contiguous_loop);
  try (exfalso;
       unfold NPY_METH_resolve_descriptors, NPY_METH_get_loop,
         NPY_METH_strided_loop, NPY_METH_contiguous_loop,
         NPY_METH_unaligned_strided_loop,
         NPY_METH_unaligned_contiguous_loop in *;
       lia).

Lemma fill_slots_app_accepted (pre rest : list PyType_Slot) (private : Z) :
  Forall (fun s => slot s <> 0 /\ accepted_slot private s = true) pre ->
  forall meth,
    exists meth', fill_slots (pre ++ rest) private meth
                  = fill_slots rest private meth'.
Proof.
  induction 1 as [|s pre [Hnz Hacc] _ IH]; intros meth; simpl; [eauto|].
  destruct (Z.eqb_spec (slot s) 0) as [|_]; [contradiction|].
  unfold accepted_slot in Hacc. revert Hacc.
  slot_cases s; destruct (private =? 0); simpl; intros Hacc;
    try discriminate; apply IH.
Qed.

(** The name of a specification plays no part in a validation that
    succeeds. *)
Lemma validate_dtypes_names (spec spec' : PyArrayMethod_Spec) (count : nat) :
  spec_nin spec = spec_nin spec' ->
  spec_dtypes spec = spec_dtypes spec' ->
  forall i v,
    validate_dtypes spec i count = Ok v ->
    validate_dtypes spec' i count = Ok v.
Proof.
  intros Hnin Hdtypes.
  induction count as [|count IH]; intros i v; simpl; [auto|].
  rewrite <- Hnin, <- Hdtypes. intros H.
  destruct (load (spec_dtypes spec) i) as [p| |]; cbn [bind] in *;
    try discriminate H.
  destruct (is_null p && (i <? spec_nin spec));
    [now destruct (PyErr_Format_name_Ok _ _ _ _ H)|].
  destruct (deref p) as [c| |]; cbn [bind] in *; try discriminate H.
  destruct (negb (is_DTypeMeta c));
    [now destruct (PyErr_Format_name_Ok _ _ _ _ H)|].
  destruct (abstract c && (i <? spec_nin spec)); [discriminate H|].
  now apply IH.
Qed.

Lemma validate_spec_names (spec spec' : PyArrayMethod_Spec) (v : Z) :
  spec_nin spec = spec_nin spec' ->
  spec_nout spec = spec_nout spec' ->
  spec_casting spec = spec_casting spec' ->
  spec_dtypes spec = spec_dtypes spec' ->
  validate_spec spec = Ok v -> validate_spec spec' = Ok v.
Proof.
  intros Hnin Hnout Hcasting Hdtypes H.
  apply validate_spec_Ok_inv in H
    as (nargs & Hadd & Hin & Hout & Hmax & Hcast & Hclasses).
  unfold validate_spec. rewrite <- Hnin, <- Hnout, <- Hcasting, Hadd.
  cbn [bind].
  destruct (Z.ltb_spec (spec_nin spec) 0); [lia|].
  destruct (Z.ltb_spec (spec_nout spec) 0); [lia|].
  rewrite Z.gtb_ltb.
  destruct (Z.ltb_spec NPY_MAXARGS nargs); [lia|]. cbn [orb].
  replace (negb (is_casting_level
                   (Z.land (spec_casting spec) (Z.lnot _NPY_CAST_IS_VIEW)))
           && negb (spec_casting spec =? -1)) with false.
  - now apply (validate_dtypes_names spec spec').
  - symmetry. destruct Hcast as [-> | ->]; [reflexivity|].
    now rewrite andb_false_r.
Qed.

(** The first steps of the constructor on a specification that passes
    validation with arities within the maximum. *)
Lemma FromSpec_validated (spec : PyArrayMethod_Spec) (private : Z) :
  validate_spec spec = Ok 0 ->
  spec_nin spec + spec_nout spec <= NPY_MAXARGS ->
  PyArrayMethod_FromSpec_int spec private
  = (res <- fill_arraymethod_from_slots
              {| dtypes := take (Z.to_nat (spec_nin spec + spec_nout spec))
                             (spec_dtypes spec);
                 method := new_method spec |} spec private ;;
     Ok (with_method res
           (set_name (method res)
              (Some match spec_name spec with
                    | None => "<unknown>"%string
                    | Some n => n
                    end)))).
Proof.
  intros Hvalid Hmax.
  destruct (validate_spec_Ok_inv _ _ Hvalid) as (nargs & Hadd & Hin & Hout & _).
  assert (Hsum : spec_nin spec + spec_nout spec <= INT_MAX)
    by (unfold NPY_MAXARGS, INT_MAX in *; lia).
  rewrite (int_add_small _ _ Hin Hout Hsum) in Hadd. injection Hadd as <-.
  unfold PyArrayMethod_FromSpec_int.
  rewrite (int_add_small _ _ Hin Hout Hsum). cbn [bind].
  rewrite (validate_spec_names spec (set_spec_name spec _) 0 eq_refl eq_refl
             eq_refl eq_refl Hvalid).
  cbn [bind].
  replace (PyMem_Malloc_fails
             (sizeof_pointers (spec_nin spec + spec_nout spec))) with false.
  - cbn [spec_dtypes set_spec_name]. now rewrite fill_arraymethod_from_named.
  - symmetry. apply PyMem_Malloc_fails_iff; unfold INT_MIN, INT_MAX in *; lia.
Qed.

(** X3: a slot whose number the constructor does not know, or the selector
    slot in a call that is not private, is an error and not ignored: when
    the specification passes validation with arities within the maximum
    and the slots before it are accepted, construction fails with
    [RuntimeError]. *)
Theorem unknown_slot_is_an_error (spec : PyArrayMethod_Spec) (private : Z)
    (pre rest : list PyType_Slot) (bad : PyType_Slot) :
  validate_spec spec = Ok 0 ->
  spec_nin spec + spec_nout spec <= NPY_MAXARGS ->
  spec_slots spec = pre ++ bad :: rest ->
  Forall (fun s => slot s <> 0 /\ accepted_slot private s = true) pre ->
  slot bad <> 0 ->
  accepted_slot private bad = false ->
  exists msg,
    PyArrayMethod_FromSpec_int spec private = Raise PyExc_RuntimeError msg.
Proof.
  intros Hvalid Hmax Hslots Hpre Hnz Hbad.
  rewrite (FromSpec_validated _ _ Hvalid Hmax).
  unfold fill_arraymethod_from_slots.
  rewrite Hslots. simpl.
  destruct (fill_slots_app_accepted pre (bad :: rest) private Hpre
              (set_resolve_descriptors
                 (set_get_strided_loop (new_method spec)
                    (Some npy_default_get_strided_loop_ptr))
                 (Some default_resolve_descriptors_ptr))) as [meth' ->].
  simpl. destruct (Z.eqb_spec (slot bad) 0) as [|_]; [contradiction|].
  unfold accepted_slot in Hbad. revert Hbad.
  slot_cases bad; destruct (private =? 0); simpl; intros Hbad;
    try discriminate; unfold invalid_slot; simpl; eauto.
Qed.

Lemma unknown_slot_is_an_error_witness :
  exists msg,
    PyArrayMethod_FromSpec_int unknown_slot_spec 0
    = Raise PyExc_RuntimeError msg.
Proof.
  apply (unknown_slot_is_an_error unknown_slot_spec 0
           [ {| slot := NPY_METH_strided_loop; pfunc := Some (extern_fn 1) |} ]
           [ end_of_slots ] {| slot := 77; pfunc := Some (extern_fn 2) |});
    try reflexivity; try discriminate.
  repeat constructor. discriminate.
Defined.

(** X4: giving a slot more than once is no error: the entries are taken in
    order up to the terminator, and each of the six fields ends up with the
    pointer of the last entry given for it, or unchanged when there is
    none. *)
Theorem fill_slots_last_wins (slots : list PyType_Slot) (private : Z)
    (meth meth' : PyArrayMethodObject) :
  fill_slots slots private meth = Ok meth' ->
  resolve_descriptors meth'
  = last_slot NPY_METH_resolve_descriptors slots (resolve_descriptors meth)
  /\ get_strided_loop meth'
     = last_slot NPY_METH_get_loop slots (get_strided_loop meth)
  /\ strided_loop meth'
     = last_slot NPY_METH_strided_loop slots (strided_loop meth)
  /\ contiguous_loop meth'
     = last_slot NPY_METH_contiguous_loop slots (contiguous_loop meth)
  /\ unaligned_strided_loop meth'
     = last_slot NPY_METH_unaligned_strided_loop slots
         (unaligned_strided_loop meth)
  /\ unaligned_contiguous_loop meth'
     = last_slot NPY_METH_unaligned_contiguous_loop slots
         (unaligned_contiguous_loop meth).
Proof.
  revert meth. induction slots as [|s rest IH]; intros meth; simpl;
    [discriminate|].
  destruct (Z.eqb_spec (slot s) 0) as [|_].
  - intros [= <-]. repeat split; reflexivity.
  - unfold invalid_slot.
    slot_cases s; destruct (private =? 0); simpl; try discriminate;
      intros H; apply IH in H; exact H.
Qed.

Lemma fill_slots_last_wins_witness :
  exists meth',
    fill_slots (spec_slots twice_spec) 0 (new_method twice_spec) = Ok meth'
    /\ strided_loop meth' = Some (extern_fn 2).
Proof.
  eexists. split; [reflexivity|].
  apply (fill_slots_last_wins (spec_slots twice_spec) 0
           (new_method twice_spec) _ eq_refl).
Defined.

(** ** What the constructor hands back *)

(** The steps of a successful construction. *)
Lemma FromSpec_Ok_steps (spec : PyArrayMethod_Spec) (private : Z)
    (self : PyBoundArrayMethodObject) :
  PyArrayMethod_FromSpec_int spec private = Ok self ->
  (validate_spec spec = Ok 0 /\ spec_nin spec + spec_nout spec <= INT_MAX)
  /\ exists meth0 meth1,
      slots_as_supplied spec private = Ok meth0
      /\ (is_fn (resolve_descriptors meth0) default_resolve_descriptors_ptr
          = true ->
          spec_casting spec <> -1
          /\ exists v,
              check_default_resolver
                (take (Z.to_nat (spec_nin spec + spec_nout spec))
                   (spec_dtypes spec))
                meth0 0 (Z.to_nat (nin meth0 + nout meth0)) = Ok v)
      /\ (if is_fn (get_strided_loop meth0) npy_default_get_strided_loop_ptr
          then check_loops meth0 = Ok meth1 else meth1 = meth0)
      /\ self
         = {| dtypes := take (Z.to_nat (spec_nin spec + spec_nout spec))
                          (spec_dtypes spec);
              method :=
                set_name meth1
                  (Some match spec_name spec with
                        | None => "<unknown>"%string
                        | Some n => n
                        end) |}.
Proof.
  unfold PyArrayMethod_FromSpec_int. intros H.
  apply bind_Ok_inv in H as (nargs & Hadd & H).
  apply bind_Ok_inv in H as (v & Hv & H).
  pose proof (validate_spec_result _ v Hv) as ->.
  apply (validate_spec_names (set_spec_name spec _) spec 0 eq_refl eq_refl
           eq_refl eq_refl) in Hv.
  destruct (PyMem_Malloc_fails (sizeof_pointers nargs)) eqn:Hmem;
    [discriminate H|].
  destruct (validate_spec_Ok_inv _ _ Hv) as (nargs' & Hadd' & Hin & Hout & _).
  apply (PyMem_Malloc_fails_iff nargs) in Hmem;
    [|apply int_add_Ok in Hadd; tauto].
  pose proof (int_add_exact _ _ _ Hadd Hin Hout Hmem) as ->.
  assert (Hsum : spec_nin spec + spec_nout spec <= INT_MAX)
    by (apply int_add_Ok in Hadd; tauto).
  split; [split; [exact Hv | exact Hsum]|].
  cbn [spec_dtypes set_spec_name] in H.
  rewrite fill_arraymethod_from_named in H.
  apply bind_Ok_inv in H as (res & Hfill & [= <-]).
  unfold fill_arraymethod_from_slots in Hfill.
  apply bind_Ok_inv in Hfill as (meth0 & Hslots & Hfill).
  apply bind_Ok_inv in Hfill as (c & Hres & Hfill).
  simpl in Hslots, Hres.
  exists meth0.
  assert (Hresolver :
    is_fn (resolve_descriptors meth0) default_resolve_descriptors_ptr = true ->
    spec_casting spec <> -1
    /\ exists v,
        check_default_resolver
          (take (Z.to_nat (spec_nin spec + spec_nout spec)) (spec_dtypes spec))
          meth0 0 (Z.to_nat (nin meth0 + nout meth0)) = Ok v).
  { intros E. rewrite E in Hres.
    destruct (Z.eqb_spec (spec_casting spec) (-1)); [discriminate|]. eauto. }
  destruct (is_fn (get_strided_loop meth0) npy_default_get_strided_loop_ptr);
    simpl in Hfill.
  - apply bind_Ok_inv in Hfill as (meth1 & Hloops & [= <-]).
    exists meth1. split; [exact Hslots|]. split; [exact Hresolver|].
    split; [exact Hloops | reflexivity].
  - injection Hfill as <-. exists meth0.
    split; [exact Hslots|]. split; [exact Hresolver|].
    split; reflexivity.
Qed.

Lemma check_loops_arity (meth meth' : PyArrayMethodObject) :
  check_loops meth = Ok meth' ->
  nin meth' = nin meth /\ nout meth' = nout meth /\ flags meth' = flags meth
  /\ casting meth' = casting meth
  /\ resolve_descriptors meth' = resolve_descriptors meth
  /\ get_strided_loop meth' = get_strided_loop meth.
Proof.
  intros H. destruct (check_loops_Ok _ _ H) as [_ ->].
  destruct (is_null (contiguous_loop meth)); repeat split; reflexivity.
Qed.

Lemma FromSpec_fields (spec : PyArrayMethod_Spec) (private : Z)
    (self : PyBoundArrayMethodObject) :
  PyArrayMethod_FromSpec_int spec private = Ok self ->
  nin (method self) = spec_nin spec
  /\ nout (method self) = spec_nout spec
  /\ casting (method self) = spec_casting spec
  /\ flags (method self) = spec_flags spec
  /\ dtypes self
     = take (Z.to_nat (spec_nin spec + spec_nout spec)) (spec_dtypes spec).
Proof.
  intros H.
  destruct (FromSpec_Ok_steps _ _ _ H)
    as (_ & meth0 & meth1 & Hslots & _ & Hloops & ->).
  apply fill_slots_arity in Hslots as (Hn0 & Ho0 & Hf0 & Hc0).
  simpl in Hn0, Ho0, Hf0, Hc0. simpl.
  destruct (is_fn (get_strided_loop meth0) npy_default_get_strided_loop_ptr).
  - apply check_loops_arity in Hloops as (-> & -> & -> & -> & _). auto.
  - subst meth1. auto.
Qed.

Lemma validate_spec_length (spec : PyArrayMethod_Spec) (v : Z) :
  validate_spec spec = Ok v /\ spec_nin spec + spec_nout spec <= INT_MAX ->
  (Z.to_nat (spec_nin spec + spec_nout spec) <= length (spec_dtypes spec))%nat.
Proof.
  intros H. destruct (validate_spec_Ok_arity _ _ H) as [(Hin & Hout & _) _].
  destruct (Z.eq_dec (spec_nin spec + spec_nout spec) 0) as [->|Hne];
    [simpl; lia|].
  destruct (validate_spec_Ok spec v H (spec_nin spec + spec_nout spec - 1)
              ltac:(lia)) as (dtype & Hload & _).
  unfold load in Hload.
  destruct (_ <? 0); [discriminate|].
  destruct (spec_dtypes spec !! _) eqn:E; [|discriminate].
  apply lookup_lt_Some in E. lia.
Qed.

(** X5: a method that leaves the constructor carries the arities, the
    casting level and the flags of its specification unchanged, the name of
    the specification or "<unknown>" when it has none, and exactly the first
    [nin + nout] classes of the specification; its arities are non-negative
    and their sum is within the maximum. *)
Theorem construction_keeps_specification (spec : PyArrayMethod_Spec)
    (private : Z) (self : PyBoundArrayMethodObject) :
  PyArrayMethod_FromSpec_int spec private = Ok self ->
  nin (method self) = spec_nin spec
  /\ nout (method self) = spec_nout spec
  /\ casting (method self) = spec_casting spec
  /\ flags (method self) = spec_flags spec
  /\ name (method self)
     = Some match spec_name spec with
            | None => "<unknown>"%string
            | Some n => n
            end
  /\ dtypes self
     = take (Z.to_nat (spec_nin spec + spec_nout spec)) (spec_dtypes spec)
  /\ Z.of_nat (length (dtypes self)) = nin (method self) + nout (method self)
  /\ 0 <= nin (method self) /\ 0 <= nout (method self)
  /\ nin (method self) + nout (method self) <= NPY_MAXARGS.
Proof.
  intros H.
  destruct (FromSpec_fields _ _ _ H) as (Hn & Ho & Hc & Hf & Hd).
  destruct (FromSpec_Ok_steps _ _ _ H)
    as (Hvalid & meth0 & meth1 & _ & _ & _ & Hself).
  destruct (validate_spec_Ok_arity _ _ Hvalid) as [(Hin & Hout & Hmax) _].
  pose proof (validate_spec_length _ _ Hvalid) as Hlen.
  rewrite Hn, Ho, Hc, Hf, Hd, length_take.
  repeat split; auto; try lia.
  rewrite Hself. reflexivity.
Qed.

Lemma construction_keeps_specification_witness :
  exists self,
    PyArrayMethod_FromSpec_int twice_spec 0 = Ok self
    /\ name (method self) = Some "<unknown>"%string
    /\ Z.of_nat (length (dtypes self)) = 2.
Proof.
  eexists. split; [reflexivity|].
  destruct (construction_keeps_specification twice_spec 0 _ eq_refl)
    as (_ & _ & _ & _ & Hname & _ & Hlen & _).
  split; [exact Hname | exact Hlen].
Defined.

Lemma check_default_resolver_Ok (dtypes : list (option PyArray_DTypeMeta))
    (meth : PyArrayMethodObject) (count : nat) (i v : Z) :
  check_default_resolver dtypes meth i count = Ok v ->
  forall j, i <= j < i + Z.of_nat count -> nin meth <= j ->
    exists dtype, load dtypes j = Ok (Some dtype) /\ parametric dtype = false.
Proof.
  revert i. induction count as [|count IH]; intros i H j Hj Hout; [lia|].
  simpl in H. apply bind_Ok_inv in H as (p & Hp & H).
  destruct (is_null p && (i <? nin meth)); [discriminate|].
  destruct (is_null p && (nin meth =? 0)); [discriminate|].
  apply bind_Ok_inv in H as (b & Hb & H).
  destruct b; [discriminate|].
  destruct (Z.eq_dec j i) as [->|Hne].
  - destruct (Z.geb_spec i (nin meth)); [|lia].
    apply bind_Ok_inv in Hb as (dtype & Hd & [= Hpar]).
    destruct p as [d|]; [|discriminate]. injection Hd as <-.
    exists d. auto.
  - apply (IH (i + 1)); [exact H | lia | exact Hout].
Qed.

(** X6: a method that leaves the constructor with the built-in resolver
    has a declared casting level, one of the five levels with or without the
    view flag and never -1, and none of its output classes is parametric. *)
Theorem builtin_resolver_requirements (spec : PyArrayMethod_Spec)
    (private : Z) (self : PyBoundArrayMethodObject) :
  PyArrayMethod_FromSpec_int spec private = Ok self ->
  resolve_descriptors (method self) = Some default_resolve_descriptors_ptr ->
  casting (method self) <> -1
  /\ is_casting_level
       (Z.land (casting (method self)) (Z.lnot _NPY_CAST_IS_VIEW)) = true
  /\ forall j, nin (method self) <= j < nin (method self) + nout (method self) ->
       exists dtype,
         load (dtypes self) j = Ok (Some dtype) /\ parametric dtype = false.
Proof.
  intros H Hres.
  destruct (FromSpec_fields _ _ _ H) as (Hn & Ho & Hc & _ & Hd).
  destruct (FromSpec_Ok_steps _ _ _ H)
    as (Hvalid & meth0 & meth1 & Hslots & Hresolver & Hloops & Hself).
  assert (Hres0 : is_fn (resolve_descriptors meth0)
                    default_resolve_descriptors_ptr = true).
  { apply is_fn_true. rewrite Hself in Hres. simpl in Hres.
    destruct (is_fn (get_strided_loop meth0) npy_default_get_strided_loop_ptr).
    - apply check_loops_arity in Hloops as (_ & _ & _ & _ & <- & _).
      exact Hres.
    - now subst meth1. }
  destruct (Hresolver Hres0) as (Hcast & v & Hcheck).
  apply fill_slots_arity in Hslots as (Hn0 & Ho0 & _). simpl in Hn0, Ho0.
  destruct (validate_spec_Ok_arity _ _ Hvalid) as [(Hin & Hout & _) Hcok].
  rewrite Hc, Hn, Ho, Hd. split; [exact Hcast|]. split.
  - destruct Hcok as [Hlevel|Hminus]; [exact Hlevel | contradiction].
  - intros j Hj.
    apply (check_default_resolver_Ok _ meth0 _ 0 v Hcheck); lia.
Qed.

Lemma builtin_resolver_requirements_witness :
  exists self,
    PyArrayMethod_FromSpec_int cast_spec 0 = Ok self
    /\ casting (method self) <> -1.
Proof.
  eexists. split; [reflexivity|].
  apply (builtin_resolver_requirements cast_spec 0 _ eq_refl eq_refl).
Defined.

(** ** More on the default resolver *)

Lemma resolve_defined_shape
    (NewByteorder : PyArray_Descr -> option PyArray_Descr)
    (dtypes : list (option PyArray_DTypeMeta))
    (descrs : list (option PyArray_Descr)) (count : nat) :
  forall (i : Z) (out outs : list (option PyArray_Descr)) (b b' : bool),
    resolve_defined NewByteorder dtypes descrs i count out b = Ok (outs, b') ->
    exists new,
      outs = out ++ new
      /\ length new = count
      /\ (forall k, (k < count)%nat ->
            class_given dtypes (i + Z.of_nat k) ->
            exists d, new !! k = Some (Some d))
      /\ (b' = true -> b = true /\ Forall (fun o => o <> None) new)
      /\ ((forall k, (k < count)%nat -> class_given dtypes (i + Z.of_nat k)) ->
          b' = b)
      /\ (forall k d, new !! k = Some (Some d) ->
            class_given dtypes (i + Z.of_nat k)).
Proof.
  induction count as [|count IH]; intros i out outs b b' H; simpl in H.
  - injection H as <- <-. exists []. rewrite app_nil_r.
    repeat split; auto; intros; try lia. discriminate.
  - apply bind_Ok_inv in H as (p & Hp & H).
    destruct p as [dtype|].
    + apply bind_Ok_inv in H as (given & _ & H).
      apply bind_Ok_inv in H as (o & _ & H).
      apply IH in H as (new & -> & Hlen & Hgiven & Hall & Hsame & Hback).
      exists (Some o :: new). rewrite <- app_assoc. simpl.
      split; [reflexivity|]. split; [lia|]. split; [|split; [|split]];
        [| | |intros [|k] d Hk; simpl in Hk;
               [exists dtype; now replace (i + Z.of_nat 0) with i by lia
               |replace (i + Z.of_nat (S k)) with (i + 1 + Z.of_nat k) by lia;
                exact (Hback _ _ Hk)]].
      * intros [|k] Hk Hc; simpl; [eauto|].
        apply Hgiven; [lia|].
        replace (i + 1 + Z.of_nat k) with (i + Z.of_nat (S k)) by lia.
        exact Hc.
      * intros Hb. destruct (Hall Hb) as [-> Hnew]. split; [reflexivity|].
        constructor; [discriminate | exact Hnew].
      * intros Hc. apply Hsame. intros k Hk.
        replace (i + 1 + Z.of_nat k) with (i + Z.of_nat (S k)) by lia.
        apply Hc. lia.
    + apply IH in H as (new & -> & Hlen & Hgiven & Hall & Hsame & Hback).
      exists (None :: new). rewrite <- app_assoc. simpl.
      split; [reflexivity|]. split; [lia|]. split; [|split; [|split]];
        [| | |intros [|k] d Hk; simpl in Hk;
               [discriminate
               |replace (i + Z.of_nat (S k)) with (i + 1 + Z.of_nat k) by lia;
                exact (Hback _ _ Hk)]].
      * intros [|k] Hk Hc; simpl.
        -- destruct Hc as [dtype Hc].
           replace (i + Z.of_nat 0) with i in Hc by lia. congruence.
        -- apply Hgiven; [lia|].
           replace (i + 1 + Z.of_nat k) with (i + Z.of_nat (S k)) by lia.
           exact Hc.
      * intros Hb. destruct (Hall Hb) as [Hf _]. discriminate.
      * intros Hc. destruct (Hc 0%nat ltac:(lia)) as [dtype Hd].
        replace (i + Z.of_nat 0) with i in Hd by lia. congruence.
Qed.

Lemma load_lookup {A : Type} (a : list A) (i : Z) (x : A) :
  load a i = Ok x -> 0 <= i /\ a !! Z.to_nat i = Some x.
Proof.
  unfold load. destruct (Z.ltb_spec i 0); [discriminate|].
  destruct (a !! Z.to_nat i) eqn:E; [|discriminate].
  intros [= ->]. auto.
Qed.

Lemma store_Ok_inv {A : Type} (a a' : list A) (i : Z) (x : A) :
  store a i x = Ok a' ->
  0 <= i /\ (Z.to_nat i < length a)%nat /\ a' = <[Z.to_nat i := x]> a.
Proof.
  unfold store. destruct (Z.leb_spec 0 i); simpl; [|discriminate].
  destruct (Z.ltb_spec i (Z.of_nat (length a))); [|discriminate].
  intros [= <-]. repeat split; auto; lia.
Qed.

Lemma resolve_undefined_shape
    (NewByteorder : PyArray_Descr -> option PyArray_Descr)
    (common : PyArray_DTypeMeta) (descrs : list (option PyArray_Descr))
    (count : nat) :
  forall (i : Z) (outs outs' : list (option PyArray_Descr)),
    resolve_undefined NewByteorder common descrs i count outs = Ok outs' ->
    length outs' = length outs
    /\ forall j : nat,
        ((exists d, outs !! j = Some (Some d))
         \/ (Z.to_nat i <= j < Z.to_nat i + count)%nat) ->
        exists d, outs' !! j = Some (Some d).
Proof.
  induction count as [|count IH]; intros i outs outs' H; simpl in H.
  - injection H as <-. split; [reflexivity|].
    intros j [Hj|Hj]; [exact Hj | lia].
  - apply bind_Ok_inv in H as (cur & Hcur & H).
    apply load_lookup in Hcur as [Hi Hcur].
    destruct cur as [d0|].
    + apply IH in H as [Hlen Hall]. split; [exact Hlen|].
      intros j [Hj|Hj].
      * apply Hall. left. exact Hj.
      * destruct (decide (j = Z.to_nat i)) as [->|Hne].
        -- apply Hall. left. eauto.
        -- apply Hall. right. lia.
    + apply bind_Ok_inv in H as (given & _ & H).
      apply bind_Ok_inv in H as (o & _ & H).
      apply bind_Ok_inv in H as (outs1 & Hstore & H).
      apply store_Ok_inv in Hstore as (_ & Hlt & ->).
      apply IH in H as [Hlen Hall]. rewrite length_insert in Hlen.
      split; [exact Hlen|].
      intros j [[d Hj]|Hj].
      * apply Hall. left.
        destruct (decide (j = Z.to_nat i)) as [->|Hne].
        -- rewrite list_lookup_insert_eq by lia. eauto.
        -- rewrite list_lookup_insert_ne by auto. eauto.
      * destruct (decide (j = Z.to_nat i)) as [->|Hne].
        -- apply Hall. left. rewrite list_lookup_insert_eq by lia. eauto.
        -- apply Hall. right. lia.
Qed.

(** The second loop of the resolver leaves the cells before its first
    alone. *)
Lemma resolve_undefined_before
    (NewByteorder : PyArray_Descr -> option PyArray_Descr)
    (common : PyArray_DTypeMeta) (descrs : list (option PyArray_Descr))
    (count : nat) :
  forall (i : Z) (outs outs' : list (option PyArray_Descr)),
    resolve_undefined NewByteorder common descrs i count outs = Ok outs' ->
    forall j : nat, (j < Z.to_nat i)%nat -> outs' !! j = outs !! j.
Proof.
  induction count as [|count IH]; intros i outs outs' H j Hj; simpl in H.
  - now injection H as <-.
  - apply bind_Ok_inv in H as (cur & Hcur & H).
    apply load_lookup in Hcur as [Hi Hcur].
    destruct cur as [d0|].
    + apply (IH _ _ _ H). lia.
    + apply bind_Ok_inv in H as (given & _ & H).
      apply bind_Ok_inv in H as (o & _ & H).
      apply bind_Ok_inv in H as (outs1 & Hstore & H).
      apply store_Ok_inv in Hstore as (_ & Hlt & ->).
      rewrite (IH _ _ _ H j) by lia.
      apply list_lookup_insert_ne. lia.
Qed.

(** X7: what a successful return of the default resolver implies.  The
    level is the one the method declares and the output array has one cell
    for every slot.  The instance of every slot whose class is given, and
    of every output slot, is not null.  The instance of an input slot whose
    class is not given is null: the resolver fills only output slots from
    the common class.  If any class was not given, there is at least one
    input and the class of the first input is given. *)
Theorem default_resolver_success
    (NewByteorder : PyArray_Descr -> option PyArray_Descr)
    (CommonDType :
       PyArray_DTypeMeta -> option PyArray_DTypeMeta ->
       option PyArray_DTypeMeta)
    (meth : PyArrayMethodObject)
    (dtypes : list (option PyArray_DTypeMeta))
    (descrs out : list (option PyArray_Descr)) (level : Z) :
  0 <= nin meth -> 0 <= nout meth ->
  default_resolve_descriptors NewByteorder CommonDType meth dtypes descrs
  = Ok (level, out) ->
  level = casting meth
  /\ Z.of_nat (length out) = nin meth + nout meth
  /\ (forall j, 0 <= j < nin meth + nout meth -> class_given dtypes j ->
        exists d, load out j = Ok (Some d))
  /\ (forall j, nin meth <= j < nin meth + nout meth ->
        exists d, load out j = Ok (Some d))
  /\ (forall j, 0 <= j < nin meth -> load dtypes j = Ok None ->
        load out j = Ok None)
  /\ ((exists j, 0 <= j < nin meth + nout meth /\ load dtypes j = Ok None) ->
      0 < nin meth /\ class_given dtypes 0).
Proof.
  intros Hin Hout H.
  split; [exact (default_resolver_level _ _ _ _ _ _ _ H)|].
  unfold default_resolve_descriptors in H.
  apply bind_Ok_inv in H as ([outs all_defined] & Hdef & H).
  apply resolve_defined_shape in Hdef
    as (new & Houts & Hlen & Hgiven & Hall & Hsame & Hback).
  simpl in Houts. subst outs.
  assert (Hfirst_loop : forall j, 0 <= j < nin meth + nout meth ->
            class_given dtypes j -> exists d, new !! Z.to_nat j = Some (Some d)).
  { intros j Hj Hc. apply Hgiven; [lia|]. now rewrite Z2Nat.id by lia. }
  assert (Hnull : forall j, 0 <= j < nin meth + nout meth ->
            load dtypes j = Ok None -> new !! Z.to_nat j = Some None).
  { intros j Hj Hn.
    destruct (lookup_lt_is_Some_2 new (Z.to_nat j)) as [o Ho]; [lia|].
    destruct o as [d|]; [|exact Ho].
    apply Hback in Ho.
    replace (0 + Z.of_nat (Z.to_nat j)) with j in Ho by lia.
    destruct Ho as [c Hc]. congruence. }
  destruct all_defined.
  - injection H as _ <-. destruct (Hall eq_refl) as [_ Hnew].
    assert (Hevery : forall j, 0 <= j < nin meth + nout meth ->
                       exists d, load new j = Ok (Some d)).
    { intros j Hj.
      destruct (lookup_lt_is_Some_2 new (Z.to_nat j)) as [o Ho]; [lia|].
      destruct o as [d|].
      - exists d. apply load_Ok; [lia | exact Ho].
      - rewrite Forall_lookup in Hnew. now destruct (Hnew _ _ Ho). }
    assert (Hnever : forall j, 0 <= j < nin meth + nout meth ->
                       load dtypes j <> Ok None).
    { intros j Hj Hn. destruct (Hevery j Hj) as [d Hd].
      apply load_lookup in Hd as [_ Hd].
      rewrite (Hnull j Hj Hn) in Hd. discriminate Hd. }
    split; [lia|]. split; [intros j Hj _; now apply Hevery|].
    split; [intros j Hj; apply Hevery; lia|].
    split.
    + intros j Hj Hn. destruct (Hnever j ltac:(lia) Hn).
    + intros (j & Hj & Hn). destruct (Hnever j Hj Hn).
  - apply bind_Ok_inv in H as (first & Hfirst & H).
    destruct first as [dtype0|]; [|discriminate].
    apply bind_Ok_inv in H as (common & Hcommon & H).
    apply bind_Ok_inv in H as (outs' & Hund & [= _ <-]).
    destruct (Z.eqb_spec (nin meth) 0) as [|Hne]; [discriminate|].
    pose proof (resolve_undefined_before _ _ _ _ _ _ _ Hund) as Hbefore.
    apply resolve_undefined_shape in Hund as [Hlen' Hfilled].
    split; [lia|]. split; [|split; [|split]].
    + intros j Hj Hc. destruct (Hfilled (Z.to_nat j)) as [d Hd].
      * left. now apply Hfirst_loop.
      * exists d. apply load_Ok; [lia | exact Hd].
    + intros j Hj. destruct (Hfilled (Z.to_nat j)) as [d Hd].
      * right. lia.
      * exists d. apply load_Ok; [lia | exact Hd].
    + intros j Hj Hn. apply load_Ok; [lia|].
      rewrite Hbefore by lia. apply Hnull; [lia | exact Hn].
    + intros _. split; [lia|]. exists dtype0. exact Hfirst.
Qed.

Lemma default_resolver_success_witness :
  NPY_SAME_KIND_CASTING = casting binary_method
  /\ (exists d,
        load [Some Int64_descr; Some Int64_descr; Some Int64_descr] 2
        = Ok (Some d))
  /\ 0 < nin binary_method.
Proof.
  destruct (default_resolver_success swapped_copy same_class_only
              binary_method [Some Int64DType; Some Int64DType; None]
              [Some Int64_descr; Some Int64_descr; Some Int64_descr]
              [Some Int64_descr; Some Int64_descr; Some Int64_descr]
              NPY_SAME_KIND_CASTING)
    as (Hlevel & _ & _ & Houts & _ & Hmissing);
    try reflexivity; try (simpl; lia).
  split; [exact Hlevel|]. split.
  - apply Houts. simpl. lia.
  - apply Hmissing. exists 2. split; [simpl; lia | reflexivity].
Defined.

Lemma new_reference_raises {A : Type} (r : option A) (callee : string)
    (exc : PyExc) (msg : string) :
  new_reference r callee = Raise exc msg -> exc = PyExc_Propagated.
Proof. destruct r; simpl; congruence. Qed.

Lemma resolve_slot_raises
    (NewByteorder : PyArray_Descr -> option PyArray_Descr)
    (dtype : PyArray_DTypeMeta) (given : option PyArray_Descr)
    (exc : PyExc) (msg : string) :
  resolve_slot NewByteorder dtype given = Raise exc msg ->
  exc = PyExc_Propagated.
Proof.
  unfold resolve_slot. destruct given as [d|]; simpl; [|discriminate].
  destruct (ob_type d =? dt_addr dtype); simpl; apply new_reference_raises.
Qed.

Lemma resolve_defined_raises
    (NewByteorder : PyArray_Descr -> option PyArray_Descr)
    (dtypes : list (option PyArray_DTypeMeta))
    (descrs : list (option PyArray_Descr)) (count : nat) :
  forall (i : Z) (out : list (option PyArray_Descr)) (b : bool)
         (exc : PyExc) (msg : string),
    resolve_defined NewByteorder dtypes descrs i count out b = Raise exc msg ->
    exc = PyExc_Propagated.
Proof.
  induction count as [|count IH]; intros i out b exc msg; simpl;
    [discriminate|].
  destruct (load dtypes i) as [p| |] eqn:Hp; simpl; try discriminate;
    [|now destruct (load_never_raises _ _ _ _ Hp)].
  destruct p as [dtype|]; [|apply IH].
  destruct (load descrs i) as [given| |] eqn:Hg; simpl; try discriminate;
    [|now destruct (load_never_raises _ _ _ _ Hg)].
  destruct (resolve_slot NewByteorder dtype given) as [o| |] eqn:Hs; simpl;
    try discriminate; [apply IH|].
  intros [= <- _]. exact (resolve_slot_raises _ _ _ _ _ Hs).
Qed.

(** When every class is given, the resolver never gets to the common class
    of the inputs. *)
Lemma default_resolver_all_given
    (NewByteorder : PyArray_Descr -> option PyArray_Descr)
    (CommonDType :
       PyArray_DTypeMeta -> option PyArray_DTypeMeta ->
       option PyArray_DTypeMeta)
    (meth : PyArrayMethodObject)
    (dtypes : list (option PyArray_DTypeMeta))
    (descrs : list (option PyArray_Descr)) :
  (forall j, 0 <= j < nin meth + nout meth -> class_given dtypes j) ->
  default_resolve_descriptors NewByteorder CommonDType meth dtypes descrs
  = (r <- resolve_defined NewByteorder dtypes descrs 0
            (Z.to_nat (nin meth + nout meth)) [] true ;;
     Ok (casting meth, fst r)).
Proof.
  intros Hgiven. unfold default_resolve_descriptors.
  destruct (resolve_defined _ _ _ _ _ _ _) as [[outs b]| |] eqn:E; simpl;
    try reflexivity.
  apply resolve_defined_shape in E as (_ & _ & _ & _ & _ & Hsame & _).
  rewrite Hsame; [reflexivity|].
  intros k Hk. apply Hgiven. lia.
Qed.

Lemma load_take {A : Type} (a : list A) (n : nat) (j : Z) :
  j < Z.of_nat n -> load (take n a) j = load a j.
Proof.
  intros Hj. unfold load. destruct (Z.ltb_spec j 0); [reflexivity|].
  now rewrite lookup_take_lt by lia.
Qed.

Lemma FromSpec_classes_given (spec : PyArrayMethod_Spec) (private : Z)
    (self : PyBoundArrayMethodObject) :
  PyArrayMethod_FromSpec_int spec private = Ok self ->
  forall j, 0 <= j < nin (method self) + nout (method self) ->
    class_given (dtypes self) j.
Proof.
  intros H j Hj.
  destruct (FromSpec_fields _ _ _ H) as (Hn & Ho & _ & _ & Hd).
  destruct (FromSpec_Ok_steps _ _ _ H) as (Hvalid & _).
  rewrite Hn, Ho in Hj.
  destruct (validate_spec_Ok _ _ Hvalid j Hj) as (dtype & Hload & _).
  exists dtype. rewrite Hd, load_take by lia. exact Hload.
Qed.

(** X8: for a method that left the constructor, the default resolver never
    consults the common class of the inputs, so its result is the same
    whatever that collaborator would answer, and it never raises the
    [RuntimeError] for a missing class. *)
Theorem built_method_never_merges_classes
    (NewByteorder : PyArray_Descr -> option PyArray_Descr)
    (Common1 Common2 :
       PyArray_DTypeMeta -> option PyArray_DTypeMeta ->
       option PyArray_DTypeMeta)
    (spec : PyArrayMethod_Spec) (private : Z)
    (self : PyBoundArrayMethodObject) (descrs : list (option PyArray_Descr)) :
  PyArrayMethod_FromSpec_int spec private = Ok self ->
  default_resolve_descriptors NewByteorder Common1 (method self) (dtypes self)
    descrs
  = default_resolve_descriptors NewByteorder Common2 (method self)
      (dtypes self) descrs
  /\ forall msg,
      default_resolve_descriptors NewByteorder Common1 (method self)
        (dtypes self) descrs
      <> Raise PyExc_RuntimeError msg.
Proof.
  intros H. pose proof (FromSpec_classes_given _ _ _ H) as Hgiven.
  rewrite !(default_resolver_all_given _ _ _ _ _ Hgiven).
  split; [reflexivity|].
  intros msg E.
  destruct (resolve_defined _ _ _ _ _ _ _) as [r|exc msg'|] eqn:Hr; simpl in E;
    try discriminate.
  injection E as -> _. apply resolve_defined_raises in Hr. discriminate.
Qed.

Lemma built_method_never_merges_classes_witness :
  exists self,
    PyArrayMethod_FromSpec_int cast_spec 0 = Ok self
    /\ default_resolve_descriptors swapped_copy same_class_only (method self)
         (dtypes self) [Some Float32_descr; Some Float32_descr]
       = default_resolve_descriptors swapped_copy (fun _ _ => None)
           (method self) (dtypes self) [Some Float32_descr; Some Float32_descr].
Proof.
  eexists. split; [reflexivity|].
  apply (built_method_never_merges_classes swapped_copy same_class_only
           (fun _ _ => None) cast_spec 0 _ _ eq_refl).
Defined.

Lemma resolve_defined_null_or_canonical
    (NewByteorder : PyArray_Descr -> option PyArray_Descr)
    (dtypes : list (option PyArray_DTypeMeta))
    (descrs : list (option PyArray_Descr)) (count : nat) :
  forall (i : Z) (out : list (option PyArray_Descr)) (b : bool),
    (forall k, (k < count)%nat ->
       null_or_canonical dtypes descrs (i + Z.of_nat k)) ->
    exists outs b',
      resolve_defined NewByteorder dtypes descrs i count out b = Ok (outs, b').
Proof.
  induction count as [|count IH]; intros i out b H; simpl; [eauto|].
  assert (Hrest : forall k, (k < count)%nat ->
                    null_or_canonical dtypes descrs (i + 1 + Z.of_nat k)).
  { intros k Hk.
    replace (i + 1 + Z.of_nat k) with (i + Z.of_nat (S k)) by lia.
    apply H. lia. }
  destruct (H 0%nat ltac:(lia)) as [Hnull|(c & d & Hc & Hd & Ht & Hn)];
    replace (i + Z.of_nat 0) with i in * by lia.
  - rewrite Hnull. simpl. apply IH, Hrest.
  - rewrite Hc. simpl. rewrite Hd. simpl.
    rewrite (resolve_slot_canonical _ _ _ Ht Hn). simpl. apply IH, Hrest.
Qed.

(** X9: the default resolver used without inputs, or with its first class
    missing, while some class is not given: when every slot either has no
    class or is given a canonical instance of its class, the result is the
    [RuntimeError] for an invalid use of the default resolver. *)
Theorem default_resolver_invalid_use
    (NewByteorder : PyArray_Descr -> option PyArray_Descr)
    (CommonDType :
       PyArray_DTypeMeta -> option PyArray_DTypeMeta ->
       option PyArray_DTypeMeta)
    (meth : PyArrayMethodObject)
    (dtypes : list (option PyArray_DTypeMeta))
    (descrs : list (option PyArray_Descr)) :
  0 <= nin meth + nout meth ->
  (forall j, 0 <= j < nin meth + nout meth ->
     null_or_canonical dtypes descrs j) ->
  (exists j, 0 <= j < nin meth + nout meth /\ load dtypes j = Ok None) ->
  nin meth = 0 \/ load dtypes 0 = Ok None ->
  exists msg,
    default_resolve_descriptors NewByteorder CommonDType meth dtypes descrs
    = Raise PyExc_RuntimeError msg.
Proof.
  intros Hargs Hslots (j & Hj & Hnull) Hfirst.
  unfold default_resolve_descriptors.
  destruct (resolve_defined_null_or_canonical NewByteorder dtypes descrs
              (Z.to_nat (nin meth + nout meth)) 0 [] true) as (outs & b & E).
  { intros k Hk. apply Hslots. lia. }
  rewrite E. simpl.
  apply resolve_defined_shape in E as (new & _ & Hlen & _ & Hall & _ & Hback).
  destruct b.
  - exfalso. destruct (Hall eq_refl) as [_ Hnew].
    destruct (lookup_lt_is_Some_2 new (Z.to_nat j)) as [o Ho]; [lia|].
    destruct o as [d|].
    + apply Hback in Ho as [dtype Hd].
      replace (0 + Z.of_nat (Z.to_nat j)) with j in Hd by lia. congruence.
    + rewrite Forall_lookup in Hnew. now destruct (Hnew _ _ Ho).
  - destruct Hfirst as [-> | Hzero].
    + simpl. eauto.
    + destruct (nin meth =? 0); simpl; [eauto|]. rewrite Hzero. simpl. eauto.
Qed.

Lemma default_resolver_invalid_use_witness :
  exists msg,
    default_resolve_descriptors swapped_copy same_class_only no_input_method
      [None; Some Float32DType] [None; Some Float32_descr]
    = Raise PyExc_RuntimeError msg.
Proof.
  apply default_resolver_invalid_use.
  - simpl. lia.
  - intros j Hj. simpl in Hj.
    assert (Hcases : j = 0 \/ j = 1) by lia.
    destruct Hcases as [-> | ->].
    + left. reflexivity.
    + right. exists Float32DType, Float32_descr. repeat split; reflexivity.
  - exists 0. split; [simpl; lia | reflexivity].
  - left. reflexivity.
Defined.

(** ** More on the default selector *)

Lemma is_contiguous_from_spec (strides : list Z) (ds : list PyArray_Descr)
    (count : nat) :
  forall i : Z,
    0 <= i ->
    (Z.to_nat i + count <= length strides)%nat ->
    (Z.to_nat i + count <= length ds)%nat ->
    (is_contiguous_from strides (map Some ds) i count = Ok 1
     \/ is_contiguous_from strides (map Some ds) i count = Ok 0)
    /\ (is_contiguous_from strides (map Some ds) i count = Ok 1 <->
        forall (k : nat) (s : Z) (d : PyArray_Descr),
          (Z.to_nat i <= k < Z.to_nat i + count)%nat ->
          strides !! k = Some s -> ds !! k = Some d -> s = elsize d).
Proof.
  induction count as [|count IH]; intros i Hi Hs Hd; simpl.
  - split; [auto|]. split; [intros _ k s d Hk; lia | reflexivity].
  - destruct (lookup_lt_is_Some_2 strides (Z.to_nat i)) as [s Es]; [lia|].
    destruct (lookup_lt_is_Some_2 ds (Z.to_nat i)) as [d Ed]; [lia|].
    rewrite (load_Ok _ _ _ Hi Es). simpl.
    rewrite (load_Ok (map Some ds) i (Some d) Hi)
      by (change (map Some ds) with (Some <$> ds);
          now rewrite list_lookup_fmap, Ed).
    simpl. destruct (Z.eqb_spec s (elsize d)) as [Heq|Hne]; simpl.
    + destruct (IH (i + 1)) as [Hcases Hiff]; [lia..|].
      split; [exact Hcases|]. rewrite Hiff. split.
      * intros H k s' d' Hk Hs' Hd'.
        destruct (decide (k = Z.to_nat i)) as [->|Hk'].
        -- congruence.
        -- apply (H k); auto. lia.
      * intros H k s' d' Hk. apply H. lia.
    + split; [auto|]. split; [discriminate|].
      intros H. destruct Hne. apply (H (Z.to_nat i)); auto. lia.
Qed.

(** X10: on the arrays of a resolved call [is_contiguous] returns 1 or 0,
    and it returns 1 exactly when each of the [nargs] strides is the element
    size of its instance; with no argument at all it returns 1. *)
Theorem is_contiguous_iff (strides : list Z) (ds : list PyArray_Descr)
    (n : nat) :
  (n <= length strides)%nat ->
  (n <= length ds)%nat ->
  (is_contiguous strides (map Some ds) (Z.of_nat n) = Ok 1
   \/ is_contiguous strides (map Some ds) (Z.of_nat n) = Ok 0)
  /\ (is_contiguous strides (map Some ds) (Z.of_nat n) = Ok 1
      <-> all_contiguous strides ds n).
Proof.
  intros Hs Hd. unfold is_contiguous, all_contiguous. rewrite Nat2Z.id.
  destruct (is_contiguous_from_spec strides ds n 0) as [Hcases Hiff];
    [lia | simpl; lia | simpl; lia |].
  split; [exact Hcases|]. rewrite Hiff. simpl. split.
  - intros H i s d Hi. apply H. lia.
  - intros H k s d Hk. apply H. lia.
Qed.

Lemma is_contiguous_iff_witness :
  is_contiguous [8; 4] (map Some [Int64_descr; Float32_descr]) 2 = Ok 1
  /\ is_contiguous [8; 16] (map Some [Int64_descr; Float32_descr]) 2 = Ok 0.
Proof.
  split.
  - apply (proj2 (is_contiguous_iff [8; 4] [Int64_descr; Float32_descr] 2
                    ltac:(simpl; lia) ltac:(simpl; lia))).
    intros [|[|i]] s d Hi Hs Hd; simpl in *; try lia;
      injection Hs as <-; injection Hd as <-; reflexivity.
  - destruct (is_contiguous_iff [8; 16] [Int64_descr; Float32_descr] 2
                ltac:(simpl; lia) ltac:(simpl; lia)) as [[H|H] Hiff];
      [|exact H].
    apply Hiff in H. specialize (H 1%nat 16 Float32_descr ltac:(lia)
                                   eq_refl eq_refl).
    discriminate H.
Defined.

(** X11: for a method that left the constructor with the built-in
    selector, the selector hands back a loop that is not null exactly when
    the call is asserted aligned or the method's flags say that it supports
    unaligned buffers. *)
Theorem built_method_loop_present (spec : PyArrayMethod_Spec) (private : Z)
    (self : PyBoundArrayMethodObject) (context : PyArrayMethod_Context)
    (aligned move_references : Z) (strides : list Z) :
  PyArrayMethod_FromSpec_int spec private = Ok self ->
  get_strided_loop (method self) = Some npy_default_get_strided_loop_ptr ->
  ctx_method context = method self ->
  resolved_call context strides ->
  exists g,
    npy_default_get_strided_loop context aligned move_references strides = Ok g
    /\ ret g = 0
    /\ (out_loop g <> None <->
        aligned <> 0
        \/ Z.land (flags (method self)) NPY_METH_SUPPORTS_UNALIGNED <> 0).
Proof.
  intros Hself Hsel Hctx (Hs & ds & Hd & Hl).
  destruct (FromSpec_builtin_selector _ _ _ Hself Hsel)
    as (meth0 & meth1 & _ & Hc & Hm).
  destruct (check_loops_consistent _ _ Hc) as (Hst & Hco & Huc & Hus).
  assert (Hloops : strided_loop (method self) = strided_loop meth1
                   /\ contiguous_loop (method self) = contiguous_loop meth1
                   /\ unaligned_strided_loop (method self)
                      = unaligned_strided_loop meth1
                   /\ unaligned_contiguous_loop (method self)
                      = unaligned_contiguous_loop meth1
                   /\ flags (method self) = flags meth1)
    by (rewrite Hm; repeat split; reflexivity).
  destruct Hloops as (E1 & E2 & E3 & E4 & E5).
  unfold npy_default_get_strided_loop, is_contiguous.
  rewrite Hctx, Hd, E1, E2, E3, E4, E5.
  destruct (is_contiguous_from_defined strides ds
              (Z.to_nat (nin (method self) + nout (method self)))
              0 ltac:(lia)) as [c ->].
  { rewrite <- Hctx. simpl. lia. }
  { rewrite <- Hctx. simpl. lia. }
  simpl.
  destruct (Z.eqb_spec aligned 0) as [Ha|Ha]; simpl.
  - destruct (unaligned_contiguous_loop meth1) as [uc|] eqn:Euc; simpl.
    + assert (Hpresent : unaligned_strided_loop meth1 <> None)
        by (apply Huc; discriminate).
      destruct (c =? 0); eexists; (split; [reflexivity|]);
        (split; [reflexivity|]); simpl; split; intros _;
        first [ right; apply Hus; exact Hpresent
              | exact Hpresent
              | discriminate ].
    + eexists. split; [reflexivity|]. split; [reflexivity|]. simpl.
      rewrite Hus. split; [auto | intros [H|H]; [contradiction | exact H]].
  - destruct (contiguous_loop meth1) as [cl|] eqn:Ecl; [|contradiction].
    simpl.
    destruct (c =? 0); eexists; (split; [reflexivity|]);
      (split; [reflexivity|]); simpl; split; intros _;
      first [ left; exact Ha | exact Hst | discriminate ].
Qed.

Lemma built_method_loop_present_witness :
  exists g,
    npy_default_get_strided_loop cast_context 0 0 [8; 4] = Ok g
    /\ ret g = 0
    /\ (out_loop g <> None <->
        0 <> 0 \/ Z.land 0 NPY_METH_SUPPORTS_UNALIGNED <> 0).
Proof.
  apply (built_method_loop_present cast_spec 0 _ cast_context 0 0 [8; 4]
           eq_refl eq_refl eq_refl).
  split; [simpl; lia|].
  exists [Int64_descr; Float32_descr]. split; [reflexivity | simpl; lia].
Defined.

(** ** More on the resolve-only entry point *)

Lemma given_descrs_of_tuple_Ok (self : PyBoundArrayMethodObject)
    (items : list PyObject) (count : nat) :
  forall (i : Z) (acc given : list (option PyArray_Descr)),
    0 <= i ->
    given_descrs_of_tuple self items i count acc = Ok given ->
    (forall k item, (Z.to_nat i <= k < Z.to_nat i + count)%nat ->
       items !! k = Some item -> accepted_item self k item)
    /\ given = acc ++ map descr_of_item (take count (drop (Z.to_nat i) items)).
Proof.
  induction count as [|count IH]; intros i acc given Hi H; simpl in H.
  - injection H as <-. split; [intros; lia|]. now rewrite app_nil_r.
  - apply bind_Ok_inv in H as (tmp & Htmp & H).
    unfold PyTuple_GetItem in Htmp.
    destruct (Z.ltb_spec i 0); [lia|].
    destruct (items !! Z.to_nat i) as [item|] eqn:Hitem; [|discriminate].
    injection Htmp as <-.
    assert (Hstep : forall acc',
      given_descrs_of_tuple self items (i + 1) count acc' = Ok given ->
      accepted_item self (Z.to_nat i) item ->
      acc' = acc ++ [descr_of_item item] ->
      (forall k item', (Z.to_nat i <= k < Z.to_nat i + S count)%nat ->
         items !! k = Some item' -> accepted_item self k item')
      /\ given = acc ++ map descr_of_item
                          (take (S count) (drop (Z.to_nat i) items))).
    { intros acc' Hrec Hacc ->.
      apply IH in Hrec as [Hall ->]; [|lia].
      replace (Z.to_nat (i + 1)) with (S (Z.to_nat i)) in * by lia.
      split.
      - intros k item' Hk Hk'.
        destruct (decide (k = Z.to_nat i)) as [->|Hne].
        + congruence.
        + apply Hall; [lia | exact Hk'].
      - rewrite (drop_S _ _ _ Hitem). simpl. now rewrite <- app_assoc. }
    destruct item as [|d|a|addr]; try discriminate.
    + destruct (Z.ltb_spec i (nin (method self))); [discriminate|].
      apply (Hstep _ H); [simpl; lia | reflexivity].
    + apply bind_Ok_inv in H as (bound & Hbound & H).
      apply load_lookup in Hbound as [_ Hbound].
      destruct (exact_instance d bound) eqn:Hexact; [|discriminate].
      apply (Hstep _ H); [simpl; eauto | reflexivity].
Qed.

Lemma given_descrs_of_tuple_accepts (self : PyBoundArrayMethodObject)
    (items : list PyObject) (count : nat) :
  forall (i : Z) (acc : list (option PyArray_Descr)),
    0 <= i ->
    (Z.to_nat i + count <= length items)%nat ->
    (forall k item, (Z.to_nat i <= k < Z.to_nat i + count)%nat ->
       items !! k = Some item -> accepted_item self k item) ->
    given_descrs_of_tuple self items i count acc
    = Ok (acc ++ map descr_of_item (take count (drop (Z.to_nat i) items))).
Proof.
  induction count as [|count IH]; intros i acc Hi Hlen Hall; simpl.
  - now rewrite app_nil_r.
  - destruct (lookup_lt_is_Some_2 items (Z.to_nat i)) as [item Hitem]; [lia|].
    unfold PyTuple_GetItem. destruct (Z.ltb_spec i 0); [lia|].
    rewrite Hitem. simpl.
    pose proof (Hall (Z.to_nat i) item ltac:(lia) Hitem) as Hacc.
    rewrite (drop_S _ _ _ Hitem). simpl.
    replace (S (Z.to_nat i)) with (Z.to_nat (i + 1)) by lia.
    destruct item as [|d|a|addr]; simpl in Hacc; try contradiction.
    + destruct (Z.ltb_spec i (nin (method self))); [lia|].
      rewrite IH; [now rewrite <- app_assoc | lia | lia |].
      intros k item Hk. apply Hall. lia.
    + destruct Hacc as (bound & Hbound & Hexact).
      rewrite (load_Ok _ _ _ Hi Hbound). simpl. rewrite Hexact. simpl.
      rewrite IH; [now rewrite <- app_assoc | lia | lia |].
      intros k item Hk. apply Hall. lia.
Qed.

Lemma given_descrs_of_tuple_cases (self : PyBoundArrayMethodObject)
    (items : list PyObject) (count : nat) :
  forall (i : Z) (acc : list (option PyArray_Descr)),
    0 <= i ->
    (Z.to_nat i + count <= length items)%nat ->
    (Z.to_nat i + count <= length (dtypes self))%nat ->
    (exists given, given_descrs_of_tuple self items i count acc = Ok given)
    \/ (exists msg,
          given_descrs_of_tuple self items i count acc
          = Raise PyExc_TypeError msg).
Proof.
  induction count as [|count IH]; intros i acc Hi Hitems Hdtypes; simpl;
    [eauto|].
  destruct (lookup_lt_is_Some_2 items (Z.to_nat i)) as [item Hitem]; [lia|].
  destruct (lookup_lt_is_Some_2 (dtypes self) (Z.to_nat i)) as [bound Hbound];
    [lia|].
  unfold PyTuple_GetItem. destruct (Z.ltb_spec i 0); [lia|].
  rewrite Hitem. simpl.
  destruct item as [|d|a|addr]; eauto.
  - destruct (i <? nin (method self)); [eauto|]. apply IH; lia.
  - rewrite (load_Ok _ _ _ Hi Hbound). simpl.
    destruct (exact_instance d bound); simpl; [apply IH; lia | eauto].
Qed.

(** X12: the resolve-only entry point returns a value only for an argument
    that is exactly a tuple of [nin + nout] items, each an instance exactly
    of the class bound to its position, or [None] at an output position;
    and when the method is bound to [nin + nout] classes, every other
    argument is a [TypeError]. *)
Theorem resolve_only_argument_check
    (NewByteorder : PyArray_Descr -> option PyArray_Descr)
    (CommonDType :
       PyArray_DTypeMeta -> option PyArray_DTypeMeta ->
       option PyArray_DTypeMeta)
    (extern_resolver : Z -> resolver_fn)
    (self : PyBoundArrayMethodObject) (arg : PyArgument) :
  (forall res,
      boundarraymethod__resolve_descripors NewByteorder CommonDType
        extern_resolver self arg = Ok res ->
      accepted_tuple self arg)
  /\ (Z.of_nat (length (dtypes self))
      = nin (method self) + nout (method self) ->
      ~ accepted_tuple self arg ->
      exists msg,
        boundarraymethod__resolve_descripors NewByteorder CommonDType
          extern_resolver self arg = Raise PyExc_TypeError msg).
Proof.
  unfold boundarraymethod__resolve_descripors.
  destruct arg as [items|o].
  - destruct (Z.eqb_spec (Z.of_nat (length items))
                (nin (method self) + nout (method self))) as [Hlen|Hlen];
      simpl.
    + split.
      * intros res H. apply bind_Ok_inv in H as (given & Hgiven & _).
        apply given_descrs_of_tuple_Ok in Hgiven as [Hall _]; [|lia].
        exists items. split; [reflexivity|]. split; [exact Hlen|].
        intros k item Hk. apply Hall; [|exact Hk].
        apply lookup_lt_Some in Hk. lia.
      * intros Hdtypes Hbad.
        destruct (given_descrs_of_tuple_cases self items
                    (Z.to_nat (nin (method self) + nout (method self))) 0 [])
          as [[given Hgiven]|[msg Hmsg]]; try lia.
        -- destruct Hbad.
           apply given_descrs_of_tuple_Ok in Hgiven as [Hall _]; [|lia].
           exists items. split; [reflexivity|]. split; [exact Hlen|].
           intros k item Hk. apply Hall; [|exact Hk].
           apply lookup_lt_Some in Hk. lia.
        -- rewrite Hmsg. simpl. eauto.
    + split; [discriminate | eauto].
  - split; [discriminate | eauto].
Qed.

Lemma resolve_only_argument_check_witness :
  exists msg,
    boundarraymethod__resolve_descripors swapped_copy same_class_only
      no_extern_resolver bound_cast
      (PyTupleExact [Py_None; PyDescrObject Float32_descr])
    = Raise PyExc_TypeError msg.
Proof.
  apply (proj2 (resolve_only_argument_check swapped_copy same_class_only
                  no_extern_resolver bound_cast
                  (PyTupleExact [Py_None; PyDescrObject Float32_descr])));
    [reflexivity|].
  intros (items & [= <-] & _ & Hall).
  specialize (Hall 0%nat Py_None eq_refl). simpl in Hall. lia.
Defined.

(** X13: for an accepted tuple the entry point calls the resolver on the
    instances of the items, absent where the item is [None].  An error the
    resolver raises is handed on unchanged, and a negative level returned
    without an error is handed back as the pair of that level and [None],
    without any check against the declared level. *)
Theorem resolve_only_failure_outcomes
    (NewByteorder : PyArray_Descr -> option PyArray_Descr)
    (CommonDType :
       PyArray_DTypeMeta -> option PyArray_DTypeMeta ->
       option PyArray_DTypeMeta)
    (extern_resolver : Z -> resolver_fn)
    (self : PyBoundArrayMethodObject) (items : list PyObject) :
  accepted_tuple self (PyTupleExact items) ->
  (forall exc msg,
      call_resolve_descriptors NewByteorder CommonDType extern_resolver
        (resolve_descriptors (method self)) (method self) (dtypes self)
        (map descr_of_item items) = Raise exc msg ->
      boundarraymethod__resolve_descripors NewByteorder CommonDType
        extern_resolver self (PyTupleExact items) = Raise exc msg)
  /\ (forall level loop_descrs,
         call_resolve_descriptors NewByteorder CommonDType extern_resolver
           (resolve_descriptors (method self)) (method self) (dtypes self)
           (map descr_of_item items) = Ok (level, loop_descrs) ->
         level < 0 ->
         boundarraymethod__resolve_descripors NewByteorder CommonDType
           extern_resolver self (PyTupleExact items) = Ok (level, None)).
Proof.
  intros (items' & [= <-] & Hlen & Hall).
  assert (Hgiven :
    given_descrs_of_tuple self items 0
      (Z.to_nat (nin (method self) + nout (method self))) []
    = Ok (map descr_of_item items)).
  { rewrite given_descrs_of_tuple_accepts; try lia.
    - simpl. rewrite <- Hlen, Nat2Z.id, firstn_all. reflexivity.
    - intros k item _. apply Hall. }
  unfold boundarraymethod__resolve_descripors.
  rewrite Hlen, Z.eqb_refl. simpl. rewrite Hgiven. simpl.
  split.
  - intros exc msg ->. reflexivity.
  - intros level loop_descrs -> Hneg. simpl.
    destruct (Z.ltb_spec level 0); [reflexivity | lia].
Qed.

Lemma resolve_only_failure_outcomes_witness :
  boundarraymethod__resolve_descripors swapped_copy same_class_only
    refusing_resolver bound_overreaching
    (PyTupleExact [PyDescrObject Int64_descr; Py_None])
  = Ok (-1, None).
Proof.
  assert (Hacc : accepted_tuple bound_overreaching
                   (PyTupleExact [PyDescrObject Int64_descr; Py_None])).
  { exists [PyDescrObject Int64_descr; Py_None].
    split; [reflexivity|]. split; [reflexivity|].
    intros [|[|k]] item [= <-]; simpl.
    - exists (Some Int64DType). split; reflexivity.
    - lia. }
  apply (proj2 (resolve_only_failure_outcomes swapped_copy same_class_only
                  refusing_resolver bound_overreaching
                  [PyDescrObject Int64_descr; Py_None] Hacc) (-1) []);
    [reflexivity | lia].
Defined.

Lemma any_parametric_defined (dtypes : list (option PyArray_DTypeMeta))
    (count : nat) :
  forall i : Z,
    (forall j, i <= j < i + Z.of_nat count -> class_given dtypes j) ->
    exists b, any_parametric dtypes i count = Ok b.
Proof.
  induction count as [|count IH]; intros i H; simpl; [eauto|].
  destruct (H i ltac:(lia)) as [dtype ->]. simpl.
  destruct (parametric dtype); [eauto|].
  apply IH. intros j Hj. apply H. lia.
Qed.

Lemma check_casting_plain (meth : PyArrayMethodObject) (b : bool) :
  is_casting_level (casting meth) = true ->
  0 <= casting meth /\ check_casting meth (casting meth) b = Ok 0.
Proof.
  unfold is_casting_level, check_casting. rewrite !orb_true_iff, !Z.eqb_eq.
  intros [[[[-> | ->] | ->] | ->] | ->]; (split; [discriminate|]);
    destruct b; reflexivity.
Qed.

(** X14: the resolve-only entry point on a method that left the constructor
    with the built-in resolver and a declared level without view flag.
    Given, for every slot, a canonical instance of the class bound to it,
    it returns the declared level and those very instances: none of the
    consistency checks of the entry point fails. *)
Theorem resolve_only_built_identity
    (NewByteorder : PyArray_Descr -> option PyArray_Descr)
    (CommonDType :
       PyArray_DTypeMeta -> option PyArray_DTypeMeta ->
       option PyArray_DTypeMeta)
    (extern_resolver : Z -> resolver_fn)
    (spec : PyArrayMethod_Spec) (private : Z)
    (self : PyBoundArrayMethodObject) (ds : list PyArray_Descr) :
  PyArrayMethod_FromSpec_int spec private = Ok self ->
  resolve_descriptors (method self) = Some default_resolve_descriptors_ptr ->
  is_casting_level (casting (method self)) = true ->
  Forall2 supplied_canonical (dtypes self) (map Some ds) ->
  boundarraymethod__resolve_descripors NewByteorder CommonDType
    extern_resolver self (PyTupleExact (map PyDescrObject ds))
  = Ok (casting (method self), Some (map Some ds)).
Proof.
  intros Hself Hres Hlevel Hall.
  destruct (FromSpec_fields _ _ _ Hself) as (Hn & Ho & _ & _ & Hd).
  destruct (FromSpec_Ok_steps _ _ _ Hself) as (Hvalid & _).
  destruct (validate_spec_Ok_arity _ _ Hvalid) as [(Hin & Hout & _) _].
  pose proof (validate_spec_length _ _ Hvalid) as Hspec_len.
  set (n := Z.to_nat (nin (method self) + nout (method self))).
  assert (Hlen : length (dtypes self) = n).
  { subst n. rewrite Hd, Hn, Ho, length_take. lia. }
  pose proof (Forall2_length _ _ _ Hall) as Hlen2.
  rewrite length_map, Hlen in Hlen2.
  assert (Htake : take n (map Some ds) = map Some ds)
    by (apply take_ge; rewrite length_map; lia).
  assert (Hgiven :
    given_descrs_of_tuple self (map PyDescrObject ds) 0 n [] = Ok (map Some ds)).
  { rewrite given_descrs_of_tuple_accepts;
      [| lia | rewrite length_map; simpl; lia |].
    - change (Z.to_nat 0) with 0%nat. rewrite drop_0.
      rewrite take_ge by (rewrite length_map; lia).
      rewrite map_map. reflexivity.
    - intros k item Hk Hitem.
      change (map PyDescrObject ds) with (PyDescrObject <$> ds) in Hitem.
      rewrite list_lookup_fmap in Hitem.
      destruct (ds !! k) as [d|] eqn:Hdk; [|discriminate].
      injection Hitem as <-. simpl.
      destruct (Forall2_lookup_r _ _ _ k (Some d) Hall)
        as (bound & Hbound & c & d' & -> & [= <-] & Htype & _).
      { change (map Some ds) with (Some <$> ds).
        now rewrite list_lookup_fmap, Hdk. }
      exists (Some c). split; [exact Hbound|]. simpl. now apply Z.eqb_eq. }
  assert (Hresolved :
    default_resolve_descriptors NewByteorder CommonDType (method self)
      (dtypes self) (map Some ds)
    = Ok (casting (method self), map Some ds)).
  { unfold default_resolve_descriptors. fold n.
    rewrite (resolve_defined_identity NewByteorder _ _ Hall)
      by (simpl; lia).
    change (Z.to_nat 0) with 0%nat. rewrite drop_0, Htake. reflexivity. }
  assert (Hread : read_array (map Some ds) 0 n = Ok (map Some ds)).
  { rewrite read_array_take by (rewrite ?length_map; simpl; lia).
    change (Z.to_nat 0) with 0%nat. rewrite drop_0, Htake. reflexivity. }
  destruct (any_parametric_defined (dtypes self) n 0) as [b Hpar].
  { intros j Hj. apply (FromSpec_classes_given _ _ _ Hself). lia. }
  destruct (check_casting_plain (method self) b Hlevel) as [Hpos Hcheck].
  unfold boundarraymethod__resolve_descripors. fold n.
  rewrite length_map.
  replace (Z.of_nat (length ds) =? nin (method self) + nout (method self))
    with true by (symmetry; apply Z.eqb_eq; lia).
  simpl. rewrite Hgiven. simpl. rewrite Hres. simpl. rewrite Hresolved.
  simpl. destruct (Z.ltb_spec (casting (method self)) 0); [lia|].
  rewrite Hread. simpl. rewrite Hpar. simpl. rewrite Hcheck. reflexivity.
Qed.

Lemma resolve_only_built_identity_witness :
  exists self,
    PyArrayMethod_FromSpec_int cast_spec 0 = Ok self
    /\ boundarraymethod__resolve_descripors swapped_copy same_class_only
         no_extern_resolver self
         (PyTupleExact (map PyDescrObject [Int64_descr; Float32_descr]))
       = Ok (casting (method self),
             Some (map Some [Int64_descr; Float32_descr])).
Proof.
  eexists. split; [reflexivity|].
  apply (resolve_only_built_identity swapped_copy same_class_only
           no_extern_resolver cast_spec 0 _ [Int64_descr; Float32_descr]
           eq_refl eq_refl eq_refl).
  repeat constructor.
  - exists Int64DType, Int64_descr. repeat split; reflexivity.
  - exists Float32DType, Float32_descr. repeat split; reflexivity.
Defined.

(** ** More on the direct strided call *)

Lemma gathered_snoc (pre : list PyArrayObject) (arr : PyArrayObject) :
  (forall first, pre !! 0%nat = Some first -> arr_size arr = arr_size first) ->
  arr_strides arr <> [] ->
  forall stride, load (arr_strides arr) 0 = Ok stride ->
  {| call_descrs := call_descrs (gathered pre) ++ [Some (arr_descr arr)];
     call_args := call_args (gathered pre) ++ [arr_bytes arr];
     call_strides := call_strides (gathered pre) ++ [stride];
     call_length := if Z.of_nat (length pre) =? 0 then arr_size arr
                    else call_length (gathered pre);
     call_aligned := Z.land (call_aligned (gathered pre))
                       (if arr_aligned arr then 1 else 0) |}
  = gathered (pre ++ [arr]).
Proof.
  intros Hsize Hstrides stride Hstride. unfold gathered. simpl.
  rewrite !map_app, forallb_app. simpl.
  assert (Hs : stride = stride_of arr).
  { unfold stride_of. destruct (arr_strides arr) as [|s rest]; [contradiction|].
    now injection Hstride as <-. }
  subst stride. f_equal.
  - destruct pre as [|first pre]; simpl; [reflexivity|].
    destruct (Z.eqb_spec (Z.pos (Pos.of_succ_nat (length pre))) 0);
      [lia | reflexivity].
  - destruct (forallb arr_aligned pre), (arr_aligned arr); reflexivity.
Qed.

Lemma arrays_of_tuple_accepts (self : PyBoundArrayMethodObject) (len : Z)
    (rest : list PyArrayObject) :
  forall pre : list PyArrayObject,
    (forall k arr, (pre ++ rest) !! k = Some arr ->
       accepted_array self len k arr) ->
    arrays_of_tuple self (map PyArrayExact (pre ++ rest))
      (Z.of_nat (length pre)) (length rest) (gathered pre)
    = Ok (gathered (pre ++ rest)).
Proof.
  induction rest as [|arr rest IH]; intros pre Hall.
  - simpl. now rewrite app_nil_r.
  - assert (Harr : (pre ++ arr :: rest) !! length pre = Some arr)
      by (rewrite lookup_app_r, Nat.sub_diag by lia; reflexivity).
    destruct (Hall _ _ Harr)
      as ((bound & Hbound & Hexact) & Hndim & Hsize & Hwrite & Hstrides).
    assert (Hfirst : forall first, pre !! 0%nat = Some first ->
                       arr_size arr = arr_size first).
    { intros first Hf.
      assert (Hf' : (pre ++ arr :: rest) !! 0%nat = Some first)
        by (now apply lookup_app_l_Some).
      destruct (Hall _ _ Hf') as (_ & _ & Hs & _). congruence. }
    assert (Hitem : PyTuple_GetItem (map PyArrayExact (pre ++ arr :: rest))
                      (Z.of_nat (length pre)) = Ok (PyArrayExact arr)).
    { unfold PyTuple_GetItem.
      destruct (Z.ltb_spec (Z.of_nat (length pre)) 0); [lia|].
      rewrite Nat2Z.id.
      change (map PyArrayExact (pre ++ arr :: rest))
        with (PyArrayExact <$> (pre ++ arr :: rest)).
      now rewrite list_lookup_fmap, Harr. }
    assert (Hload : load (dtypes self) (Z.of_nat (length pre)) = Ok bound)
      by (apply load_Ok; [lia | now rewrite Nat2Z.id]).
    assert (Hlen : negb (Z.of_nat (length pre) =? 0)
                   && negb (arr_size arr =? call_length (gathered pre))
                   = false).
    { destruct pre as [|first pre]; simpl; [reflexivity|].
      rewrite (Hfirst first eq_refl), Z.eqb_refl. reflexivity. }
    assert (Hw : (if Z.of_nat (length pre) >=? nout (method self)
                  then PyArray_FailUnlessWriteable arr
                         "_simple_strided_call() output"
                  else Ok 0) = Ok 0).
    { destruct (Z.geb_spec (Z.of_nat (length pre)) (nout (method self)));
        [|reflexivity].
      unfold PyArray_FailUnlessWriteable. now rewrite Hwrite by lia. }
    destruct (arr_strides arr) as [|stride others] eqn:Es; [contradiction|].
    assert (Hs : load (arr_strides arr) 0 = Ok stride) by (now rewrite Es).
    rewrite <- Es in Hstrides.
    pose proof (gathered_snoc pre arr Hfirst Hstrides stride Hs) as Hsnoc.
    remember (gathered pre) as acc eqn:Eacc.
    remember (gathered (pre ++ [arr])) as acc' eqn:Eacc'.
    cbn [arrays_of_tuple length].
    rewrite Hitem. cbn [bind]. rewrite Hload. cbn [bind].
    rewrite Hexact, Hndim. cbn [negb Z.eqb Pos.eqb].
    rewrite Hlen, Hw. cbn [bind]. rewrite Es in Hs |- *. rewrite Hs.
    cbn [bind]. rewrite Hsnoc. subst acc'.
    replace (Z.of_nat (length pre) + 1)
      with (Z.of_nat (length (pre ++ [arr])))
      by (rewrite length_app; simpl; lia).
    replace (pre ++ arr :: rest) with ((pre ++ [arr]) ++ rest)
      by (now rewrite <- app_assoc).
    apply IH. intros k a Hk. apply Hall.
    now rewrite <- app_assoc in Hk.
Qed.

Lemma dtypes_were_adapted_same (ds os : list PyArray_Descr) (count : nat) :
  forall (i : Z) (b : bool),
    0 <= i ->
    (Z.to_nat i + count <= length ds)%nat ->
    (Z.to_nat i + count <= length os)%nat ->
    dtypes_were_adapted (map Some ds) (map Some os) i count b
    = Ok (b || negb (same_objects (take count (drop (Z.to_nat i) ds))
                       (take count (drop (Z.to_nat i) os)))).
Proof.
  induction count as [|count IH]; intros i b Hi Hd Ho; simpl.
  - unfold same_objects. simpl. now rewrite orb_false_r.
  - destruct (lookup_lt_is_Some_2 ds (Z.to_nat i)) as [d Ed]; [lia|].
    destruct (lookup_lt_is_Some_2 os (Z.to_nat i)) as [o Eo]; [lia|].
    rewrite (load_Ok (map Some ds) i (Some d) Hi)
      by (change (map Some ds) with (Some <$> ds);
          now rewrite list_lookup_fmap, Ed).
    simpl.
    rewrite (load_Ok (map Some os) i (Some o) Hi)
      by (change (map Some os) with (Some <$> os);
          now rewrite list_lookup_fmap, Eo).
    simpl. rewrite IH by lia.
    rewrite (drop_S _ _ _ Ed), (drop_S _ _ _ Eo).
    replace (Z.to_nat (i + 1)) with (S (Z.to_nat i)) by lia.
    unfold same_objects. simpl.
    destruct b, (descr_addr d =? descr_addr o); reflexivity.
Qed.

Lemma arrays_of_tuple_gathered (self : PyBoundArrayMethodObject) (len : Z)
    (arrs : list PyArrayObject) :
  Z.of_nat (length arrs) = nin (method self) + nout (method self) ->
  (forall k arr, arrs !! k = Some arr -> accepted_array self len k arr) ->
  arrays_of_tuple self (map PyArrayExact arrs) 0
    (Z.to_nat (nin (method self) + nout (method self)))
    {| call_descrs := []; call_args := []; call_strides := [];
       call_length := -1; call_aligned := 1 |}
  = Ok (gathered arrs).
Proof.
  intros Hlen Hall. rewrite <- Hlen, Nat2Z.id.
  exact (arrays_of_tuple_accepts self len arrs [] Hall).
Qed.

Lemma same_objects_refl (ds : list PyArray_Descr) : same_objects ds ds = true.
Proof.
  unfold same_objects. induction ds as [|d ds IH]; simpl; [reflexivity|].
  now rewrite Z.eqb_refl.
Qed.

Lemma is_contiguous_gathered (rest : list PyArrayObject) :
  forall pre : list PyArrayObject,
    is_contiguous_from (map stride_of (pre ++ rest))
      (map (fun arr => Some (arr_descr arr)) (pre ++ rest))
      (Z.of_nat (length pre)) (length rest)
    = Ok (if contiguous_arrays rest then 1 else 0).
Proof.
  induction rest as [|arr rest IH]; intros pre; [reflexivity|].
  assert (Harr : (pre ++ arr :: rest) !! length pre = Some arr)
    by (rewrite lookup_app_r, Nat.sub_diag by lia; reflexivity).
  cbn [is_contiguous_from length].
  rewrite (load_Ok (map stride_of (pre ++ arr :: rest))
             (Z.of_nat (length pre)) (stride_of arr))
    by (try lia; rewrite Nat2Z.id;
        change (map stride_of (pre ++ arr :: rest))
          with (stride_of <$> (pre ++ arr :: rest));
        now rewrite list_lookup_fmap, Harr).
  cbn [bind].
  rewrite (load_Ok (map (fun a => Some (arr_descr a)) (pre ++ arr :: rest))
             (Z.of_nat (length pre)) (Some (arr_descr arr)))
    by (try lia; rewrite Nat2Z.id;
        change (map (fun a => Some (arr_descr a)) (pre ++ arr :: rest))
          with ((fun a => Some (arr_descr a)) <$> (pre ++ arr :: rest));
        now rewrite list_lookup_fmap, Harr).
  cbn [bind deref]. unfold contiguous_arrays. cbn [forallb].
  destruct (stride_of arr =? elsize (arr_descr arr)); [|reflexivity].
  cbn [negb andb].
  replace (Z.of_nat (length pre) + 1)
    with (Z.of_nat (length (pre ++ [arr])))
    by (rewrite length_app; simpl; lia).
  replace (pre ++ arr :: rest) with ((pre ++ [arr]) ++ rest)
    by (now rewrite <- app_assoc).
  apply IH.
Qed.

Lemma default_selector_gathered (self : PyBoundArrayMethodObject)
    (arrs : list PyArrayObject) (move_references : Z) :
  Z.of_nat (length arrs) = nin (method self) + nout (method self) ->
  npy_default_get_strided_loop (context_of self arrs)
    (if forallb arr_aligned arrs then 1 else 0) move_references
    (map stride_of arrs)
  = Ok {| ret := 0;
          out_loop := loop_for (method self) (forallb arr_aligned arrs)
                        (contiguous_arrays arrs);
          out_transferdata := None;
          out_flags := Z.land (flags (method self)) NPY_METH_RUNTIME_FLAGS |}.
Proof.
  intros Hlen. unfold npy_default_get_strided_loop, is_contiguous, context_of.
  cbn [descriptors ctx_method]. rewrite <- Hlen, Nat2Z.id.
  pose proof (is_contiguous_gathered arrs []) as Hc.
  cbn [app length] in Hc. change (Z.of_nat 0) with 0 in Hc.
  rewrite Hc. unfold loop_for.
  destruct (forallb arr_aligned arrs), (contiguous_arrays arrs);
    cbn [negb Z.eqb bind];
    try destruct (is_null (contiguous_loop (method self)));
    try destruct (is_null (unaligned_contiguous_loop (method self)));
    reflexivity.
Qed.

(** X15: the direct strided call refuses unaligned buffers before it
    resolves anything.  Given arrays that pass the checks of the first
    loop, one of which is not aligned, on a method whose flags do not say
    that it supports unaligned buffers, the call raises a [ValueError],
    whatever the resolver of the method is. *)
Theorem strided_call_unaligned_rejected
    (NewByteorder : PyArray_Descr -> option PyArray_Descr)
    (CommonDType :
       PyArray_DTypeMeta -> option PyArray_DTypeMeta ->
       option PyArray_DTypeMeta)
    (extern_resolver : Z -> resolver_fn) (extern_selector : Z -> get_loop_fn)
    (world : Type)
    (extern_loop :
       Z -> PyArrayMethod_Context -> list Z -> Z -> list Z -> option Z ->
       world -> outcome (Z * world))
    (self : PyBoundArrayMethodObject) (arrs : list PyArrayObject) (len : Z)
    (w : world) :
  Z.of_nat (length arrs) = nin (method self) + nout (method self) ->
  (forall k arr, arrs !! k = Some arr -> accepted_array self len k arr) ->
  forallb arr_aligned arrs = false ->
  Z.land (flags (method self)) NPY_METH_SUPPORTS_UNALIGNED = 0 ->
  boundarraymethod__simple_strided_call NewByteorder CommonDType
    extern_resolver extern_selector world extern_loop self
    (PyTupleExact (map PyArrayExact arrs)) w
  = Raise PyExc_ValueError "method does not support unaligned input.".
Proof.
  intros Hlen Hall Hun Hflag. unfold boundarraymethod__simple_strided_call.
  rewrite length_map, Hlen, Z.eqb_refl. cbn [negb].
  rewrite (arrays_of_tuple_gathered self len arrs Hlen Hall). cbn [bind].
  unfold gathered at 1. cbn [call_aligned]. rewrite Hun, Hflag.
  reflexivity.
Qed.

Lemma strided_call_unaligned_rejected_witness :
  simple_strided_call (int64_method 1 1)
    (PyTupleExact
       (map PyArrayExact [unaligned_int64_array; int64_array 8192 true]))
  = Raise PyExc_ValueError "method does not support unaligned input.".
Proof.
  apply (strided_call_unaligned_rejected swapped_copy same_class_only
           no_extern_resolver no_extern_selector unit idle_loop
           (int64_method 1 1)
           [unaligned_int64_array; int64_array 8192 true] 4 tt);
    try reflexivity.
  intros [|[|k]] arr Hk; try discriminate Hk;
    injection Hk as <-;
    (split; [exists (Some Int64DType); split; reflexivity|]);
    repeat split; try reflexivity; try (intros _; reflexivity);
    discriminate.
Defined.

(** X16: the direct strided call runs no loop when the resolver adapts an
    instance.  Given arrays that pass the checks of the first loop, and
    buffers the method can take, when the resolver of the method succeeds
    with a level that is not negative and hands back, for some argument, an
    instance that is another object than the one of the array, the call
    raises a [TypeError]. *)
Theorem strided_call_refuses_adapted_instances
    (NewByteorder : PyArray_Descr -> option PyArray_Descr)
    (CommonDType :
       PyArray_DTypeMeta -> option PyArray_DTypeMeta ->
       option PyArray_DTypeMeta)
    (extern_resolver : Z -> resolver_fn) (extern_selector : Z -> get_loop_fn)
    (world : Type)
    (extern_loop :
       Z -> PyArrayMethod_Context -> list Z -> Z -> list Z -> option Z ->
       world -> outcome (Z * world))
    (self : PyBoundArrayMethodObject) (arrs : list PyArrayObject) (len : Z)
    (level : Z) (outs : list PyArray_Descr) (w : world) :
  Z.of_nat (length arrs) = nin (method self) + nout (method self) ->
  (forall k arr, arrs !! k = Some arr -> accepted_array self len k arr) ->
  forallb arr_aligned arrs = true
  \/ Z.land (flags (method self)) NPY_METH_SUPPORTS_UNALIGNED <> 0 ->
  call_resolve_descriptors NewByteorder CommonDType extern_resolver
    (resolve_descriptors (method self)) (method self) (dtypes self)
    (map (fun arr => Some (arr_descr arr)) arrs)
  = Ok (level, map Some outs) ->
  0 <= level ->
  length outs = length arrs ->
  same_objects (map arr_descr arrs) outs = false ->
  boundarraymethod__simple_strided_call NewByteorder CommonDType
    extern_resolver extern_selector world extern_loop self
    (PyTupleExact (map PyArrayExact arrs)) w
  = Raise PyExc_TypeError
      "_simple_strided_call(): requires dtypes to not require a cast (must match exactly with `_resolve_descriptors()`).".
Proof.
  intros Hlen Hall Hbuf Hres Hlevel Houts Hdiff.
  unfold boundarraymethod__simple_strided_call.
  rewrite length_map, Hlen, Z.eqb_refl. cbn [negb].
  rewrite (arrays_of_tuple_gathered self len arrs Hlen Hall). cbn [bind].
  unfold gathered. cbn [call_aligned call_descrs].
  replace (((if forallb arr_aligned arrs then 1 else 0) =? 0)
          && (Z.land (flags (method self)) NPY_METH_SUPPORTS_UNALIGNED =? 0))
    with false.
  2:{ destruct Hbuf as [-> | Hflag]; [reflexivity|].
      destruct (Z.eqb_spec
                  (Z.land (flags (method self)) NPY_METH_SUPPORTS_UNALIGNED)
                  0); [contradiction|].
      now rewrite andb_false_r. }
  rewrite Hres.
  destruct (Z.ltb_spec level 0); [lia|].
  rewrite <- Hlen, Nat2Z.id.
  replace (map (fun arr => Some (arr_descr arr)) arrs)
    with (map Some (map arr_descr arrs)) by (now rewrite map_map).
  rewrite (dtypes_were_adapted_same (map arr_descr arrs) outs (length arrs)
             0 false)
    by (try lia; rewrite ?length_map; simpl; lia).
  change (Z.to_nat 0) with 0%nat. rewrite !drop_0.
  rewrite !take_ge by (rewrite ?length_map; lia).
  rewrite Hdiff. reflexivity.
Qed.

Lemma strided_call_refuses_adapted_instances_witness :
  boundarraymethod__simple_strided_call swapped_copy same_class_only
    copying_resolver no_extern_selector unit idle_loop int64_copying
    (PyTupleExact
       (map PyArrayExact
          [int64_array 4096 true; int64_array 8192 true;
           int64_array 12288 true])) tt
  = Raise PyExc_TypeError
      "_simple_strided_call(): requires dtypes to not require a cast (must match exactly with `_resolve_descriptors()`).".
Proof.
  apply (strided_call_refuses_adapted_instances swapped_copy same_class_only
           copying_resolver no_extern_selector unit idle_loop int64_copying
           [int64_array 4096 true; int64_array 8192 true;
            int64_array 12288 true] 4 NPY_NO_CASTING
           [{| descr_addr := descr_addr Int64_descr + 1;
               ob_type := ob_type Int64_descr; native_byteorder := true;
               elsize := elsize Int64_descr |};
            {| descr_addr := descr_addr Int64_descr + 1;
               ob_type := ob_type Int64_descr; native_byteorder := true;
               elsize := elsize Int64_descr |};
            {| descr_addr := descr_addr Int64_descr + 1;
               ob_type := ob_type Int64_descr; native_byteorder := true;
               elsize := elsize Int64_descr |}]);
    try reflexivity; try (left; reflexivity);
    try (unfold NPY_NO_CASTING; lia).
  intros [|[|[|k]]] arr Hk; try discriminate Hk;
    injection Hk as <-;
    (split; [exists (Some Int64DType); split; reflexivity|]);
    repeat split; try reflexivity; try (intros _; reflexivity);
    discriminate.
Defined.

(** The direct strided call through the built-in resolver and the built-in
    selector. *)
Lemma strided_call_builtin_loop
    (NewByteorder : PyArray_Descr -> option PyArray_Descr)
    (CommonDType :
       PyArray_DTypeMeta -> option PyArray_DTypeMeta ->
       option PyArray_DTypeMeta)
    (extern_resolver : Z -> resolver_fn) (extern_selector : Z -> get_loop_fn)
    (world : Type)
    (extern_loop :
       Z -> PyArrayMethod_Context -> list Z -> Z -> list Z -> option Z ->
       world -> outcome (Z * world))
    (self : PyBoundArrayMethodObject) (arrs : list PyArrayObject) (len : Z)
    (w : world) :
  resolve_descriptors (method self) = Some default_resolve_descriptors_ptr ->
  get_strided_loop (method self) = Some npy_default_get_strided_loop_ptr ->
  0 <= casting (method self) ->
  length (dtypes self) = length arrs ->
  Z.of_nat (length arrs) = nin (method self) + nout (method self) ->
  (forall k arr, arrs !! k = Some arr ->
     accepted_array self len k arr /\ native_byteorder (arr_descr arr) = true) ->
  forallb arr_aligned arrs = true
  \/ Z.land (flags (method self)) NPY_METH_SUPPORTS_UNALIGNED <> 0 ->
  boundarraymethod__simple_strided_call NewByteorder CommonDType
    extern_resolver extern_selector world extern_loop self
    (PyTupleExact (map PyArrayExact arrs)) w
  = loop_result
      (call_strided_loop world extern_loop
         (loop_for (method self) (forallb arr_aligned arrs)
            (contiguous_arrays arrs))
         (context_of self arrs) (map arr_bytes arrs)
         (call_length (gathered arrs)) (map stride_of arrs) None w).
Proof.
  intros Hres Hsel Hlevel Hdt Hlen Hall Hbuf.
  assert (Hacc : forall k arr, arrs !! k = Some arr ->
                   accepted_array self len k arr)
    by (intros k arr Hk; exact (proj1 (Hall k arr Hk))).
  assert (Hsup : Forall2 supplied_canonical (dtypes self)
                   (map (fun arr => Some (arr_descr arr)) arrs)).
  { apply Forall2_same_length_lookup_2; [now rewrite length_map|].
    intros k bound p Hb Hp.
    change (map (fun arr => Some (arr_descr arr)) arrs)
      with ((fun arr => Some (arr_descr arr)) <$> arrs) in Hp.
    rewrite list_lookup_fmap in Hp.
    destruct (arrs !! k) as [arr|] eqn:Ek; [|discriminate Hp].
    injection Hp as <-.
    destruct (Hall k arr Ek) as (((bound' & Hb' & Hexact) & _) & Hnbo).
    rewrite Hb in Hb'. injection Hb' as <-.
    destruct bound as [c|]; [|discriminate Hexact].
    exists c, (arr_descr arr). repeat split; auto.
    now apply Z.eqb_eq. }
  assert (Hgiven : forall j,
             0 <= j < nin (method self) + nout (method self) ->
             class_given (dtypes self) j).
  { intros j Hj.
    destruct (lookup_lt_is_Some_2 (dtypes self) (Z.to_nat j)) as [p Hp];
      [lia|].
    destruct (Forall2_lookup_l _ _ _ _ _ Hsup Hp)
      as (q & _ & c & d & -> & _).
    exists c. apply load_Ok; [lia | exact Hp]. }
  unfold boundarraymethod__simple_strided_call.
  rewrite length_map, Hlen, Z.eqb_refl. cbn [negb].
  rewrite (arrays_of_tuple_gathered self len arrs Hlen Hacc). cbn [bind].
  replace ((call_aligned (gathered arrs) =? 0)
          && (Z.land (flags (method self)) NPY_METH_SUPPORTS_UNALIGNED =? 0))
    with false.
  2:{ unfold gathered. cbn [call_aligned].
      destruct Hbuf as [-> | Hflag]; [reflexivity|].
      destruct (Z.eqb_spec
                  (Z.land (flags (method self)) NPY_METH_SUPPORTS_UNALIGNED)
                  0); [contradiction|].
      now rewrite andb_false_r. }
  rewrite Hres, Hsel. cbn [call_resolve_descriptors call_get_strided_loop].
  rewrite (default_resolver_all_given NewByteorder CommonDType _ _ _ Hgiven).
  unfold gathered at 1. cbn [call_descrs].
  rewrite (resolve_defined_identity NewByteorder _ _ Hsup) by (simpl; lia).
  cbn [bind fst app]. change (Z.to_nat 0) with 0%nat. rewrite drop_0.
  rewrite take_ge by (rewrite length_map; lia).
  destruct (Z.ltb_spec (casting (method self)) 0); [lia|].
  unfold gathered at 1. cbn [call_descrs].
  assert (Hmm : map (fun arr => Some (arr_descr arr)) arrs
                = map Some (map arr_descr arrs)) by (now rewrite map_map).
  rewrite Hmm at 1 2.
  rewrite (dtypes_were_adapted_same (map arr_descr arrs) (map arr_descr arrs)
             (Z.to_nat (nin (method self) + nout (method self))) 0 false)
    by (try lia; rewrite ?length_map; simpl; lia).
  rewrite same_objects_refl. cbn [orb negb bind].
  unfold gathered at 1 2 3 4 5. cbn [call_descrs call_aligned call_strides
                                      call_args].
  pose proof (default_selector_gathered self arrs 0 Hlen) as Hg.
  unfold context_of in Hg |- *. rewrite Hg. cbn [bind ret out_loop
                                                   out_transferdata].
  destruct (Z.ltb_spec 0 0); [lia|].
  unfold loop_result.
  destruct (call_strided_loop world extern_loop _ _ _ _ _ _ w)
    as [[res w']| |]; reflexivity.
Qed.

(** X17: a direct strided call through the built-in resolver and the
    built-in selector is one call of one loop of the method.  Given, for a
    method bound to as many classes as it has arguments and declared with a
    level that is not negative, arrays that pass the checks of the first
    loop, with canonical instances and buffers the method can take, the
    call invokes once the loop the method has for the alignment and the
    contiguity of the arrays, on their data pointers, the length of the
    first array, their strides and null auxiliary data; it returns [None]
    when that loop returns a value that is not negative and fails
    otherwise. *)
Theorem strided_call_runs_selected_loop
    (NewByteorder : PyArray_Descr -> option PyArray_Descr)
    (CommonDType :
       PyArray_DTypeMeta -> option PyArray_DTypeMeta ->
       option PyArray_DTypeMeta)
    (extern_resolver : Z -> resolver_fn) (extern_selector : Z -> get_loop_fn)
    (world : Type)
    (extern_loop :
       Z -> PyArrayMethod_Context -> list Z -> Z -> list Z -> option Z ->
       world -> outcome (Z * world))
    (self : PyBoundArrayMethodObject) (arrs : list PyArrayObject) (len : Z)
    (w : world) :
  resolve_descriptors (method self) = Some default_resolve_descriptors_ptr ->
  get_strided_loop (method self) = Some npy_default_get_strided_loop_ptr ->
  0 <= casting (method self) ->
  length (dtypes self) = length arrs ->
  Z.of_nat (length arrs) = nin (method self) + nout (method self) ->
  (forall k arr, arrs !! k = Some arr ->
     accepted_array self len k arr /\ native_byteorder (arr_descr arr) = true) ->
  forallb arr_aligned arrs = true
  \/ Z.land (flags (method self)) NPY_METH_SUPPORTS_UNALIGNED <> 0 ->
  boundarraymethod__simple_strided_call NewByteorder CommonDType
    extern_resolver extern_selector world extern_loop self
    (PyTupleExact (map PyArrayExact arrs)) w
  = loop_result
      (call_strided_loop world extern_loop
         (loop_for (method self) (forallb arr_aligned arrs)
            (contiguous_arrays arrs))
         (context_of self arrs) (map arr_bytes arrs)
         (call_length (gathered arrs)) (map stride_of arrs) None w).
Proof.
  intros Hres Hsel Hlevel Hdt Hlen Hall Hbuf.
  now apply (strided_call_builtin_loop NewByteorder CommonDType
               extern_resolver extern_selector world extern_loop self arrs
               len w).
Qed.

Lemma strided_call_runs_selected_loop_witness :
  simple_strided_call (int64_method 2 1)
    (PyTupleExact
       (map PyArrayExact [int64_array 4096 true; int64_array 8192 true;
             int64_array 12288 true]))
  = loop_result
      (call_strided_loop unit idle_loop
         (loop_for (method (int64_method 2 1))
            (forallb arr_aligned
               [int64_array 4096 true; int64_array 8192 true;
             int64_array 12288 true])
            (contiguous_arrays
               [int64_array 4096 true; int64_array 8192 true;
             int64_array 12288 true]))
         (context_of (int64_method 2 1)
            [int64_array 4096 true; int64_array 8192 true;
             int64_array 12288 true])
         (map arr_bytes [int64_array 4096 true; int64_array 8192 true;
             int64_array 12288 true])
         (call_length
            (gathered [int64_array 4096 true; int64_array 8192 true;
             int64_array 12288 true]))
         (map stride_of [int64_array 4096 true; int64_array 8192 true;
             int64_array 12288 true])
         None tt).
Proof.
  apply (strided_call_runs_selected_loop swapped_copy same_class_only
           no_extern_resolver no_extern_selector unit idle_loop
           (int64_method 2 1)
           [int64_array 4096 true; int64_array 8192 true;
             int64_array 12288 true] 4 tt);
    try reflexivity; try (left; reflexivity);
    try (unfold NPY_NO_CASTING; simpl; lia).
  intros [|[|[|k]]] arr Hk; try discriminate Hk;
    injection Hk as <-;
    (split; [|reflexivity]);
    (split; [exists (Some Int64DType); split; reflexivity|]);
    repeat split; try reflexivity; try (intros _; reflexivity);
    discriminate.
Defined.

(** ** More on the masked loop *)

Section MaskedGeneral.

Variable world : Type.
Variable read_char : world -> Z -> Z.
Variable extern_strided_loop :
  Z -> PyArrayMethod_Context -> list Z -> Z -> list Z -> option Z ->
  world -> outcome (Z * world).

(** A scan steps over at most [count] bytes. *)
Lemma npy_memchr_scan_bounds (w : world) (needle stride invert : Z)
    (count : nat) :
  forall p subloopsize : Z,
    subloopsize
    <= snd (npy_memchr_scan world read_char w p needle stride invert count
              subloopsize)
    <= subloopsize + Z.of_nat count.
Proof.
  induction count as [|count IH]; intros p subloopsize; simpl; [lia|].
  destruct (if invert =? 0 then negb (read_char w p =? needle)
            else read_char w p =? needle); simpl; [|lia].
  specialize (IH (p + stride) (subloopsize + 1)). lia.
Qed.

(** A scan over bytes that all are to be stepped over goes to the end. *)
Lemma npy_memchr_scan_all (w : world) (needle stride invert : Z)
    (count : nat) :
  forall (p subloopsize : Z),
    (forall k, 0 <= k < Z.of_nat count ->
       (if invert =? 0 then negb (read_char w (p + k * stride) =? needle)
        else read_char w (p + k * stride) =? needle) = true) ->
    npy_memchr_scan world read_char w p needle stride invert count subloopsize
    = (p + Z.of_nat count * stride, subloopsize + Z.of_nat count).
Proof.
  induction count as [|count IH]; intros p subloopsize Hall.
  - simpl. f_equal; lia.
  - cbn [npy_memchr_scan].
    pose proof (Hall 0 ltac:(lia)) as H0.
    replace (p + 0 * stride) with p in H0 by lia. rewrite H0.
    rewrite IH.
    + f_equal; lia.
    + intros k Hk.
      replace (p + stride + k * stride) with (p + (k + 1) * stride) by lia.
      apply Hall. lia.
Qed.

(** A scan stops at the first byte that is not to be stepped over. *)
Lemma npy_memchr_scan_prefix (w : world) (needle stride invert : Z)
    (a : nat) :
  forall (count : nat) (p subloopsize : Z),
    (a < count)%nat ->
    (forall k, 0 <= k < Z.of_nat a ->
       (if invert =? 0 then negb (read_char w (p + k * stride) =? needle)
        else read_char w (p + k * stride) =? needle) = true) ->
    (if invert =? 0
     then negb (read_char w (p + Z.of_nat a * stride) =? needle)
     else read_char w (p + Z.of_nat a * stride) =? needle) = false ->
    npy_memchr_scan world read_char w p needle stride invert count subloopsize
    = (p + Z.of_nat a * stride, subloopsize + Z.of_nat a).
Proof.
  induction a as [|a IH]; intros count p subloopsize Hlt Hall Hstop;
    (destruct count as [|count]; [lia|]); cbn [npy_memchr_scan].
  - replace (p + Z.of_nat 0 * stride) with p in Hstop by lia.
    rewrite Hstop. f_equal; lia.
  - pose proof (Hall 0 ltac:(lia)) as H0.
    replace (p + 0 * stride) with p in H0 by lia. rewrite H0.
    rewrite (IH count (p + stride) (subloopsize + 1)).
    + f_equal; lia.
    + lia.
    + intros k Hk.
      replace (p + stride + k * stride) with (p + (k + 1) * stride) by lia.
      apply Hall. lia.
    + replace (p + stride + Z.of_nat a * stride)
        with (p + Z.of_nat (S a) * stride) by lia.
      exact Hstop.
Qed.

(** The two scans of one pass of the [do] loop step over at least one
    byte when bytes are left. *)
Lemma scans_progress (w : world) (mask mask_stride N : Z) :
  0 < N ->
  let first := npy_memchr world read_char w mask 0 mask_stride N 1 in
  let second :=
    npy_memchr world read_char w (fst first) 0 mask_stride (N - snd first) 0 in
  1 <= snd first + snd second.
Proof.
  intros HN. unfold npy_memchr.
  destruct (Z.to_nat N) as [|count] eqn:EN; [lia|].
  cbn [npy_memchr_scan]. change (1 =? 0) with false. cbv iota.
  destruct (read_char w mask =? 0) eqn:Ebyte.
  - pose proof (npy_memchr_scan_bounds w 0 mask_stride 1 count
                  (mask + mask_stride) (0 + 1)) as H1.
    pose proof (npy_memchr_scan_bounds w 0 mask_stride 0
                  (Z.to_nat
                     (N - snd (npy_memchr_scan world read_char w
                                 (mask + mask_stride) 0 mask_stride 1 count
                                 (0 + 1))))
                  (fst (npy_memchr_scan world read_char w
                          (mask + mask_stride) 0 mask_stride 1 count (0 + 1)))
                  0) as H2.
    cbv zeta. lia.
  - cbv zeta. cbn [fst snd]. rewrite Z.sub_0_r, EN.
    cbn [npy_memchr_scan]. change (0 =? 0) with true. cbv iota.
    rewrite Ebyte. cbn [negb].
    pose proof (npy_memchr_scan_bounds w 0 mask_stride 0 count
                  (mask + mask_stride) (0 + 1)) as H2.
    lia.
Qed.

Lemma scans_bounds (w : world) (mask mask_stride N : Z) :
  let first := npy_memchr world read_char w mask 0 mask_stride N 1 in
  let second :=
    npy_memchr world read_char w (fst first) 0 mask_stride (N - snd first) 0 in
  0 <= snd first /\ 0 <= snd second.
Proof.
  unfold npy_memchr. cbv zeta. split.
  - pose proof (npy_memchr_scan_bounds w 0 mask_stride 1 (Z.to_nat N) mask 0).
    lia.
  - match goal with
    | |- 0 <= snd (npy_memchr_scan _ _ _ ?p _ _ _ ?c _) =>
        pose proof (npy_memchr_scan_bounds w 0 mask_stride 0 c p 0)
    end.
    lia.
Qed.

(** A pass of the [do] loop that goes on to the test [N > 0] with elements
    left has taken at least one element off. *)
Lemma masked_body_progress (context : PyArrayMethod_Context)
    (auxdata : _masked_stridedloop_data) (strides : list Z)
    (mask_stride : Z) (st st' : masked_state world) :
  masked_body world read_char extern_strided_loop context auxdata strides
    mask_stride st = Ok (Again world st') ->
  0 < remaining world st' ->
  remaining world st' + 1 <= remaining world st.
Proof.
  unfold masked_body. intros Hbody Hpos.
  pose proof (scans_progress (memory world st) (mask world st) mask_stride
                (remaining world st)) as Hprog.
  pose proof (scans_bounds (memory world st) (mask world st) mask_stride
                (remaining world st)) as Hbounds.
  cbv zeta in Hprog, Hbounds.
  destruct (npy_memchr world read_char (memory world st) (mask world st) 0
              mask_stride (remaining world st) 1) as [m1 s1].
  cbn [fst snd] in Hprog, Hbounds.
  apply bind_Ok_inv in Hbody as (ptrs & _ & Hbody).
  destruct (npy_memchr world read_char (memory world st) m1 0 mask_stride
              (remaining world st - s1) 0) as [m2 s2].
  cbn [fst snd] in Hprog, Hbounds.
  apply bind_Ok_inv in Hbody as ([res w'] & _ & Hbody).
  destruct (negb (res =? 0)); [discriminate Hbody|].
  apply bind_Ok_inv in Hbody as (ptrs' & _ & Hbody).
  injection Hbody as <-. cbn [remaining] in Hpos |- *.
  destruct (Z.le_gt_cases (remaining world st) 0) as [Hle|Hgt]; lia.
Qed.

Lemma masked_do_while_returns (context : PyArrayMethod_Context)
    (auxdata : _masked_stridedloop_data) (strides : list Z)
    (mask_stride : Z) (fuel : nat) :
  forall st : masked_state world,
    (Z.to_nat (remaining world st) < fuel)%nat ->
    masked_do_while world read_char extern_strided_loop fuel context auxdata
      strides mask_stride st <> None.
Proof.
  induction fuel as [|fuel IH]; intros st Hfuel; [lia|].
  cbn [masked_do_while].
  destruct (masked_body world read_char extern_strided_loop context auxdata
              strides mask_stride st) as [[res w'|st']| |] eqn:Hbody;
    try discriminate.
  destruct (Z.gtb_spec (remaining world st') 0) as [Hpos|Hend];
    [|discriminate].
  apply IH.
  pose proof (masked_body_progress _ _ _ _ _ _ Hbody ltac:(lia)). lia.
Qed.

(** X18: the masked loop returns, whatever the inner loop does and
    whatever the mask holds: its [do] loop makes at most [N + 1] passes,
    since every pass that leaves elements has taken at least one off. *)
Theorem masked_loop_returns (context : PyArrayMethod_Context)
    (data dimensions strides : list Z) (auxdata : _masked_stridedloop_data)
    (w : world) :
  exists r,
    generic_masked_strided_loop world read_char extern_strided_loop context
      data dimensions strides auxdata w = Some r.
Proof.
  unfold generic_masked_strided_loop.
  destruct (read_array data 0 (Z.to_nat (nargs auxdata))) as [ptrs| |];
    cbn [bind]; eauto.
  destruct (load data (nargs auxdata)) as [mask0| |]; cbn [bind]; eauto.
  destruct (load strides (nargs auxdata)) as [mask_stride| |]; cbn [bind];
    eauto.
  destruct (load dimensions 0) as [N| |]; cbn [bind]; eauto.
  match goal with
  | |- exists r, ?run = Some r =>
      destruct run as [r|] eqn:Hrun; [eauto|]
  end.
  exfalso. revert Hrun. apply masked_do_while_returns. simpl. lia.
Qed.

(** Where the masked loop starts its [do] loop. *)
Lemma generic_masked_start (context : PyArrayMethod_Context)
    (data dimensions strides : list Z) (auxdata : _masked_stridedloop_data)
    (w : world) (n : nat) (mask0 mask_stride N : Z) :
  nargs auxdata = Z.of_nat n ->
  data !! n = Some mask0 ->
  strides !! n = Some mask_stride ->
  dimensions !! 0%nat = Some N ->
  generic_masked_strided_loop world read_char extern_strided_loop context
    data dimensions strides auxdata w
  = masked_do_while world read_char extern_strided_loop (S (Z.to_nat N))
      context auxdata strides mask_stride
      {| dataptrs := pointers_at data strides n 0; mask := mask0;
         remaining := N; memory := w |}.
Proof.
  intros Hnargs Hmask Hstride HN.
  pose proof (lookup_lt_Some _ _ _ Hmask) as Hdata.
  pose proof (lookup_lt_Some _ _ _ Hstride) as Hstrides.
  unfold generic_masked_strided_loop.
  rewrite Hnargs, Nat2Z.id.
  rewrite read_array_take by (simpl; lia). cbn [bind].
  rewrite (load_Ok data (Z.of_nat n) mask0) by (rewrite ?Nat2Z.id; auto; lia).
  rewrite (load_Ok strides (Z.of_nat n) mask_stride)
    by (rewrite ?Nat2Z.id; auto; lia).
  rewrite (load_Ok dimensions 0 N) by (auto; lia).
  cbn [bind]. change (Z.to_nat 0) with 0%nat. rewrite drop_0.
  now rewrite pointers_at_0 by lia.
Qed.

(** One pass of the [do] loop, from the runs its two scans find. *)
Lemma masked_body_pass (context : PyArrayMethod_Context)
    (data strides : list Z) (auxdata : _masked_stridedloop_data)
    (w : world) (n : nat) (mask_stride k m R m1 s1 m2 s2 : Z) :
  nargs auxdata = Z.of_nat n ->
  (n <= length data)%nat ->
  (n <= length strides)%nat ->
  npy_memchr world read_char w m 0 mask_stride R 1 = (m1, s1) ->
  npy_memchr world read_char w m1 0 mask_stride (R - s1) 0 = (m2, s2) ->
  masked_body world read_char extern_strided_loop context auxdata strides
    mask_stride
    {| dataptrs := pointers_at data strides n k; mask := m; remaining := R;
       memory := w |}
  = (r <- call_strided_loop world extern_strided_loop
            (unmasked_stridedloop auxdata) context
            (pointers_at data strides n (k + s1)) s2 strides
            (unmasked_auxdata auxdata) w ;;
     if negb (fst r =? 0) then Ok (Return world (fst r) (snd r))
     else Ok (Again world
                {| dataptrs := pointers_at data strides n (k + s1 + s2);
                   mask := m2; remaining := R - s1 - s2;
                   memory := snd r |})).
Proof.
  intros Hnargs Hdata Hstrides Hfirst Hsecond. unfold masked_body.
  cbn [dataptrs mask remaining memory].
  rewrite Hfirst, Hnargs, Nat2Z.id.
  rewrite (advance_pointers_at data strides n Hdata Hstrides). cbn [bind].
  rewrite Hsecond.
  destruct (call_strided_loop world extern_strided_loop _ _ _ _ _ _ w)
    as [[res w']| |]; cbn [bind fst snd]; try reflexivity.
  destruct (negb (res =? 0)); [reflexivity|].
  rewrite (advance_pointers_at data strides n Hdata Hstrides). reflexivity.
Qed.

(** A mask that is false on [a] elements and true on the rest. *)
Lemma single_run_of_masked_loop (context : PyArrayMethod_Context)
    (data dimensions strides : list Z) (auxdata : _masked_stridedloop_data)
    (w : world) (n : nat) (mask0 mask_stride N a : Z) :
  nargs auxdata = Z.of_nat n ->
  data !! n = Some mask0 ->
  strides !! n = Some mask_stride ->
  dimensions !! 0%nat = Some N ->
  0 <= a <= N ->
  (forall k, 0 <= k < a -> read_char w (mask0 + k * mask_stride) = 0) ->
  (forall k, a <= k < N -> read_char w (mask0 + k * mask_stride) <> 0) ->
  generic_masked_strided_loop world read_char extern_strided_loop context
    data dimensions strides auxdata w
  = Some (call_strided_loop world extern_strided_loop
            (unmasked_stridedloop auxdata) context
            (pointers_at data strides n a) (N - a) strides
            (unmasked_auxdata auxdata) w).
Proof.
  intros Hnargs Hmask Hstride HN Ha Hfalse Htrue.
  pose proof (lookup_lt_Some _ _ _ Hmask) as Hdata.
  pose proof (lookup_lt_Some _ _ _ Hstride) as Hstrides.
  rewrite (generic_masked_start _ _ _ _ _ _ n mask0 mask_stride N)
    by assumption.
  assert (Hfirst : npy_memchr world read_char w mask0 0 mask_stride N 1
                   = (mask0 + a * mask_stride, a)).
  { unfold npy_memchr.
    destruct (Z.eq_dec a N) as [->|Hne].
    - rewrite npy_memchr_scan_all.
      + rewrite Z2Nat.id by lia. f_equal; lia.
      + intros k Hk. change (1 =? 0) with false. cbv iota.
        apply Z.eqb_eq, Hfalse. lia.
    - rewrite (npy_memchr_scan_prefix w 0 mask_stride 1 (Z.to_nat a)).
      + rewrite Z2Nat.id by lia. f_equal; lia.
      + lia.
      + intros k Hk. change (1 =? 0) with false. cbv iota.
        apply Z.eqb_eq, Hfalse. lia.
      + change (1 =? 0) with false. cbv iota.
        apply Z.eqb_neq. rewrite Z2Nat.id by lia. apply Htrue. lia. }
  assert (Hsecond : npy_memchr world read_char w (mask0 + a * mask_stride) 0
                      mask_stride (N - a) 0
                    = (mask0 + N * mask_stride, N - a)).
  { unfold npy_memchr. rewrite npy_memchr_scan_all.
    - rewrite Z2Nat.id by lia.
      replace (mask0 + a * mask_stride + (N - a) * mask_stride)
        with (mask0 + N * mask_stride) by lia.
      f_equal; lia.
    - intros k Hk. change (0 =? 0) with true. cbv iota.
      apply negb_true_iff, Z.eqb_neq.
      replace (mask0 + a * mask_stride + k * mask_stride)
        with (mask0 + (a + k) * mask_stride) by lia.
      apply Htrue. lia. }
  cbn [masked_do_while].
  rewrite (masked_body_pass context data strides auxdata w n mask_stride 0
             mask0 N _ _ _ _ Hnargs ltac:(lia) ltac:(lia) Hfirst Hsecond).
  replace (0 + a) with a by lia.
  destruct (call_strided_loop world extern_strided_loop _ _ _ _ _ _ w)
    as [[res w']| |]; cbn [bind fst snd]; try reflexivity.
  destruct (Z.eqb_spec res 0) as [->|Hres]; cbn [negb]; [|reflexivity].
  cbn [remaining memory].
  destruct (Z.gtb_spec (N - a - (N - a)) 0); [lia | reflexivity].
Qed.

(** X19: on a mask that is false for the first [a] elements and true for
    the [N - a] elements that follow, the masked loop is one call of the
    inner loop: on the data pointers moved [a] elements on, with length
    [N - a]; what that call returns or raises is what the masked loop
    returns or raises.  With [a = N] the inner loop is called on no
    element, and with [a = 0] on all the elements. *)
Theorem masked_loop_single_run (context : PyArrayMethod_Context)
    (data dimensions strides : list Z) (auxdata : _masked_stridedloop_data)
    (w : world) (n : nat) (mask0 mask_stride N a : Z) :
  nargs auxdata = Z.of_nat n ->
  data !! n = Some mask0 ->
  strides !! n = Some mask_stride ->
  dimensions !! 0%nat = Some N ->
  0 <= a <= N ->
  (forall k, 0 <= k < a -> read_char w (mask0 + k * mask_stride) = 0) ->
  (forall k, a <= k < N -> read_char w (mask0 + k * mask_stride) <> 0) ->
  generic_masked_strided_loop world read_char extern_strided_loop context
    data dimensions strides auxdata w
  = Some (call_strided_loop world extern_strided_loop
            (unmasked_stridedloop auxdata) context
            (pointers_at data strides n a) (N - a) strides
            (unmasked_auxdata auxdata) w).
Proof.
  intros Hnargs Hmask Hstride HN Ha Hfalse Htrue.
  now apply (single_run_of_masked_loop context data dimensions strides
               auxdata w n mask0 mask_stride N a).
Qed.

(** X20: a first call of the inner loop that returns a value other than
    0 ends the masked loop: the masked loop returns that value, with the
    memory as that call left it, and calls the inner loop no more.  The
    first call is on the first run of true mask entries, found by the two
    scans of the mask. *)
Theorem masked_loop_stops_at_failure (context : PyArrayMethod_Context)
    (data dimensions strides : list Z) (auxdata : _masked_stridedloop_data)
    (w w' : world) (n : nat) (mask0 mask_stride N m1 s1 m2 s2 res : Z) :
  nargs auxdata = Z.of_nat n ->
  data !! n = Some mask0 ->
  strides !! n = Some mask_stride ->
  dimensions !! 0%nat = Some N ->
  npy_memchr world read_char w mask0 0 mask_stride N 1 = (m1, s1) ->
  npy_memchr world read_char w m1 0 mask_stride (N - s1) 0 = (m2, s2) ->
  call_strided_loop world extern_strided_loop (unmasked_stridedloop auxdata)
    context (pointers_at data strides n s1) s2 strides
    (unmasked_auxdata auxdata) w = Ok (res, w') ->
  res <> 0 ->
  generic_masked_strided_loop world read_char extern_strided_loop context
    data dimensions strides auxdata w
  = Some (Ok (res, w')).
Proof.
  intros Hnargs Hmask Hstride HN Hfirst Hsecond Hcall Hres.
  pose proof (lookup_lt_Some _ _ _ Hmask) as Hdata.
  pose proof (lookup_lt_Some _ _ _ Hstride) as Hstrides.
  rewrite (generic_masked_start _ _ _ _ _ _ n mask0 mask_stride N)
    by assumption.
  cbn [masked_do_while].
  rewrite (masked_body_pass context data strides auxdata w n mask_stride 0
             mask0 N _ _ _ _ Hnargs ltac:(lia) ltac:(lia) Hfirst Hsecond).
  replace (0 + s1) with s1 by lia. rewrite Hcall. cbn [bind fst snd].
  destruct (Z.eqb_spec res 0); [contradiction | reflexivity].
Qed.

End MaskedGeneral.

Lemma masked_loop_single_run_witness :
  generic_masked_strided_loop counting_world bytes_at counting_loop
    cast_context [0; 1000] [5] [8; 1] one_argument
    {| bytes_at := tail_mask; visits := [] |}
  = Some (call_strided_loop counting_world counting_loop
            (unmasked_stridedloop one_argument) cast_context
            (pointers_at [0; 1000] [8; 1] 1 2) (5 - 2) [8; 1]
            (unmasked_auxdata one_argument)
            {| bytes_at := tail_mask; visits := [] |}).
Proof.
  apply (masked_loop_single_run counting_world bytes_at counting_loop
           cast_context [0; 1000] [5] [8; 1] one_argument
           {| bytes_at := tail_mask; visits := [] |} 1%nat 1000 1 5 2);
    try reflexivity; try lia.
  - intros k Hk. simpl. unfold tail_mask.
    destruct (Z.ltb_spec (1000 + k * 1) 1002); [reflexivity | lia].
  - intros k Hk. simpl. unfold tail_mask.
    destruct (Z.ltb_spec (1000 + k * 1) 1002); [lia | discriminate].
Defined.

Lemma masked_loop_stops_at_failure_witness :
  generic_masked_strided_loop counting_world bytes_at failing_loop
    cast_context [0; 1000] [5] [8; 1] one_argument
    {| bytes_at := five_mask; visits := [] |}
  = Some (Ok (-1, {| bytes_at := five_mask; visits := [([0], 2)] |})).
Proof.
  apply (masked_loop_stops_at_failure counting_world bytes_at failing_loop
           cast_context [0; 1000] [5] [8; 1] one_argument
           {| bytes_at := five_mask; visits := [] |}
           {| bytes_at := five_mask; visits := [([0], 2)] |}
           1%nat 1000 1 5 1000 0 1002 2 (-1));
    try reflexivity.
  discriminate.
Defined.

(** ** The constructor and the direct strided call together *)

Lemma FromSpec_builtin_level (spec : PyArrayMethod_Spec) (private : Z)
    (self : PyBoundArrayMethodObject) :
  PyArrayMethod_FromSpec_int spec private = Ok self ->
  resolve_descriptors (method self) = Some default_resolve_descriptors_ptr ->
  0 <= casting (method self).
Proof.
  intros H Hres.
  destruct (FromSpec_fields _ _ _ H) as (_ & _ & Hc & _).
  destruct (FromSpec_Ok_steps _ _ _ H)
    as (Hvalid & meth0 & meth1 & Hslots & Hresolver & Hloops & Hself).
  assert (Hres0 : is_fn (resolve_descriptors meth0)
                    default_resolve_descriptors_ptr = true).
  { apply is_fn_true. rewrite Hself in Hres. simpl in Hres.
    destruct (is_fn (get_strided_loop meth0) npy_default_get_strided_loop_ptr).
    - apply check_loops_arity in Hloops as (_ & _ & _ & _ & <- & _).
      exact Hres.
    - now subst meth1. }
  destruct (Hresolver Hres0) as (Hcast & _).
  destruct (validate_spec_Ok_arity _ _ Hvalid) as [_ [Hlevel|Hminus]];
    [|contradiction].
  rewrite Hc.
  destruct (Z.lt_ge_cases (spec_casting spec) 0) as [Hneg|Hpos]; [|exact Hpos].
  assert (Hland : Z.land (spec_casting spec) (Z.lnot _NPY_CAST_IS_VIEW) < 0)
    by (apply Z.land_neg; split; [exact Hneg | reflexivity]).
  unfold is_casting_level, NPY_NO_CASTING, NPY_EQUIV_CASTING,
    NPY_SAFE_CASTING, NPY_SAME_KIND_CASTING, NPY_UNSAFE_CASTING in Hlevel.
  repeat (apply orb_true_iff in Hlevel as [Hlevel|Hlevel]);
    apply Z.eqb_eq in Hlevel; lia.
Qed.

Lemma FromSpec_loops_consistent (spec : PyArrayMethod_Spec) (private : Z)
    (self : PyBoundArrayMethodObject) :
  PyArrayMethod_FromSpec_int spec private = Ok self ->
  get_strided_loop (method self) = Some npy_default_get_strided_loop_ptr ->
  loops_consistent (method self).
Proof.
  intros H Hsel.
  destruct (FromSpec_builtin_selector _ _ _ H Hsel)
    as (meth0 & meth1 & _ & Hc & Hm).
  pose proof (check_loops_consistent _ _ Hc) as Hcons.
  unfold loops_consistent in *. rewrite Hm. exact Hcons.
Qed.

(** X21: a method that left the constructor with the built-in resolver
    and the built-in selector can be called directly.  On arrays that pass
    the checks of the first loop and have canonical instances, the call
    either raises the [ValueError] for unaligned input, when an array is
    not aligned and [_supports_unaligned] is false, or is one call through
    a loop pointer of the method that is not null. *)
Theorem built_method_strided_call
    (NewByteorder : PyArray_Descr -> option PyArray_Descr)
    (CommonDType :
       PyArray_DTypeMeta -> option PyArray_DTypeMeta ->
       option PyArray_DTypeMeta)
    (extern_resolver : Z -> resolver_fn) (extern_selector : Z -> get_loop_fn)
    (world : Type)
    (extern_loop :
       Z -> PyArrayMethod_Context -> list Z -> Z -> list Z -> option Z ->
       world -> outcome (Z * world))
    (spec : PyArrayMethod_Spec) (private : Z)
    (self : PyBoundArrayMethodObject) (arrs : list PyArrayObject) (len : Z)
    (w : world) :
  PyArrayMethod_FromSpec_int spec private = Ok self ->
  resolve_descriptors (method self) = Some default_resolve_descriptors_ptr ->
  get_strided_loop (method self) = Some npy_default_get_strided_loop_ptr ->
  Z.of_nat (length arrs) = nin (method self) + nout (method self) ->
  (forall k arr, arrs !! k = Some arr ->
     accepted_array self len k arr /\ native_byteorder (arr_descr arr) = true) ->
  (boundarraymethod__supports_unaligned self = false
   /\ forallb arr_aligned arrs = false
   /\ boundarraymethod__simple_strided_call NewByteorder CommonDType
        extern_resolver extern_selector world extern_loop self
        (PyTupleExact (map PyArrayExact arrs)) w
      = Raise PyExc_ValueError "method does not support unaligned input.")
  \/ (exists f,
        loop_for (method self) (forallb arr_aligned arrs)
          (contiguous_arrays arrs) = Some f
        /\ boundarraymethod__simple_strided_call NewByteorder CommonDType
             extern_resolver extern_selector world extern_loop self
             (PyTupleExact (map PyArrayExact arrs)) w
           = loop_result
               (call_strided_loop world extern_loop (Some f)
                  (context_of self arrs) (map arr_bytes arrs)
                  (call_length (gathered arrs)) (map stride_of arrs) None w)).
Proof.
  intros Hself Hres Hsel Hlen Hall.
  assert (Hacc : forall k arr, arrs !! k = Some arr ->
                   accepted_array self len k arr)
    by (intros k arr Hk; exact (proj1 (Hall k arr Hk))).
  pose proof (FromSpec_builtin_level _ _ _ Hself Hres) as Hlevel.
  destruct (FromSpec_loops_consistent _ _ _ Hself Hsel)
    as (Hst & Hco & Huc & Hus).
  assert (Hdt : length (dtypes self) = length arrs).
  { destruct (FromSpec_fields _ _ _ Hself) as (Hn & Ho & _ & _ & Hd).
    destruct (FromSpec_Ok_steps _ _ _ Hself) as (Hvalid & _).
    pose proof (validate_spec_length _ _ Hvalid) as Hsl.
    rewrite Hd, length_take. rewrite Hn, Ho in Hlen. lia. }
  unfold boundarraymethod__supports_unaligned.
  destruct (forallb arr_aligned arrs) eqn:Haligned.
  - right.
    destruct (loop_for (method self) true (contiguous_arrays arrs))
      as [f|] eqn:Hf.
    + exists f. split; [reflexivity|]. rewrite <- Hf, <- Haligned.
      apply (strided_call_builtin_loop NewByteorder CommonDType
               extern_resolver extern_selector world extern_loop self arrs
               len w); auto.
    + exfalso. unfold loop_for in Hf.
      destruct (contiguous_arrays arrs), (contiguous_loop (method self));
        simpl in Hf; congruence.
  - destruct (Z.eqb_spec
                (Z.land (flags (method self)) NPY_METH_SUPPORTS_UNALIGNED) 0)
      as [Hflag|Hflag].
    + left. split; [reflexivity|]. split; [reflexivity|].
      unfold boundarraymethod__simple_strided_call.
      rewrite length_map, Hlen, Z.eqb_refl. cbn [negb].
      rewrite (arrays_of_tuple_gathered self len arrs Hlen Hacc). cbn [bind].
      unfold gathered at 1. cbn [call_aligned]. rewrite Haligned, Hflag.
      reflexivity.
    + right. apply Hus in Hflag.
      destruct (loop_for (method self) false (contiguous_arrays arrs))
        as [f|] eqn:Hf.
      * exists f. split; [reflexivity|]. rewrite <- Hf, <- Haligned.
        apply (strided_call_builtin_loop NewByteorder CommonDType
                 extern_resolver extern_selector world extern_loop self arrs
                 len w); auto.
        right. now apply Hus.
      * exfalso. unfold loop_for in Hf.
        destruct (contiguous_arrays arrs),
                 (unaligned_contiguous_loop (method self));
          simpl in Hf; congruence.
Qed.

Lemma built_method_strided_call_witness :
  exists self,
    PyArrayMethod_FromSpec_int cast_spec 0 = Ok self
    /\ ((boundarraymethod__supports_unaligned self = false
         /\ forallb arr_aligned [int64_array 4096 true; float32_array 8192]
            = false
         /\ simple_strided_call self
              (PyTupleExact
                 (map PyArrayExact
                    [int64_array 4096 true; float32_array 8192]))
            = Raise PyExc_ValueError
                "method does not support unaligned input.")
        \/ (exists f,
              loop_for (method self)
                (forallb arr_aligned
                   [int64_array 4096 true; float32_array 8192])
                (contiguous_arrays
                   [int64_array 4096 true; float32_array 8192]) = Some f
              /\ simple_strided_call self
                   (PyTupleExact
                      (map PyArrayExact
                         [int64_array 4096 true; float32_array 8192]))
                 = loop_result
                     (call_strided_loop unit idle_loop (Some f)
                        (context_of self
                           [int64_array 4096 true; float32_array 8192])
                        (map arr_bytes
                           [int64_array 4096 true; float32_array 8192])
                        (call_length
                           (gathered
                              [int64_array 4096 true; float32_array 8192]))
                        (map stride_of
                           [int64_array 4096 true; float32_array 8192])
                        None tt))).
Proof.
  eexists. split; [reflexivity|].
  apply (built_method_strided_call swapped_copy same_class_only
           no_extern_resolver no_extern_selector unit idle_loop cast_spec 0 _
           [int64_array 4096 true; float32_array 8192] 4 tt eq_refl eq_refl
           eq_refl eq_refl).
  intros [|[|k]] arr Hk; try discriminate Hk;
    injection Hk as <-;
    (split; [|reflexivity]);
    (split; [eexists; split; reflexivity|]);
    repeat split; try reflexivity; try (intros _; reflexivity);
    discriminate.
Defined.

(** ** The selector of masked loops and the masked loop together *)

(** X22: the masked loop of a method that uses the built-in selector, run
    with a mask that is true everywhere, is the plain loop of the method.
    [PyArrayMethod_GetMaskedStridedLoop] succeeds when memory is there, and
    the masked loop run with the auxiliary data it hands back takes the
    mask from the operand after the [nin + nout] operands of the method and
    makes one call of the loop the built-in selector picks, on the data
    pointers as given and all [N] elements. *)
Theorem masked_selection_all_true
    (extern_selector : Z -> get_loop_fn) (world : Type)
    (read_char : world -> Z -> Z)
    (extern_loop :
       Z -> PyArrayMethod_Context -> list Z -> Z -> list Z -> option Z ->
       world -> outcome (Z * world))
    (context : PyArrayMethod_Context) (aligned : Z)
    (ds : list PyArray_Descr) (ptrs ss dimensions : list Z)
    (mask0 mask_stride N : Z) (w : world) :
  get_strided_loop (ctx_method context)
  = Some npy_default_get_strided_loop_ptr ->
  0 <= nin (ctx_method context) + nout (ctx_method context) ->
  descriptors context = map Some ds ->
  Z.of_nat (length ds)
  = nin (ctx_method context) + nout (ctx_method context) ->
  length ptrs = length ds ->
  length ss = length ds ->
  dimensions !! 0%nat = Some N ->
  0 <= N ->
  (forall k, 0 <= k < N -> read_char w (mask0 + k * mask_stride) <> 0) ->
  exists r g,
    PyArrayMethod_GetMaskedStridedLoop extern_selector true context aligned
      (ss ++ [mask_stride]) = Ok r
    /\ npy_default_get_strided_loop context aligned 0 (ss ++ [mask_stride])
       = Ok g
    /\ masked_flags r = out_flags g
    /\ generic_masked_strided_loop world read_char extern_loop context
         (ptrs ++ [mask0]) dimensions (ss ++ [mask_stride])
         (masked_transferdata r) w
       = Some (call_strided_loop world extern_loop (out_loop g) context ptrs N
                 (ss ++ [mask_stride]) None w).
Proof.
  intros Hsel Hnargs Hdescrs Hds Hptrs Hss HN HN0 Htrue.
  assert (Hg : exists g,
             npy_default_get_strided_loop context aligned 0
               (ss ++ [mask_stride]) = Ok g
             /\ ret g = 0 /\ out_transferdata g = None).
  { unfold npy_default_get_strided_loop, is_contiguous. rewrite Hdescrs.
    destruct (is_contiguous_from_defined (ss ++ [mask_stride]) ds
                (Z.to_nat (nin (ctx_method context)
                           + nout (ctx_method context))) 0)
      as [c Hc]; [lia | rewrite length_app; simpl; lia | simpl; lia |].
    rewrite Hc. cbn [bind].
    destruct (negb (aligned =? 0));
      [destruct (is_null (contiguous_loop (ctx_method context)))
      |destruct (is_null (unaligned_contiguous_loop (ctx_method context)))];
      try destruct (c =? 0); eexists; repeat split; reflexivity. }
  destruct Hg as (g & Hg & Hret & Haux).
  exists {| masked_transferdata :=
              {| unmasked_stridedloop := out_loop g;
                 unmasked_auxdata := out_transferdata g;
                 nargs := nin (ctx_method context)
                          + nout (ctx_method context) |};
            masked_flags := out_flags g |}, g.
  split; [|split; [exact Hg|split; [reflexivity|]]].
  - unfold PyArrayMethod_GetMaskedStridedLoop. cbn [negb].
    rewrite Hsel. cbn [call_get_strided_loop]. rewrite Hg. cbn [bind].
    rewrite Hret. reflexivity.
  - cbn [masked_transferdata].
    rewrite (single_run_of_masked_loop world read_char extern_loop
               context (ptrs ++ [mask0]) dimensions (ss ++ [mask_stride]) _ w
               (length ds) mask0 mask_stride N 0).
    + cbn [unmasked_stridedloop unmasked_auxdata]. rewrite Haux.
      rewrite pointers_at_0 by (rewrite length_app; simpl; lia).
      rewrite take_app_length' by lia. now rewrite Z.sub_0_r.
    + cbn [nargs]. lia.
    + rewrite lookup_app_r by lia.
      replace (length ds - length ptrs)%nat with 0%nat by lia. reflexivity.
    + rewrite lookup_app_r by lia.
      replace (length ds - length ss)%nat with 0%nat by lia. reflexivity.
    + exact HN.
    + lia.
    + intros k Hk. lia.
    + intros k Hk. apply Htrue. lia.
Qed.

Lemma masked_selection_all_true_witness :
  exists r g,
    PyArrayMethod_GetMaskedStridedLoop no_extern_selector true cast_context 1
      ([8; 4] ++ [1]) = Ok r
    /\ npy_default_get_strided_loop cast_context 1 0 ([8; 4] ++ [1]) = Ok g
    /\ masked_flags r = out_flags g
    /\ generic_masked_strided_loop counting_world bytes_at counting_loop
         cast_context ([0; 4096] ++ [1000]) [5] ([8; 4] ++ [1])
         (masked_transferdata r) {| bytes_at := true_mask; visits := [] |}
       = Some (call_strided_loop counting_world counting_loop (out_loop g)
                 cast_context [0; 4096] 5 ([8; 4] ++ [1]) None
                 {| bytes_at := true_mask; visits := [] |}).
Proof.
  apply (masked_selection_all_true no_extern_selector counting_world bytes_at
           counting_loop cast_context 1 [Int64_descr; Float32_descr]
           [0; 4096] [8; 4] [5] 1000 1 5
           {| bytes_at := true_mask; visits := [] |});
    try reflexivity; try (simpl; lia).
  intros k Hk. discriminate.
Defined.

(** ** What a direct strided call that succeeds was given *)

Lemma arrays_of_tuple_inv (self : PyBoundArrayMethodObject)
    (items : list PyObject) (len : Z) (count : nat) :
  forall (i : Z) (acc a : strided_call_args),
    0 <= i ->
    (0 < i -> call_length acc = len) ->
    (i = 0 -> forall arr, items !! 0%nat = Some (PyArrayExact arr) ->
       arr_size arr = len) ->
    arrays_of_tuple self items i count acc = Ok a ->
    exists arrs,
      length arrs = count
      /\ forall j arr, arrs !! j = Some arr ->
           items !! (Z.to_nat i + j)%nat = Some (PyArrayExact arr)
           /\ accepted_array self len (Z.to_nat i + j) arr.
Proof.
  induction count as [|count IH]; intros i acc a Hi Hacc Hfirst H.
  - exists []. split; [reflexivity|]. intros j arr Hj. discriminate Hj.
  - cbn [arrays_of_tuple] in H.
    apply bind_Ok_inv in H as (tmp & Htmp & H).
    unfold PyTuple_GetItem in Htmp.
    destruct (Z.ltb_spec i 0); [lia|].
    destruct (items !! Z.to_nat i) as [item|] eqn:Eitem; [|discriminate Htmp].
    injection Htmp as ->.
    destruct tmp as [|d|arr|addr]; try discriminate H.
    apply bind_Ok_inv in H as (bound & Hbound & H).
    apply load_lookup in Hbound as (_ & Hbound).
    destruct (exact_instance (arr_descr arr) bound) eqn:Hexact;
      [|discriminate H].
    destruct (Z.eqb_spec (arr_ndim arr) 1) as [Hndim|]; [|discriminate H].
    cbn [negb] in H.
    destruct (negb (i =? 0)
              && negb (arr_size arr =? call_length acc)) eqn:Hsize;
      [discriminate H|].
    assert (Hlen : arr_size arr = len).
    { destruct (Z.eqb_spec i 0) as [->|Hne].
      - apply (Hfirst eq_refl arr). exact Eitem.
      - cbn [negb andb] in Hsize. apply negb_false_iff, Z.eqb_eq in Hsize.
        rewrite Hsize. apply Hacc. lia. }
    apply bind_Ok_inv in H as (v & Hwrite & H).
    apply bind_Ok_inv in H as (stride & Hstride & H).
    match type of H with
    | arrays_of_tuple _ _ _ _ ?acc' = _ =>
        assert (Hnext : 0 < i + 1 -> call_length acc' = len)
    end.
    { intros _. cbn [call_length].
      destruct (Z.eqb_spec i 0); [exact Hlen | apply Hacc; lia]. }
    destruct (IH (i + 1) _ a ltac:(lia) Hnext ltac:(lia) H)
      as (arrs & Harrs & Hall).
    exists (arr :: arrs). split; [simpl; congruence|].
    intros [|j] arr' Hj.
    + injection Hj as <-. rewrite Nat.add_0_r. split; [exact Eitem|].
      split; [eauto|]. split; [exact Hndim|]. split; [exact Hlen|]. split.
      * intros Hout.
        destruct (Z.geb_spec i (nout (method self))); [|lia].
        unfold PyArray_FailUnlessWriteable in Hwrite.
        destruct (arr_writeable arr); [reflexivity | discriminate Hwrite].
      * intros Hnil. rewrite Hnil in Hstride. discriminate Hstride.
    + destruct (Hall j arr' Hj) as (Hitem & Haccepted).
      replace (Z.to_nat i + S j)%nat with (Z.to_nat (i + 1) + j)%nat by lia.
      auto.
Qed.

(** X23: a direct strided call that returns [None] was given a tuple of
    exact arrays, as many as the method has arguments, each with an instance
    exactly of the class bound at its position, one dimension, the length
    of the first array and, from position [nout] on, a writable buffer; and
    either all the arrays are aligned or [_supports_unaligned] is true. *)
Theorem strided_call_success_accepted
    (NewByteorder : PyArray_Descr -> option PyArray_Descr)
    (CommonDType :
       PyArray_DTypeMeta -> option PyArray_DTypeMeta ->
       option PyArray_DTypeMeta)
    (extern_resolver : Z -> resolver_fn) (extern_selector : Z -> get_loop_fn)
    (world : Type)
    (extern_loop :
       Z -> PyArrayMethod_Context -> list Z -> Z -> list Z -> option Z ->
       world -> outcome (Z * world))
    (self : PyBoundArrayMethodObject) (arg : PyArgument) (w w' : world) :
  boundarraymethod__simple_strided_call NewByteorder CommonDType
    extern_resolver extern_selector world extern_loop self arg w = Ok w' ->
  exists arrs,
    arg = PyTupleExact (map PyArrayExact arrs)
    /\ Z.of_nat (length arrs) = nin (method self) + nout (method self)
    /\ (forall k arr, arrs !! k = Some arr ->
          accepted_array self (first_length (map PyArrayExact arrs)) k arr)
    /\ (forallb arr_aligned arrs = true
        \/ boundarraymethod__supports_unaligned self = true).
Proof.
  unfold boundarraymethod__simple_strided_call. intros H.
  destruct arg as [items|o]; [|discriminate H].
  destruct (Z.eqb_spec (Z.of_nat (length items))
              (nin (method self) + nout (method self))) as [Hlen|];
    [|discriminate H].
  cbn [negb] in H.
  apply bind_Ok_inv in H as (a & Harrays & H).
  destruct (arrays_of_tuple_inv self items (first_length items) _ 0 _ a
              ltac:(lia) ltac:(lia)
              ltac:(intros _ arr Harr; destruct items as [|item items];
                    [discriminate Harr|]; injection Harr as ->; reflexivity)
              Harrays)
    as (arrs & Hcount & Hall).
  assert (Hitems : items = map PyArrayExact arrs).
  { apply list_eq. intros k.
    change (map PyArrayExact arrs) with (PyArrayExact <$> arrs).
    rewrite list_lookup_fmap.
    destruct (arrs !! k) as [arr|] eqn:Ek.
    - destruct (Hall k arr Ek) as (Hitem & _). exact Hitem.
    - apply lookup_ge_None in Ek. apply lookup_ge_None. lia. }
  exists arrs. split; [now rewrite Hitems|].
  assert (Harrs : Z.of_nat (length arrs)
                  = nin (method self) + nout (method self)) by lia.
  split; [exact Harrs|].
  assert (Haccepted : forall k arr, arrs !! k = Some arr ->
            accepted_array self (first_length (map PyArrayExact arrs)) k arr).
  { intros k arr Hk. rewrite <- Hitems. exact (proj2 (Hall k arr Hk)). }
  split; [exact Haccepted|].
  rewrite Hitems in Harrays.
  rewrite (arrays_of_tuple_gathered self _ arrs Harrs Haccepted) in Harrays.
  injection Harrays as <-.
  unfold gathered in H at 1. cbn [call_aligned] in H.
  unfold boundarraymethod__supports_unaligned.
  destruct (forallb arr_aligned arrs); [left; reflexivity|].
  destruct (Z.land (flags (method self)) NPY_METH_SUPPORTS_UNALIGNED =? 0);
    [discriminate H | right; reflexivity].
Qed.

Lemma strided_call_success_accepted_witness :
  exists arrs,
    PyTupleExact
      (map PyArrayExact
         [int64_array 4096 true; int64_array 8192 true;
          int64_array 12288 true])
    = PyTupleExact (map PyArrayExact arrs)
    /\ Z.of_nat (length arrs)
       = nin (method (int64_method 2 1)) + nout (method (int64_method 2 1))
    /\ (forall k arr, arrs !! k = Some arr ->
          accepted_array (int64_method 2 1)
            (first_length (map PyArrayExact arrs)) k arr)
    /\ (forallb arr_aligned arrs = true
        \/ boundarraymethod__supports_unaligned (int64_method 2 1) = true).
Proof.
  apply (strided_call_success_accepted swapped_copy same_class_only
           no_extern_resolver no_extern_selector unit idle_loop
           (int64_method 2 1)
           (PyTupleExact
              (map PyArrayExact
                 [int64_array 4096 true; int64_array 8192 true;
                  int64_array 12288 true])) tt tt).
  reflexivity.
Defined.
